(** * Rental property backend: availability filter and pricing calculator

    A shallow embedding of two pieces of [backend/rentals]:
    - [PropertyFilter.filter_available_dates] (filters.py), the availability
      filter of the property list;
    - [PropertyViewSet.calculate_price] (views.py), the per-night pricing
      calculator: its body, and the route with [self.get_object()] (the
      filter backend and [get_object_or_404]) in front of it;
    together with the parts of [models.py] they read ([Property],
    [PricingRule] with its [Meta.ordering], [Booking]).

    Python values are modelled as the interpreter has them: [decimal.Decimal]
    as sign, coefficient and exponent with the arithmetic of the default
    context, [datetime.date] by its proleptic Gregorian ordinal, Django
    querysets as queries evaluated against the tables of a database. *)

From Stdlib Require Import ZArith List Bool String Ascii Lia Sorting.Sorted
  Sorting.Permutation.
From Equations Require Import Equations.

Import ListNotations.
Open Scope string_scope.
Open Scope list_scope.
Open Scope Z_scope.

(** String concatenation (Python's [+] on [str] and f-strings). *)
Infix "+++" := String.append (right associativity, at level 60).

(* ===================================================================== *)
(** ** Python's [decimal.Decimal], default context                        *)
(* ===================================================================== *)

Module PyDecimal.

(** A finite [Decimal]: [_sign], [_int] (the coefficient, a digit string in
    Python, a natural number here) and [_exp].  Its value is
    [(-1)^sign * coeff * 10^exp].  NaN and infinities cannot be stored in a
    [DecimalField] and are left out. *)
Record Decimal : Type := mkDecimal { sign : bool; coeff : Z; exp : Z }.

(** [getcontext().prec] of the default context. *)
Definition prec : Z := 28.

(** [str(n)] for a non-negative integer, most significant digit first. *)
Definition digit_char (d : Z) : ascii :=
  ascii_of_nat (48 + Z.to_nat d).

Fixpoint digits_aux (fuel : nat) (n : Z) (acc : string) : string :=
  match fuel with
  | O => acc
  | S fuel' =>
      let acc' := String (digit_char (n mod 10)) acc in
      if n <? 10 then acc' else digits_aux fuel' (n / 10) acc'
  end.

Definition str_int (n : Z) : string :=
  digits_aux (S (Z.to_nat (Z.log2 n))) n "".

(** [len(self._int)]: the number of decimal digits of the coefficient. *)
Fixpoint numdigits_aux (fuel : nat) (n : Z) : Z :=
  match fuel with
  | O => 0
  | S fuel' => if n <? 10 then 1 else 1 + numdigits_aux fuel' (n / 10)
  end.

Definition numdigits (n : Z) : Z :=
  numdigits_aux (S (Z.to_nat (Z.log2 n))) n.

(** [Decimal._fix] with ROUND_HALF_EVEN: a coefficient of more than [prec]
    digits is rounded to [prec] digits, ties to the even neighbour; when the
    rounding carries into a further digit the last one is dropped.  The
    exponent limits Emin and Emax (+-999999) are out of reach of the values
    computed here. *)
Definition fix_ (d : Decimal) : Decimal :=
  if coeff d =? 0 then d
  else
    let exp_min := numdigits (coeff d) + exp d - prec in
    if exp d <? exp_min then
      let k := exp_min - exp d in
      let q := coeff d / 10 ^ k in
      let r := coeff d mod 10 ^ k in
      let half := 5 * 10 ^ (k - 1) in
      let q' := if (half <? r) || ((r =? half) && Z.odd q) then q + 1 else q in
      if prec <? numdigits q'
      then mkDecimal (sign d) (q' / 10) (exp_min + 1)
      else mkDecimal (sign d) q' exp_min
    else d.

(** [Decimal.__mul__]: signs xor-ed, coefficients multiplied, exponents
    added, then [_fix]. *)
Definition dec_mul (a b : Decimal) : Decimal :=
  fix_ (mkDecimal (xorb (sign a) (sign b)) (coeff a * coeff b) (exp a + exp b)).

(** [Decimal.__add__]: both operands are brought to the smaller exponent,
    the signed coefficients are added, then [_fix].  The sum of two zeros
    takes the smaller sign; a zero difference is positive. *)
Definition dec_add (a b : Decimal) : Decimal :=
  let e := Z.min (exp a) (exp b) in
  if (coeff a =? 0) && (coeff b =? 0) then
    fix_ (mkDecimal (sign a && sign b) 0 e)
  else
    let ca := coeff a * 10 ^ (exp a - e) in
    let cb := coeff b * 10 ^ (exp b - e) in
    if Bool.eqb (sign a) (sign b) then fix_ (mkDecimal (sign a) (ca + cb) e)
    else if ca =? cb then fix_ (mkDecimal false 0 e)
    else if cb <? ca then fix_ (mkDecimal (sign a) (ca - cb) e)
    else fix_ (mkDecimal (sign b) (cb - ca) e).

(** [Decimal(n)] for a Python [int]. *)
Definition of_int (n : Z) : Decimal :=
  mkDecimal (n <? 0) (Z.abs n) 0.

(** The signals that the default context traps, raised as exceptions. *)
Inductive DecimalException : Type :=
| DivisionByZero
| InvalidOperation.

(** Strip trailing zeros of an exact quotient while its exponent is below
    the ideal one ([while exp < ideal_exp and coeff % 10 == 0]). *)
Fixpoint strip_zeros (fuel : nat) (c e ideal : Z) : Z * Z :=
  match fuel with
  | O => (c, e)
  | S fuel' =>
      if (e <? ideal) && (c mod 10 =? 0)
      then strip_zeros fuel' (c / 10) (e + 1) ideal
      else (c, e)
  end.

(** [Decimal.__truediv__].  A zero divisor signals DivisionByZero (or
    InvalidOperation for 0/0); otherwise the quotient is computed to
    [prec + 1] digits beyond the operands' lengths, made sticky when
    inexact, and rounded by [_fix]. *)
Definition dec_div (a b : Decimal) : Decimal + DecimalException :=
  let s := xorb (sign a) (sign b) in
  if coeff b =? 0 then
    if coeff a =? 0 then inr InvalidOperation else inr DivisionByZero
  else if coeff a =? 0 then
    inl (fix_ (mkDecimal s 0 (exp a - exp b)))
  else
    let shift := numdigits (coeff b) - numdigits (coeff a) + prec + 1 in
    let e := exp a - exp b - shift in
    let num := if 0 <=? shift then coeff a * 10 ^ shift else coeff a in
    let den := if 0 <=? shift then coeff b else coeff b * 10 ^ (- shift) in
    let q := num / den in
    let r := num mod den in
    if r =? 0 then
      let '(q', e') :=
        strip_zeros (Z.to_nat (exp a - exp b - e)) q e (exp a - exp b) in
      inl (fix_ (mkDecimal s q' e'))
    else
      inl (fix_ (mkDecimal s (if q mod 5 =? 0 then q + 1 else q) e)).

(** The signed coefficient of [d] at exponent [e <= exp d]. *)
Definition scaled (d : Decimal) (e : Z) : Z :=
  (if sign d then -1 else 1) * coeff d * 10 ^ (exp d - e).

(** [a == b] on Decimals compares values, not representations:
    [Decimal('400.00') == Decimal('400.0000')]. *)
Definition dec_eqb (a b : Decimal) : bool :=
  let e := Z.min (exp a) (exp b) in
  scaled a e =? scaled b e.

Fixpoint zeros (n : nat) : string :=
  match n with
  | O => ""
  | S n' => String "0" (zeros n')
  end.

(** ["%+d" % n]. *)
Definition str_signed (n : Z) : string :=
  (if n <? 0 then "-" else "+") +++ str_int (Z.abs n).

(** [Decimal.__str__]: plain notation when the exponent is at most 0 and
    there are fewer than six leading fractional zeros, scientific notation
    otherwise. *)
Definition dec_str (d : Decimal) : string :=
  let digits := str_int (coeff d) in
  let len := Z.of_nat (String.length digits) in
  let leftdigits := exp d + len in
  let dotplace :=
    if (exp d <=? 0) && (-6 <? leftdigits) then leftdigits else 1 in
  let intpart :=
    if dotplace <=? 0 then "0"
    else if len <=? dotplace
         then digits +++ zeros (Z.to_nat (dotplace - len))
    else String.substring 0 (Z.to_nat dotplace) digits in
  let fracpart :=
    if dotplace <=? 0
    then "." +++ zeros (Z.to_nat (- dotplace)) +++ digits
    else if len <=? dotplace then ""
    else "." +++ String.substring (Z.to_nat dotplace)
                   (Z.to_nat (len - dotplace)) digits in
  let exppart :=
    if leftdigits =? dotplace then ""
    else "E" +++ str_signed (leftdigits - dotplace) in
  (if sign d then "-" else "") +++ intpart +++ fracpart +++ exppart.

End PyDecimal.

Import PyDecimal.

(* ===================================================================== *)
(** ** Python's [datetime.date]                                           *)
(* ===================================================================== *)

Module PyDate.

(** A [date] is represented by [date.toordinal()], the day number in the
    proleptic Gregorian calendar (0001-01-01 is day 1, 9999-12-31 is day
    3652059).  Comparison of dates is comparison of ordinals,
    [(b - a).days] is the difference of ordinals and [d + timedelta(days=1)]
    is the next ordinal. *)
Definition date : Type := Z.

Definition MAXORDINAL : Z := 3652059.

Definition is_leap (year : Z) : bool :=
  (year mod 4 =? 0) && (negb (year mod 100 =? 0) || (year mod 400 =? 0)).

Definition days_before_year (year : Z) : Z :=
  let y := year - 1 in
  y * 365 + y / 4 - y / 100 + y / 400.

Definition DAYS_IN_MONTH : list Z :=
  [-1; 31; 28; 31; 30; 31; 30; 31; 31; 30; 31; 30; 31].

Definition DAYS_BEFORE_MONTH : list Z :=
  [-1; 0; 31; 59; 90; 120; 151; 181; 212; 243; 273; 304; 334].

Definition bool_to_Z (b : bool) : Z := if b then 1 else 0.

Definition days_before_month (year month : Z) : Z :=
  nth (Z.to_nat month) DAYS_BEFORE_MONTH 0
  + bool_to_Z ((2 <? month) && is_leap year).

(** [date(year, month, day)], through [_ymd2ord]. *)
Definition ymd2ord (year month day : Z) : date :=
  days_before_year year + days_before_month year month + day.

(** [_ord2ymd]: year, month and day of an ordinal. *)
Definition ord2ymd (n : date) : Z * Z * Z :=
  let n := n - 1 in
  let n400 := n / 146097 in
  let n := n mod 146097 in
  let year := n400 * 400 + 1 in
  let n100 := n / 36524 in
  let n := n mod 36524 in
  let n4 := n / 1461 in
  let n := n mod 1461 in
  let n1 := n / 365 in
  let n := n mod 365 in
  let year := year + n100 * 100 + n4 * 4 + n1 in
  if (n1 =? 4) || (n100 =? 4) then (year - 1, 12, 31)
  else
    let leapyear := (n1 =? 3) && (negb (n4 =? 24) || (n100 =? 3)) in
    let month := Z.shiftr (n + 50) 5 in
    let preceding :=
      nth (Z.to_nat month) DAYS_BEFORE_MONTH 0
      + bool_to_Z ((2 <? month) && leapyear) in
    if n <? preceding then
      let month := month - 1 in
      let preceding :=
        preceding - (nth (Z.to_nat month) DAYS_IN_MONTH 0
                     + bool_to_Z ((month =? 2) && leapyear)) in
      (year, month, n - preceding + 1)
    else (year, month, n - preceding + 1).

(** ["%0*d"]: decimal digits left-padded with zeros to [width]. *)
Definition zero_pad (width : nat) (n : Z) : string :=
  let s := str_int n in
  zeros (width - String.length s) +++ s.

(** [date.isoformat()], which is also [str(date)]: YYYY-MM-DD. *)
Definition isoformat (d : date) : string :=
  let '(y, m, dd) := ord2ymd d in
  zero_pad 4 y +++ "-" +++ zero_pad 2 m +++ "-" +++ zero_pad 2 dd.

End PyDate.

Import PyDate.

(* ===================================================================== *)
(** ** models.py: the rows the two components read                        *)
(* ===================================================================== *)

(** [Property]: of the columns only the ones read by the availability
    filter and the pricing calculator are kept.  [base_price_per_night] is
    a [DecimalField(max_digits=10, decimal_places=2)]. *)
Module Property.
Record t : Type := mk {
  id : Z;
  name : string;
  base_price_per_night : Decimal;
  currency : string
}.
End Property.

(** [PricingRule]: [property] is the foreign key to [Property]
    ([related_name='pricing_rules']); [price_multiplier] is a
    [DecimalField(max_digits=5, decimal_places=2)]. *)
Module PricingRule.
Record t : Type := mk {
  id : Z;
  property : Z;
  start_date : date;
  end_date : date;
  price_multiplier : Decimal
}.
End PricingRule.

(** [Booking]: [property] is the foreign key to [Property]
    ([related_name='bookings']); [status] is a [CharField] whose choices are
    'confirmed', 'pending', 'cancelled' and 'completed'. *)
Module Booking.
Record t : Type := mk {
  id : Z;
  property : Z;
  check_in : date;
  check_out : date;
  status : string
}.
End Booking.

(** The tables [properties], [pricing_rules] and [bookings], rows in the
    order the database holds them. *)
Record Database : Type := mkDatabase {
  properties : list Property.t;
  pricing_rules : list PricingRule.t;
  bookings : list Booking.t
}.

Definition Decimal_eq_dec : forall a b : Decimal, {a = b} + {a <> b}.
Proof. decide equality; auto using Z.eq_dec, Bool.bool_dec. Defined.

Definition Property_eq_dec : forall a b : Property.t, {a = b} + {a <> b}.
Proof.
  decide equality; auto using Z.eq_dec, string_dec, Decimal_eq_dec.
Defined.

(* ===================================================================== *)
(** ** The Django ORM operations used by the source                       *)
(* ===================================================================== *)

Module Orm.

(** A [QuerySet] is a query: it yields rows when it is evaluated against
    the database. *)
Definition QuerySet (A : Type) : Type := Database -> list A.

(** [Property.objects.all()]. *)
Definition all_properties : QuerySet Property.t := properties.

(** Insertion of a rule into a list ordered by [start_date]: [r] goes before
    the first row with a later date, so after the rows with an equal date.
    (The database leaves the order of rows with equal dates open.) *)
Fixpoint insert_by_start_date (r : PricingRule.t) (l : list PricingRule.t)
  : list PricingRule.t :=
  match l with
  | [] => [r]
  | x :: l' =>
      if PricingRule.start_date r <? PricingRule.start_date x
      then r :: x :: l'
      else x :: insert_by_start_date r l'
  end.

(** [ORDER BY start_date ASC], from [PricingRule.Meta.ordering].  Rows with
    equal dates come out in the reverse of their table order; SQL leaves
    their order open. *)
Definition order_by_start_date (l : list PricingRule.t) : list PricingRule.t :=
  fold_right insert_by_start_date [] l.

(** [property_obj.pricing_rules.all()]: the rules whose foreign key is the
    property, in the model's default ordering. *)
Definition related_pricing_rules (property_obj : Property.t)
  : QuerySet PricingRule.t :=
  fun db =>
    order_by_start_date
      (filter (fun r => PricingRule.property r =? Property.id property_obj)
              (pricing_rules db)).

(** The rows of [bookings] joined to a property through the foreign key. *)
Definition related_bookings (db : Database) (p : Property.t) : list Booking.t :=
  filter (fun b => Booking.property b =? Property.id p) (bookings db).

(** The keyword lookups of the source, all across the reverse relation
    [bookings]. *)
Inductive Lookup : Type :=
| bookings__status (v : string)
| bookings__check_in__lte (v : date)
| bookings__check_out__gte (v : date).

(** [Q] objects combined with [&]. *)
Inductive Q : Type :=
| Q_leaf (l : Lookup)
| Q_and (a b : Q).

Definition lookup_matches (l : Lookup) (b : Booking.t) : bool :=
  match l with
  | bookings__status v => String.eqb (Booking.status b) v
  | bookings__check_in__lte v => Booking.check_in b <=? v
  | bookings__check_out__gte v => v <=? Booking.check_out b
  end.

(** One lookup across a multi-valued relation inside [exclude()]: Django's
    [Query.build_filter] catches [MultiJoin] and calls [split_exclude], which
    turns that single lookup into its own subquery,
    [EXISTS (SELECT 1 FROM bookings WHERE <lookup> AND property_id = id)]. *)
Definition exists_related (db : Database) (p : Property.t) (l : Lookup) : bool :=
  existsb (lookup_matches l) (related_bookings db p).

(** The condition negated by [exclude(q)].  Each leaf is a subquery of its
    own, so, as Django's documentation of [exclude()] for multi-valued
    relationships puts it, "the conditions in a single exclude() call will
    not necessarily refer to the same item". *)
Fixpoint exclude_condition (q : Q) (db : Database) (p : Property.t) : bool :=
  match q with
  | Q_leaf l => exists_related db p l
  | Q_and a b => exclude_condition a db p && exclude_condition b db p
  end.

(** [queryset.exclude(q)]. *)
Definition exclude (q : Q) (queryset : QuerySet Property.t)
  : QuerySet Property.t :=
  fun db => filter (fun p => negb (exclude_condition q db p)) (queryset db).

(** [queryset.distinct()]: SELECT DISTINCT. *)
Definition distinct (queryset : QuerySet Property.t) : QuerySet Property.t :=
  fun db => nodup Property_eq_dec (queryset db).

End Orm.

Import Orm.

(* ===================================================================== *)
(** ** Requests                                                           *)
(* ===================================================================== *)

(** [request.query_params], a [QueryDict]: the pairs of the query string. *)
Definition QueryDict : Type := list (string * string).

(** [QueryDict.get(key)]: the last value given for [key], [None] when the
    key is absent. *)
Fixpoint get (key : string) (q : QueryDict) : option string :=
  match q with
  | [] => None
  | (k, v) :: q' =>
      match get key q' with
      | Some v' => Some v'
      | None => if String.eqb k key then Some v else None
      end
  end.

(** Python's [not x] for [x] a string or [None]. *)
Definition not_ (x : option string) : bool :=
  match x with
  | None => true
  | Some s => String.eqb s ""
  end.

(** The value of a parameter known to be truthy. *)
Definition str_value (x : option string) : string :=
  match x with
  | Some s => s
  | None => ""
  end.

(** Exceptions that leave the two components. *)
Inductive Exception : Type :=
| ValidationError
| DecimalError (e : DecimalException).

Inductive result (A : Type) : Type :=
| Ok (a : A)
| Raise (e : Exception).
Arguments Ok {A} a.
Arguments Raise {A} e.

(* ===================================================================== *)
(** ** filters.py: [PropertyFilter.filter_available_dates]                *)
(* ===================================================================== *)

Section Filters.

(** [DateField.to_python], which the ORM applies to the value of a date
    lookup; [None] stands for the [ValidationError] it raises on a string
    that is not a date. *)
Variable parse_date : string -> option date.

(** [Q(bookings__status='confirmed') &
     Q(bookings__check_in__lte=check_out, bookings__check_out__gte=check_in)]. *)
Definition overlapping_bookings (check_in check_out : date) : Q :=
  Q_and (Q_leaf (bookings__status "confirmed"))
        (Q_and (Q_leaf (bookings__check_in__lte check_out))
               (Q_leaf (bookings__check_out__gte check_in))).

(** [filter_available_dates(self, queryset, name, value)]; [query_params] is
    [self.request.query_params]. *)
Definition filter_available_dates (query_params : QueryDict)
    (queryset : QuerySet Property.t) (name : string) (value : date)
  : result (QuerySet Property.t) :=
  let check_in := get "check_in" query_params in
  let check_out := get "check_out" query_params in
  if not_ check_in || not_ check_out then Ok queryset
  else
    match parse_date (str_value check_out), parse_date (str_value check_in) with
    | Some check_out, Some check_in =>
        Ok (distinct (exclude (overlapping_bookings check_in check_out) queryset))
    | _, _ => Raise ValidationError
    end.

End Filters.

(* ===================================================================== *)
(** ** views.py: [PropertyViewSet.calculate_price]                        *)
(* ===================================================================== *)

(** One entry of [daily_prices].  The source stores [str()] of each value;
    the entry keeps the values and [to_json] below renders them. *)
Module Daily.
Record t : Type := mk {
  date : date;
  base_price : Decimal;
  multiplier : Decimal;
  final_price : Decimal;
  pricing_rule : string
}.
End Daily.

(** The body of the successful response. *)
Module Breakdown.
Record t : Type := mk {
  property_id : Z;
  property_name : string;
  check_in : date;
  check_out : date;
  nights : Z;
  base_price_per_night : Decimal;
  total_price : Decimal;
  average_price_per_night : Decimal;
  currency : string;
  daily_breakdown : list Daily.t
}.
End Breakdown.

Inductive Response : Type :=
| Response_200 (data : Breakdown.t)
| Response_400 (data : list (string * string)).

(** The dictionary handed to [Response(...)]: strings, integers, and the
    list of per-night dictionaries (whose values are all strings). *)
Inductive JsonValue : Type :=
| JStr (s : string)
| JInt (n : Z)
| JRows (rows : list (list (string * string))).

Definition daily_to_json (e : Daily.t) : list (string * string) :=
  [("date", isoformat (Daily.date e));
   ("base_price", dec_str (Daily.base_price e));
   ("multiplier", dec_str (Daily.multiplier e));
   ("final_price", dec_str (Daily.final_price e));
   ("pricing_rule", Daily.pricing_rule e)].

(** The response body with its values rendered as the source renders them:
    [isoformat()] for dates, [str()] for Decimals. *)
Definition to_json (r : Response) : list (string * JsonValue) :=
  match r with
  | Response_200 d =>
      [("property_id", JInt (Breakdown.property_id d));
       ("property_name", JStr (Breakdown.property_name d));
       ("check_in", JStr (isoformat (Breakdown.check_in d)));
       ("check_out", JStr (isoformat (Breakdown.check_out d)));
       ("nights", JInt (Breakdown.nights d));
       ("base_price_per_night",
         JStr (dec_str (Breakdown.base_price_per_night d)));
       ("total_price", JStr (dec_str (Breakdown.total_price d)));
       ("average_price_per_night",
         JStr (dec_str (Breakdown.average_price_per_night d)));
       ("currency", JStr (Breakdown.currency d));
       ("daily_breakdown",
         JRows (map daily_to_json (Breakdown.daily_breakdown d)))]
  | Response_400 d => map (fun kv => (fst kv, JStr (snd kv))) d
  end.

(** Database access of a view: a computation that receives the database
    and hands it on. *)
Definition ORM (A : Type) : Type := Database -> A * Database.

Definition ret {A : Type} (a : A) : ORM A := fun db => (a, db).

Definition bind {A B : Type} (c : ORM A) (k : A -> ORM B) : ORM B :=
  fun db => let '(a, db') := c db in k a db'.

Notation "x <- c ;; k" := (bind c (fun x => k))
  (at level 61, c at next level, right associativity).

(** Evaluating a queryset runs a SELECT: it reads the tables. *)
Definition evaluate {A : Type} (q : QuerySet A) : ORM (list A) :=
  fun db => (q db, db).

(** [Decimal('0.00')] and [Decimal('1.0')]. *)
Definition Decimal_0_00 : Decimal := mkDecimal false 0 (-2).
Definition Decimal_1_0 : Decimal := mkDecimal false 10 (-1).

(** [rule.start_date <= current_date <= rule.end_date]. *)
Definition rule_covers (rule : PricingRule.t) (current_date : date) : bool :=
  (PricingRule.start_date rule <=? current_date)
  && (current_date <=? PricingRule.end_date rule).

(** [f'Seasonal ({rule.start_date} to {rule.end_date})']. *)
Definition seasonal_name (rule : PricingRule.t) : string :=
  "Seasonal (" +++ isoformat (PricingRule.start_date rule) +++ " to "
  +++ isoformat (PricingRule.end_date rule) +++ ")".

(** The inner [for rule in pricing_rules: if ...: ...; break]: the pair
    [(multiplier, rule_name)] after the loop, from the values before it. *)
Fixpoint scan_rules (pricing_rules : list PricingRule.t) (current_date : date)
    (multiplier : Decimal) (rule_name : string) : Decimal * string :=
  match pricing_rules with
  | [] => (multiplier, rule_name)
  | rule :: rest =>
      if rule_covers rule current_date
      then (PricingRule.price_multiplier rule, seasonal_name rule)
      else scan_rules rest current_date multiplier rule_name
  end.

(** One pass of the body of the [while] loop: the entry appended to
    [daily_prices] for [current_date]. *)
Definition daily_price (property_obj : Property.t)
    (pricing_rules : list PricingRule.t) (current_date : date) : Daily.t :=
  let '(multiplier, rule_name) :=
    scan_rules pricing_rules current_date Decimal_1_0 "Base Rate" in
  let night_price :=
    dec_mul (Property.base_price_per_night property_obj) multiplier in
  Daily.mk current_date (Property.base_price_per_night property_obj)
           multiplier night_price rule_name.

(** [while current_date < check_out: ...; current_date += timedelta(days=1)],
    on the loop state [(current_date, total_price, daily_prices)]. *)
Equations? price_loop (property_obj : Property.t)
    (pricing_rules : list PricingRule.t) (check_out : date)
    (current_date : date) (total_price : Decimal) (daily_prices : list Daily.t)
  : Decimal * list Daily.t
  by wf (Z.to_nat (check_out - current_date)) lt :=
  price_loop property_obj pricing_rules check_out current_date total_price
             daily_prices with Z_lt_dec current_date check_out := {
    | left _ =>
        price_loop property_obj pricing_rules check_out (current_date + 1)
          (dec_add total_price
             (Daily.final_price
                (daily_price property_obj pricing_rules current_date)))
          (daily_prices
             ++ [daily_price property_obj pricing_rules current_date]);
    | right _ => (total_price, daily_prices) }.
Proof. lia. Qed.

(** [total_price / nights if nights > 0 else Decimal('0.00')]. *)
Definition average_price (total_price : Decimal) (nights : Z) : result Decimal :=
  if 0 <? nights then
    match dec_div total_price (of_int nights) with
    | inl q => Ok q
    | inr e => Raise (DecimalError e)
    end
  else Ok Decimal_0_00.

Section Views.

(** [datetime.strptime(s, '%Y-%m-%d').date()]; [None] stands for the
    [ValueError] it raises. *)
Variable strptime : string -> option date.

Definition error_required : list (string * string) :=
  [("error", "check_in and check_out dates are required");
   ("example",
    "/api/properties/1/calculate_price/?check_in=2025-12-01&check_out=2025-12-07")].

Definition error_invalid_format : list (string * string) :=
  [("error", "Invalid date format. Use YYYY-MM-DD")].

Definition error_invalid_range : list (string * string) :=
  [("error", "check_out must be after check_in")].

(** The body of [calculate_price(self, request, pk)], from line 481 on: what
    the view does with the object that [self.get_object()] returned at line
    479 ([property_obj]) and with [request.query_params].  The route with
    [get_object()] in front is [calculate_price_route] below. *)
Definition calculate_price (property_obj : Property.t)
    (query_params : QueryDict) : ORM (result Response) :=
  let check_in_str := get "check_in" query_params in
  let check_out_str := get "check_out" query_params in
  if not_ check_in_str || not_ check_out_str then
    ret (Ok (Response_400 error_required))
  else
    match strptime (str_value check_in_str) with
    | None => ret (Ok (Response_400 error_invalid_format))
    | Some check_in =>
        match strptime (str_value check_out_str) with
        | None => ret (Ok (Response_400 error_invalid_format))
        | Some check_out =>
            if check_out <=? check_in then
              ret (Ok (Response_400 error_invalid_range))
            else
              let nights := check_out - check_in in
              pricing_rules <- evaluate (related_pricing_rules property_obj) ;;
              let '(total_price, daily_prices) :=
                price_loop property_obj pricing_rules check_out check_in
                           Decimal_0_00 [] in
              match average_price total_price nights with
              | Raise e => ret (Raise e)
              | Ok avg_price_per_night =>
                  ret (Ok (Response_200
                    (Breakdown.mk (Property.id property_obj)
                       (Property.name property_obj) check_in check_out nights
                       (Property.base_price_per_night property_obj)
                       total_price avg_price_per_night
                       (Property.currency property_obj) daily_prices)))
              end
        end
    end.

End Views.

(* ===================================================================== *)
(** ** The vocabulary of the statements                                 *)
(* ===================================================================== *)

(** The dates [check_in, check_in + 1, ...] strictly before [check_out]. *)
Definition nights_of_stay (check_in check_out : date) : list date :=
  map (fun i => check_in + Z.of_nat i) (seq 0 (Z.to_nat (check_out - check_in))).

(** Python's [sum(iterable, start)] on Decimals. *)
Definition py_sum (l : list Decimal) (start : Decimal) : Decimal :=
  fold_left dec_add l start.

(** [rule.start_date <= d <= rule.end_date], as a proposition. *)
Definition covers (rule : PricingRule.t) (d : date) : Prop :=
  PricingRule.start_date rule <= d <= PricingRule.end_date rule.

(** The rule at which the scan of [pricing_rules] breaks, if any. *)
Definition selected_rule (pricing_rules : list PricingRule.t) (d : date)
  : option PricingRule.t :=
  find (fun rule => rule_covers rule d) pricing_rules.

(** The scan of [rules] for the night [d] breaks at [rule]: [rule] is the
    one whose multiplier and label the night receives. *)
Definition applies_to (rules : list PricingRule.t) (rule : PricingRule.t)
    (d : date) : Prop :=
  selected_rule rules d = Some rule.

(** The query string gives [key] the non-empty value [value]. *)
Definition supplied (query_params : QueryDict) (key value : string) : Prop :=
  get key query_params = Some value /\ value <> "".

(** Both dates are supplied and parse to [check_in] and [check_out]. *)
Definition stay_requested (strptime : string -> option date)
    (query_params : QueryDict) (check_in check_out : date) : Prop :=
  exists cs os,
    supplied query_params "check_in" cs
    /\ supplied query_params "check_out" os
    /\ strptime cs = Some check_in
    /\ strptime os = Some check_out.

Definition start_le (a b : PricingRule.t) : Prop :=
  PricingRule.start_date a <= PricingRule.start_date b.



(** The test the filter is documented to make on one booking: confirmed,
    [check_in <= requested check_out] and [check_out >= requested check_in]. *)
Definition blocks (b : Booking.t) (s e : date) : Prop :=
  Booking.status b = "confirmed"
  /\ Booking.check_in b <= e
  /\ s <= Booking.check_out b.

Definition sum_Z (l : list Z) : Z := fold_right Z.add 0 l.

(** A Decimal as read from a [numeric(_, 2)] column with [digits] digits. *)
Definition fits_column (digits : Z) (d : Decimal) : Prop :=
  exp d = -2 /\ 0 <= coeff d < 10 ^ digits.

(* ===================================================================== *)
(** ** Concrete requests and databases                                  *)
(* ===================================================================== *)

Definition digit_val (c : ascii) : option Z :=
  let n := Z.of_nat (nat_of_ascii c) in
  if (48 <=? n) && (n <=? 57) then Some (n - 48) else None.

Definition days_in_month (year month : Z) : Z :=
  if (month =? 2) && is_leap year then 29
  else nth (Z.to_nat month) DAYS_IN_MONTH 0.

(** A date parser for the ten-character form YYYY-MM-DD, on which
    [strptime(_, '%Y-%m-%d')] and Django's [parse_date] agree; it is used to
    run the model on concrete query strings. *)
Definition parse_iso (s : string) : option date :=
  match list_ascii_of_string s with
  | [y1; y2; y3; y4; sep1; m1; m2; sep2; d1; d2] =>
      match digit_val y1, digit_val y2, digit_val y3, digit_val y4,
            digit_val m1, digit_val m2, digit_val d1, digit_val d2 with
      | Some a, Some b, Some c, Some d, Some e, Some f, Some g, Some h =>
          let year := 1000 * a + 100 * b + 10 * c + d in
          let month := 10 * e + f in
          let day := 10 * g + h in
          if Ascii.eqb sep1 "-" && Ascii.eqb sep2 "-"
             && (1 <=? year) && (1 <=? month) && (month <=? 12)
             && (1 <=? day) && (day <=? days_in_month year month)
          then Some (ymd2ord year month day)
          else None
      | _, _, _, _, _, _, _, _ => None
      end
  | _ => None
  end.

Definition scenario_property : Property.t :=
  Property.mk 1 "Loft" (mkDecimal false 10000 (-2)) "USD".

Definition scenario_B_db : Database :=
  mkDatabase [scenario_property]
    [PricingRule.mk 1 1 (ymd2ord 2025 12 2) (ymd2ord 2025 12 3)
                    (mkDecimal false 150 (-2))]
    [].

Definition scenario_request : QueryDict :=
  [("check_in", "2025-12-01"); ("check_out", "2025-12-04")].

Definition reversed_request : QueryDict :=
  [("check_in", "2025-12-04"); ("check_out", "2025-12-01")].

Definition long_rule : PricingRule.t :=
  PricingRule.mk 1 1 (ymd2ord 2025 11 30) (ymd2ord 2025 12 2)
                 (mkDecimal false 200 (-2)).

Definition single_night_rule : PricingRule.t :=
  PricingRule.mk 2 1 (ymd2ord 2025 12 1) (ymd2ord 2025 12 1)
                 (mkDecimal false 150 (-2)).

(** A property with a rule for 2025-11-30 .. 2025-12-02 (x2.00) and a rule
    for the single day 2025-12-01 (x1.50). *)
Definition shadow_db : Database :=
  mkDatabase [scenario_property] [long_rule; single_night_rule] [].

Definition single_night_db : Database :=
  mkDatabase [scenario_property] [single_night_rule] [].

(** A property whose rules were inserted latest first: the rule for
    2025-12-02 .. 2025-12-03 (x1.50) precedes, in the table, the rule for
    2025-11-30 .. 2025-12-05 (x2.00). *)
Definition unordered_db : Database :=
  mkDatabase [scenario_property]
    [PricingRule.mk 1 1 (ymd2ord 2025 12 2) (ymd2ord 2025 12 3)
                    (mkDecimal false 150 (-2));
     PricingRule.mk 2 1 (ymd2ord 2025 11 30) (ymd2ord 2025 12 5)
                    (mkDecimal false 200 (-2))]
    [].



Definition only_check_in : QueryDict := [("check_in", "2025-12-08")].

Definition availability_request : QueryDict :=
  [("check_in", "2025-12-08"); ("check_out", "2025-12-09")].

(** Two confirmed bookings, 2025-12-01 .. 2025-12-03 and
    2025-12-20 .. 2025-12-25: the property is free in between. *)
Definition gap_db : Database :=
  mkDatabase [scenario_property] []
    [Booking.mk 1 1 (ymd2ord 2025 12 1) (ymd2ord 2025 12 3) "confirmed";
     Booking.mk 2 1 (ymd2ord 2025 12 20) (ymd2ord 2025 12 25) "confirmed"].

(** The same, the later booking only pending, and the database without that
    pending booking. *)
Definition pending_db : Database :=
  mkDatabase [scenario_property] []
    [Booking.mk 1 1 (ymd2ord 2025 12 1) (ymd2ord 2025 12 3) "confirmed";
     Booking.mk 2 1 (ymd2ord 2025 12 20) (ymd2ord 2025 12 25) "pending"].

Definition no_pending_db : Database :=
  mkDatabase [scenario_property] []
    [Booking.mk 1 1 (ymd2ord 2025 12 1) (ymd2ord 2025 12 3) "confirmed"].

(* ===================================================================== *)
(** ** More of models.py, filters.py, views.py and serializers.py         *)
(* ===================================================================== *)

(** [PropertyAmenity]: [property] is the foreign key to [Property]
    ([related_name='amenities']). *)
Module PropertyAmenity.
Record t : Type := mk {
  id : Z;
  property : Z;
  amenity : string
}.
End PropertyAmenity.

(** [PropertyImage]: [property] is the foreign key to [Property]
    ([related_name='images']); [Meta.ordering = ['-is_primary', 'id']]. *)
Module PropertyImage.
Record t : Type := mk {
  id : Z;
  property : Z;
  image_url : string;
  is_primary : bool
}.
End PropertyImage.

(** The database with the tables [property_amenities] and
    [property_images] next to the three of [Database]. *)
Record Catalog : Type := mkCatalog {
  core : Database;
  property_amenities : list PropertyAmenity.t;
  property_images : list PropertyImage.t
}.

(** A query over the whole catalog. *)
Definition CatalogQuery (A : Type) : Type := Catalog -> list A.

(** [ORDER BY] by insertion: [x] goes before the first row it is strictly
    less than, so after the rows that compare equal to it.  (The database
    leaves the order of rows that compare equal open.) *)
Fixpoint insert_by {A : Type} (lt : A -> A -> bool) (x : A) (l : list A)
  : list A :=
  match l with
  | [] => [x]
  | y :: l' => if lt x y then x :: y :: l' else y :: insert_by lt x l'
  end.

Definition order_by {A : Type} (lt : A -> A -> bool) (l : list A) : list A :=
  fold_right (insert_by lt) [] l.

(** [str.split(',')]: the pieces between the commas, empty pieces kept. *)
Fixpoint split_comma (s : string) : list string :=
  match s with
  | EmptyString => [""]
  | String c s' =>
      if Ascii.eqb c ","
      then "" :: split_comma s'
      else match split_comma s' with
           | piece :: pieces => String c piece :: pieces
           | [] => [String c ""]
           end
  end.

Section MoreFilters.

(** [str.strip()], and the database's match of a column against
    [icontains=pattern] (a case-insensitive LIKE '%pattern%'). *)
Variable strip : string -> string.
Variable icontains : string -> string -> bool.

(** The amenity rows joined to a property through the foreign key. *)
Definition related_amenities (c : Catalog) (p : Property.t)
  : list PropertyAmenity.t :=
  filter (fun a => PropertyAmenity.property a =? Property.id p)
         (property_amenities c).

(** [queryset.filter(amenities__amenity__icontains=amenity)]: an inner join
    with [property_amenities]; a property comes once for each of its amenity
    rows that matches. *)
Definition filter_amenity_icontains (amenity : string)
    (queryset : CatalogQuery Property.t) : CatalogQuery Property.t :=
  fun c =>
    flat_map
      (fun p =>
         map (fun _ => p)
             (filter (fun a => icontains (PropertyAmenity.amenity a) amenity)
                     (related_amenities c p)))
      (queryset c).

(** [filter_amenities(self, queryset, name, value)]. *)
Definition filter_amenities (queryset : CatalogQuery Property.t)
    (name : string) (value : string) : CatalogQuery Property.t :=
  if String.eqb value "" then queryset
  else
    let amenity_list := map strip (split_comma value) in
    let queryset :=
      fold_left (fun qs amenity => filter_amenity_icontains amenity qs)
                amenity_list queryset in
    fun c => nodup Property_eq_dec (queryset c).

End MoreFilters.

(** The body of the answer of [availability]. *)
Module Availability.
Record t : Type := mk {
  property_id : Z;
  property_name : string;
  unavailable_dates : list (date * date);
  total_bookings : Z
}.
End Availability.

(** [property_obj.bookings.filter(status='confirmed').order_by('check_in')]. *)
Definition confirmed_bookings (property_obj : Property.t) : QuerySet Booking.t :=
  fun db =>
    order_by (fun a b => Booking.check_in a <? Booking.check_in b)
      (filter (fun b => String.eqb (Booking.status b) "confirmed")
              (related_bookings db property_obj)).

(** The body of [availability(self, request, pk)]: what the view does with
    the object that [self.get_object()] returned at line 414.  Each entry of [unavailable_dates] keeps
    the two dates; [availability_to_json] renders them with [isoformat()]. *)
Definition availability (property_obj : Property.t) : ORM Availability.t :=
  bookings <- evaluate (confirmed_bookings property_obj) ;;
  let unavailable_dates :=
    map (fun booking => (Booking.check_in booking, Booking.check_out booking))
        bookings in
  ret (Availability.mk (Property.id property_obj) (Property.name property_obj)
         unavailable_dates (Z.of_nat (List.length unavailable_dates))).

Definition availability_to_json (r : Availability.t)
  : list (string * JsonValue) :=
  [("property_id", JInt (Availability.property_id r));
   ("property_name", JStr (Availability.property_name r));
   ("unavailable_dates",
     JRows (map (fun d => [("check_in", isoformat (fst d));
                           ("check_out", isoformat (snd d))])
                (Availability.unavailable_dates r)));
   ("total_bookings", JInt (Availability.total_bookings r))].

(** [ORDER BY is_primary DESC, id ASC], from [PropertyImage.Meta.ordering]. *)
Definition image_before (a b : PropertyImage.t) : bool :=
  (PropertyImage.is_primary a && negb (PropertyImage.is_primary b))
  || (Bool.eqb (PropertyImage.is_primary a) (PropertyImage.is_primary b)
      && (PropertyImage.id a <? PropertyImage.id b)).

(** [obj.images.filter(is_primary=True)], in the model's default ordering. *)
Definition primary_images (obj : Property.t) : CatalogQuery PropertyImage.t :=
  fun c =>
    order_by image_before
      (filter (fun i => PropertyImage.is_primary i)
              (filter (fun i => PropertyImage.property i =? Property.id obj)
                      (property_images c))).

(** [PropertyListSerializer.get_primary_image(self, obj)]: [.first()] takes
    the first row of the ordered queryset, [None] when there is none. *)
Definition get_primary_image (obj : Property.t) (c : Catalog) : option string :=
  match primary_images obj c with
  | primary :: _ => Some (PropertyImage.image_url primary)
  | [] => None
  end.

(** The property and its rules hold values that fit their columns. *)
Definition column_sized (p : Property.t) (db : Database) : Prop :=
  fits_column 10 (Property.base_price_per_night p)
  /\ forall r, In r (related_pricing_rules p db) ->
               fits_column 5 (PricingRule.price_multiplier r).

(** Both dates are supplied and the ORM converts them to [s] and [e]. *)
Definition dates_supplied (parse_date : string -> option date)
    (query_params : QueryDict) (s e : date) : Prop :=
  exists cs os,
    supplied query_params "check_in" cs
    /\ supplied query_params "check_out" os
    /\ parse_date cs = Some s
    /\ parse_date os = Some e.

(** In an ordering by [lt], [x] is not placed after [y]. *)
Definition not_after {A : Type} (lt : A -> A -> bool) (x y : A) : Prop :=
  lt y x = false.

(** The property has an amenity row that matches [pattern]. *)
Definition has_amenity (icontains : string -> string -> bool) (c : Catalog)
    (p : Property.t) (pattern : string) : Prop :=
  exists a,
    In a (property_amenities c)
    /\ PropertyAmenity.property a = Property.id p
    /\ icontains (PropertyAmenity.amenity a) pattern = true.

(** A case-sensitive substring test and the identity, to run the amenities
    filter on a concrete catalog. *)
Fixpoint is_prefix (pattern s : string) : bool :=
  match pattern, s with
  | EmptyString, _ => true
  | String a pattern', String b s' => Ascii.eqb a b && is_prefix pattern' s'
  | String _ _, EmptyString => false
  end.

Fixpoint contains (s pattern : string) : bool :=
  is_prefix pattern s
  || match s with
     | EmptyString => false
     | String _ s' => contains s' pattern
     end.

Definition first_night_request : QueryDict :=
  [("check_in", "2025-12-01"); ("check_out", "2025-12-02")].

Definition later_nights_request : QueryDict :=
  [("check_in", "2025-12-02"); ("check_out", "2025-12-04")].

Definition no_rules_db : Database := mkDatabase [scenario_property] [] [].

Definition only_pending_db : Database :=
  mkDatabase [scenario_property] []
    [Booking.mk 1 1 (ymd2ord 2025 12 5) (ymd2ord 2025 12 10) "pending";
     Booking.mk 2 1 (ymd2ord 2025 12 8) (ymd2ord 2025 12 9) "cancelled"].

(** A confirmed booking 2025-12-05 .. 2025-12-08: it ends on the requested
    check-in day. *)
Definition touching_db : Database :=
  mkDatabase [scenario_property] []
    [Booking.mk 1 1 (ymd2ord 2025 12 5) (ymd2ord 2025 12 8) "confirmed"].

Definition longer_request : QueryDict :=
  [("check_in", "2025-12-04"); ("check_out", "2025-12-12")].

Definition amenities_catalog : Catalog :=
  mkCatalog no_rules_db
    [PropertyAmenity.mk 1 1 "WiFi"; PropertyAmenity.mk 2 1 "Pool";
     PropertyAmenity.mk 3 1 "Pool Table"]
    [].

(** Three images of property 1, the primary ones with ids 5 and 3, and a
    primary image of another property with a smaller id. *)
Definition images_catalog : Catalog :=
  mkCatalog no_rules_db []
    [PropertyImage.mk 2 1 "https://img.example/2.jpg" false;
     PropertyImage.mk 5 1 "https://img.example/5.jpg" true;
     PropertyImage.mk 3 1 "https://img.example/3.jpg" true;
     PropertyImage.mk 1 7 "https://img.example/1.jpg" true].

(* ===================================================================== *)
(** ** views.py: the route of [calculate_price], [get_object()] included  *)
(* ===================================================================== *)

(** The query string of
    [GET /api/properties/{pk}/calculate_price/?check_in=...&check_out=...]:
    the two date parameters, each given at most once, and no other
    parameter.  The other filters of [PropertyFilter], the search, the
    ordering and the geolocation branch of [get_queryset()] each need a
    parameter of their own, so on such a request [get_queryset()] is
    [Property.objects.all()] and only the two date filters can act. *)
Record DateQuery : Type := mkDateQuery {
  check_in_param : option string;
  check_out_param : option string
}.

(** [request.query_params] of such a request. *)
Definition query_params_of (q : DateQuery) : QueryDict :=
  match check_in_param q with Some v => [("check_in", v)] | None => [] end
  ++ match check_out_param q with Some v => [("check_out", v)] | None => [] end.

(** Exceptions that no handler of the framework catches; the server answers
    HTTP 500.  [Escaped ValidationError] is
    [django.core.exceptions.ValidationError] raised by the date lookups of
    the filter, [MultipleObjectsReturned] comes from [queryset.get(pk=pk)]. *)
Inductive ServerError : Type :=
| Escaped (e : Exception)
| MultipleObjectsReturned.

(** What the route answers: the response of the body of the view, the 404
    of [get_object_or_404], the HTTP 400 that [DjangoFilterBackend] raises
    with the errors of the filter form for [fields], or a server error. *)
Inductive RouteAnswer : Type :=
| Answered (r : Response)
| Http404
| FilterError (fields : list string)
| Unhandled (e : ServerError).

(** The outcome of cleaning one field of the filter form. *)
Inductive Cleaned : Type :=
| Invalid
| Empty
| Value (d : date).

Section Route.

(** [forms.DateField.to_python] of the filter form on a non-empty value, with
    the input formats of the locale; [None] stands for its
    [ValidationError] ("Enter a valid date."). *)
Variable form_date : string -> option date.

(** [DateField.to_python] of the ORM, as in [filter_available_dates]. *)
Variable parse_date : string -> option date.

(** [datetime.strptime(s, '%Y-%m-%d').date()], as in [calculate_price]. *)
Variable strptime : string -> option date.

(** [Field.clean] for the fields of [check_in = filters.DateFilter(...)] and
    [check_out = filters.DateFilter(...)], which are not required: an absent
    or empty value is cleaned to [None]. *)
Definition clean_date (raw : option string) : Cleaned :=
  match raw with
  | None => Empty
  | Some s =>
      if String.eqb s "" then Empty
      else match form_date s with
           | Some d => Value d
           | None => Invalid
           end
  end.

(** The fields of [filterset.errors], in the order of the form. *)
Definition form_errors (check_in check_out : Cleaned) : list string :=
  match check_in with Invalid => ["check_in"] | _ => [] end
  ++ match check_out with Invalid => ["check_out"] | _ => [] end.

(** [FilterMethod.__call__]: the method of the filter runs when the cleaned
    value is not empty. *)
Definition filter_method (query_params : QueryDict) (name : string)
    (value : Cleaned) (queryset : QuerySet Property.t)
  : result (QuerySet Property.t) :=
  match value with
  | Value d => filter_available_dates parse_date query_params queryset name d
  | _ => Ok queryset
  end.

(** [DjangoFilterBackend.filter_queryset] with [filterset_class =
    PropertyFilter]: an invalid form is answered with HTTP 400; otherwise
    [FilterSet.filter_queryset] applies the filter of each cleaned field in
    turn, [check_in] before [check_out].  The exception of the ORM is not
    caught. *)
Definition filter_queryset (query_params : QueryDict)
    (queryset : QuerySet Property.t) : RouteAnswer + QuerySet Property.t :=
  let check_in := clean_date (get "check_in" query_params) in
  let check_out := clean_date (get "check_out" query_params) in
  match form_errors check_in check_out with
  | (_ :: _) as fields => inl (FilterError fields)
  | [] =>
      match filter_method query_params "check_in" check_in queryset with
      | Raise e => inl (Unhandled (Escaped e))
      | Ok queryset =>
          match filter_method query_params "check_out" check_out queryset with
          | Raise e => inl (Unhandled (Escaped e))
          | Ok queryset => inr queryset
          end
      end
  end.

(** [self.get_object()]:
    [get_object_or_404(self.filter_queryset(self.get_queryset()), pk=pk)],
    for a numeric [pk].  [queryset.get(pk=pk)] selects the rows with that
    key: none is [DoesNotExist], turned into the 404; one is the object. *)
Definition get_object (pk : Z) (q : DateQuery)
  : ORM (RouteAnswer + Property.t) :=
  match filter_queryset (query_params_of q) all_properties with
  | inl answer => ret (inl answer)
  | inr queryset =>
      rows <- evaluate
                (fun db => filter (fun p => Property.id p =? pk) (queryset db)) ;;
      match rows with
      | [] => ret (inl Http404)
      | [obj] => ret (inr obj)
      | _ :: _ :: _ => ret (inl (Unhandled MultipleObjectsReturned))
      end
  end.

(** The route [GET /api/properties/{pk}/calculate_price/]: line 479,
    [property_obj = self.get_object()], and then the body of the view. *)
Definition calculate_price_route (pk : Z) (q : DateQuery) : ORM RouteAnswer :=
  found <- get_object pk q ;;
  match found with
  | inl answer => ret answer
  | inr property_obj =>
      r <- calculate_price strptime property_obj (query_params_of q) ;;
      match r with
      | Ok response => ret (Answered response)
      | Raise e => ret (Unhandled (Escaped e))
      end
  end.

End Route.

(** The filter form rejects the value given for a date. *)
Definition form_rejects (form_date : string -> option date)
    (raw : option string) : Prop :=
  exists s, raw = Some s /\ s <> "" /\ form_date s = None.

(** The availability filter runs on [s .. e]: both dates are given, the
    filter form accepts them and the ORM converts them to [s] and [e]. *)
Definition filter_applied (form_date parse_date : string -> option date)
    (q : DateQuery) (s e : date) : Prop :=
  exists cs os,
    check_in_param q = Some cs /\ cs <> ""
    /\ check_out_param q = Some os /\ os <> ""
    /\ form_date cs <> None /\ form_date os <> None
    /\ parse_date cs = Some s /\ parse_date os = Some e.

(** The filter form accepts what is given for the two dates. *)
Definition form_accepts (form_date : string -> option date) (q : DateQuery)
  : Prop :=
  ~ form_rejects form_date (check_in_param q)
  /\ ~ form_rejects form_date (check_out_param q).

(** Both dates are given and the ORM does not convert one of them. *)
Definition orm_rejects (parse_date : string -> option date) (q : DateQuery)
  : Prop :=
  exists cs os,
    check_in_param q = Some cs /\ cs <> ""
    /\ check_out_param q = Some os /\ os <> ""
    /\ (parse_date cs = None \/ parse_date os = None).

Definition scenario_query : DateQuery :=
  mkDateQuery (Some "2025-12-01") (Some "2025-12-04").



(** The database of scenario B with a confirmed booking
    2025-12-02 .. 2025-12-03 of the property. *)
Definition booked_scenario_db : Database :=
  mkDatabase (properties scenario_B_db) (pricing_rules scenario_B_db)
    [Booking.mk 1 1 (ymd2ord 2025 12 2) (ymd2ord 2025 12 3) "confirmed"].

(* ===================================================================== *)
(** ** Checks of the Python values against the interpreter              *)
(* ===================================================================== *)

Example dec_mul_ex :
  dec_mul (mkDecimal false 10000 (-2)) (mkDecimal false 10 (-1))
  = mkDecimal false 100000 (-3).
Proof. reflexivity. Qed.

Example dec_div_ex :
  dec_div (mkDecimal false 4000000 (-4)) (of_int 3)
  = inl (mkDecimal false 1333333333333333333333333333 (-25))
  /\ dec_div (mkDecimal false 300000 (-3)) (of_int 3)
     = inl (mkDecimal false 100000 (-3))
  /\ dec_div (mkDecimal true 75 (-1)) (mkDecimal true 25 (-2))
     = inl (mkDecimal false 3 1).
Proof. vm_compute. repeat split. Qed.

Example fix_ex :
  dec_add (of_int 99999999999999999999999999995) (of_int 0)
  = mkDecimal false 1000000000000000000000000000 2
  /\ dec_mul (of_int 12345678901234567890123456785) (of_int 1)
     = mkDecimal false 1234567890123456789012345678 1.
Proof. vm_compute. split; reflexivity. Qed.

Example dec_str_ex :
  dec_str (mkDecimal false 4000000 (-4)) = "400.0000"
  /\ dec_str (mkDecimal true 5 (-3)) = "-0.005"
  /\ dec_str (mkDecimal false 12 3) = "1.2E+4"
  /\ dec_str (mkDecimal false 0 (-8)) = "0E-8".
Proof. vm_compute. repeat split. Qed.

Example ymd2ord_ex :
  ymd2ord 2025 12 1 = 739586 /\ ymd2ord 1 1 1 = 1
  /\ ymd2ord 9999 12 31 = MAXORDINAL /\ ymd2ord 2024 2 29 = 738945.
Proof. vm_compute. repeat split. Qed.

Example isoformat_ex :
  isoformat 739586 = "2025-12-01" /\ isoformat 1 = "0001-01-01"
  /\ isoformat MAXORDINAL = "9999-12-31" /\ isoformat 738945 = "2024-02-29"
  /\ isoformat 738946 = "2024-03-01" /\ isoformat 730120 = "2000-01-01"
  /\ isoformat 730119 = "1999-12-31".
Proof. vm_compute. repeat split. Qed.

Example parse_iso_ex :
  parse_iso "2025-12-01" = Some 739586 /\ parse_iso "2025-02-29" = None
  /\ parse_iso "2025-13-01" = None /\ parse_iso "tomorrow" = None.
Proof. vm_compute. repeat split. Qed.

(* ===================================================================== *)
(** ** The pricing loop                                                   *)
(* ===================================================================== *)

Lemma nights_of_stay_nil (a b : date) : b <= a -> nights_of_stay a b = [].
Proof.
  intros H. unfold nights_of_stay.
  replace (Z.to_nat (b - a)) with 0%nat by lia. reflexivity.
Qed.

Lemma nights_of_stay_cons (a b : date) :
  a < b -> nights_of_stay a b = a :: nights_of_stay (a + 1) b.
Proof.
  intros H. unfold nights_of_stay.
  replace (Z.to_nat (b - a)) with (S (Z.to_nat (b - (a + 1)))) by lia.
  cbn [seq map]. rewrite <- seq_shift, map_map.
  apply (f_equal2 (@cons date)); [lia|].
  apply map_ext. intros i. lia.
Qed.

Lemma nights_of_stay_length (a b : date) :
  a <= b -> Z.of_nat (List.length (nights_of_stay a b)) = b - a.
Proof.
  intros H. unfold nights_of_stay. rewrite length_map, length_seq. lia.
Qed.

Lemma nights_of_stay_In (a b d : date) :
  In d (nights_of_stay a b) <-> a <= d < b.
Proof.
  unfold nights_of_stay. rewrite in_map_iff. split.
  - intros [i [<- Hi]]. apply in_seq in Hi. lia.
  - intros H. exists (Z.to_nat (d - a)). split; [lia|].
    apply in_seq. lia.
Qed.

Lemma nights_of_stay_nth (a b d : date) :
  a <= d < b -> nth_error (nights_of_stay a b) (Z.to_nat (d - a)) = Some d.
Proof.
  intros H. unfold nights_of_stay.
  rewrite nth_error_map, nth_error_seq.
  destruct (Nat.ltb_spec (Z.to_nat (d - a)) (Z.to_nat (b - a))); [|lia].
  cbn [option_map Nat.add]. apply f_equal. lia.
Qed.

(** The loop adds the night prices of the remaining dates to the running
    total and appends their entries, in date order. *)
Lemma price_loop_spec (p : Property.t) (rules : list PricingRule.t)
    (check_out current_date : date) (total : Decimal) (daily : list Daily.t) :
  price_loop p rules check_out current_date total daily
  = (py_sum (map Daily.final_price
               (map (daily_price p rules) (nights_of_stay current_date check_out)))
            total,
     daily ++ map (daily_price p rules) (nights_of_stay current_date check_out)).
Proof.
  funelim (price_loop p rules check_out current_date total daily).
  - rewrite H. rewrite (nights_of_stay_cons current_date check_out) by assumption.
    cbn [map py_sum fold_left]. rewrite <- app_assoc. reflexivity.
  - rewrite nights_of_stay_nil by lia. cbn. rewrite app_nil_r. reflexivity.
Qed.

Lemma rule_covers_iff (rule : PricingRule.t) (d : date) :
  rule_covers rule d = true <-> covers rule d.
Proof.
  unfold rule_covers, covers. rewrite andb_true_iff, !Z.leb_le. tauto.
Qed.

Lemma rule_covers_false_iff (rule : PricingRule.t) (d : date) :
  rule_covers rule d = false <-> ~ covers rule d.
Proof.
  rewrite <- rule_covers_iff. destruct (rule_covers rule d); split; congruence.
Qed.

Lemma scan_rules_selected (rules : list PricingRule.t) (d : date)
    (multiplier : Decimal) (rule_name : string) :
  scan_rules rules d multiplier rule_name
  = match selected_rule rules d with
    | Some rule => (PricingRule.price_multiplier rule, seasonal_name rule)
    | None => (multiplier, rule_name)
    end.
Proof.
  unfold selected_rule.
  induction rules as [|r rules IH]; cbn; [reflexivity|].
  destruct (rule_covers r d); [reflexivity | exact IH].
Qed.

(** [selected_rule] is the first covering rule: everything before it in the
    list fails the test. *)
Lemma selected_rule_Some (rules : list PricingRule.t) (d : date)
    (rule : PricingRule.t) :
  selected_rule rules d = Some rule <->
  exists pre post,
    rules = pre ++ rule :: post
    /\ (forall x, In x pre -> ~ covers x d)
    /\ covers rule d.
Proof.
  unfold selected_rule. split.
  - induction rules as [|r rules IH]; cbn; [discriminate|].
    destruct (rule_covers r d) eqn:E.
    + intros [= ->]. exists [], rules. cbn. rewrite rule_covers_iff in E.
      repeat split; [tauto | apply E | apply E].
    + intros H. destruct (IH H) as (pre & post & -> & Hpre & Hc).
      exists (r :: pre), post. repeat split; try apply Hc.
      intros x [<- | Hx]; [now apply rule_covers_false_iff | now apply Hpre].
  - intros (pre & post & -> & Hpre & Hc).
    induction pre as [|x pre IH]; cbn.
    + apply rule_covers_iff in Hc. now rewrite Hc.
    + assert (E : rule_covers x d = false)
        by (apply rule_covers_false_iff, Hpre; now left).
      rewrite E. apply IH. intros y Hy. apply Hpre. now right.
Qed.

Lemma selected_rule_None (rules : list PricingRule.t) (d : date) :
  selected_rule rules d = None <-> (forall x, In x rules -> ~ covers x d).
Proof.
  unfold selected_rule. split.
  - intros H x Hx. apply rule_covers_false_iff.
    exact (find_none _ _ H x Hx).
  - induction rules as [|r rules IH]; cbn; [reflexivity|]. intros H.
    assert (E : rule_covers r d = false)
      by (apply rule_covers_false_iff, H; now left).
    rewrite E. apply IH. intros y Hy. apply H. now right.
Qed.

Lemma not_supplied (query_params : QueryDict) (key value : string) :
  supplied query_params key value -> not_ (get key query_params) = false.
Proof.
  intros [-> Hne]. cbn. now apply String.eqb_neq.
Qed.

Lemma dec_div_nonzero (a b : Decimal) :
  coeff b <> 0 -> exists q, dec_div a b = inl q.
Proof.
  intros Hb. unfold dec_div.
  destruct (coeff b =? 0) eqn:E; [apply Z.eqb_eq in E; contradiction|].
  destruct (coeff a =? 0); [eexists; reflexivity|].
  cbv zeta.
  match goal with |- context [if ?c then _ else _] => destruct c end.
  - match goal with |- context [strip_zeros ?f ?c ?e ?i] =>
      destruct (strip_zeros f c e i) end.
    eexists; reflexivity.
  - eexists; reflexivity.
Qed.

Lemma average_price_positive (total : Decimal) (nights : Z) :
  0 < nights ->
  exists q, dec_div total (of_int nights) = inl q
            /\ average_price total nights = Ok q.
Proof.
  intros H. destruct (dec_div_nonzero total (of_int nights)) as [q Hq].
  - cbn. lia.
  - exists q. split; [exact Hq|]. unfold average_price.
    destruct (Z.ltb_spec 0 nights); [|lia]. now rewrite Hq.
Qed.

(** A request for a non-empty stay is answered with the breakdown computed
    from the property's rules in their default order, and the database is
    handed on as it was received. *)
Lemma calculate_price_valid (strptime : string -> option date)
    (p : Property.t) (query_params : QueryDict) (db : Database)
    (check_in check_out : date) :
  stay_requested strptime query_params check_in check_out ->
  check_in < check_out ->
  let rules := related_pricing_rules p db in
  let daily := map (daily_price p rules) (nights_of_stay check_in check_out) in
  let total := py_sum (map Daily.final_price daily) Decimal_0_00 in
  exists avg,
    dec_div total (of_int (check_out - check_in)) = inl avg
    /\ calculate_price strptime p query_params db
       = (Ok (Response_200
                (Breakdown.mk (Property.id p) (Property.name p)
                   check_in check_out (check_out - check_in)
                   (Property.base_price_per_night p) total avg
                   (Property.currency p) daily)),
          db).
Proof.
  intros (cs & os & Hci & Hco & Pci & Pco) Hlt rules daily total.
  destruct (average_price_positive total (check_out - check_in)) as (avg & Hq & Ha);
    [lia|].
  exists avg. split; [exact Hq|].
  unfold calculate_price.
  rewrite (not_supplied _ _ _ Hci), (not_supplied _ _ _ Hco).
  destruct Hci as [-> _], Hco as [-> _]. cbn [orb str_value].
  rewrite Pci, Pco.
  destruct (Z.leb_spec check_out check_in); [lia|].
  unfold bind, evaluate, ret. rewrite price_loop_spec. cbn [app].
  fold rules. fold daily. fold total. rewrite Ha. reflexivity.
Qed.

Lemma daily_price_fields (p : Property.t) (rules : list PricingRule.t) (d : date) :
  let e := daily_price p rules d in
  Daily.date e = d
  /\ Daily.base_price e = Property.base_price_per_night p
  /\ Daily.final_price e
     = dec_mul (Property.base_price_per_night p) (Daily.multiplier e)
  /\ (Daily.multiplier e, Daily.pricing_rule e)
     = scan_rules rules d Decimal_1_0 "Base Rate".
Proof.
  unfold daily_price.
  destruct (scan_rules rules d Decimal_1_0 "Base Rate") as [m n]. cbn.
  repeat split.
Qed.

Lemma daily_price_dates (p : Property.t) (rules : list PricingRule.t)
    (l : list date) :
  map Daily.date (map (daily_price p rules) l) = l.
Proof.
  rewrite map_map. rewrite <- (map_id l) at 2.
  apply map_ext. intros d. apply (daily_price_fields p rules d).
Qed.

Lemma scenario_stay_requested :
  stay_requested parse_iso scenario_request (ymd2ord 2025 12 1) (ymd2ord 2025 12 4).
Proof.
  exists "2025-12-01", "2025-12-04". unfold supplied.
  repeat split; try discriminate; reflexivity.
Qed.

(** Evaluate a concrete invocation and give its answer as the witness of
    [exists data, run = (Ok (Response_200 data), _) /\ _]. *)
Ltac exists_response :=
  match goal with
  | |- exists data, ?run = (Ok (Response_200 data), _) /\ _ =>
      let r := eval vm_compute in run in
      match r with
      | (Ok (Response_200 ?d), _) => exists d
      end
  end.

(* ===================================================================== *)
(** ** Pricing calculator: the claims                                     *)
(* ===================================================================== *)

(** C2. First-match rule resolution.  For a valid stay the calculator
    answers with a breakdown in which the entry of every night [d] of
    [check_in <= d < check_out] carries the multiplier and the label of the
    first rule, in the order the rules are scanned, with
    [start_date <= d <= end_date]; when no rule covers [d] the multiplier is
    [Decimal('1.0')] and the label is "Base Rate".  The night's price is
    [base_price_per_night * multiplier]. *)
Theorem calculate_price_first_match :
  forall (strptime : string -> option date) (p : Property.t)
         (query_params : QueryDict) (db : Database) (check_in check_out : date),
    stay_requested strptime query_params check_in check_out ->
    check_in < check_out ->
    exists data,
      calculate_price strptime p query_params db = (Ok (Response_200 data), db)
      /\ forall d, check_in <= d < check_out ->
         exists e,
           nth_error (Breakdown.daily_breakdown data) (Z.to_nat (d - check_in))
           = Some e
           /\ Daily.date e = d
           /\ Daily.final_price e
              = dec_mul (Property.base_price_per_night p) (Daily.multiplier e)
           /\ ((exists pre rule post,
                   related_pricing_rules p db = pre ++ rule :: post
                   /\ (forall x, In x pre -> ~ covers x d)
                   /\ covers rule d
                   /\ Daily.multiplier e = PricingRule.price_multiplier rule
                   /\ Daily.pricing_rule e = seasonal_name rule)
               \/ ((forall x, In x (related_pricing_rules p db) -> ~ covers x d)
                   /\ Daily.multiplier e = Decimal_1_0
                   /\ Daily.pricing_rule e = "Base Rate")).
Proof.
  intros strptime p qp db ci co Hreq Hlt.
  destruct (calculate_price_valid strptime p qp db ci co Hreq Hlt)
    as (avg & _ & Hrun).
  eexists. split; [exact Hrun|]. cbn [Breakdown.daily_breakdown].
  intros d Hd. exists (daily_price p (related_pricing_rules p db) d).
  destruct (daily_price_fields p (related_pricing_rules p db) d)
    as (Hdate & _ & Hprice & Hscan).
  split; [|split; [exact Hdate | split; [exact Hprice|]]].
  - rewrite nth_error_map, (nights_of_stay_nth ci co d Hd). reflexivity.
  - rewrite scan_rules_selected in Hscan.
    destruct (selected_rule (related_pricing_rules p db) d) as [rule|] eqn:E.
    + left. apply selected_rule_Some in E.
      destruct E as (pre & post & Hsplit & Hpre & Hc).
      exists pre, rule, post. injection Hscan as Hm Hn. auto.
    + right. rewrite selected_rule_None in E.
      injection Hscan as Hm Hn. auto.
Qed.

Lemma calculate_price_first_match_witness :
  stay_requested parse_iso scenario_request (ymd2ord 2025 12 1) (ymd2ord 2025 12 4)
  /\ ymd2ord 2025 12 1 < ymd2ord 2025 12 4
  /\ exists data,
      calculate_price parse_iso scenario_property scenario_request scenario_B_db
      = (Ok (Response_200 data), scenario_B_db)
      /\ forall d, ymd2ord 2025 12 1 <= d < ymd2ord 2025 12 4 ->
         exists e,
           nth_error (Breakdown.daily_breakdown data)
                     (Z.to_nat (d - ymd2ord 2025 12 1)) = Some e
           /\ Daily.date e = d
           /\ Daily.final_price e
              = dec_mul (Property.base_price_per_night scenario_property)
                        (Daily.multiplier e)
           /\ ((exists pre rule post,
                   related_pricing_rules scenario_property scenario_B_db
                   = pre ++ rule :: post
                   /\ (forall x, In x pre -> ~ covers x d)
                   /\ covers rule d
                   /\ Daily.multiplier e = PricingRule.price_multiplier rule
                   /\ Daily.pricing_rule e = seasonal_name rule)
               \/ ((forall x,
                       In x (related_pricing_rules scenario_property scenario_B_db)
                       -> ~ covers x d)
                   /\ Daily.multiplier e = Decimal_1_0
                   /\ Daily.pricing_rule e = "Base Rate")).
Proof.
  split; [exact scenario_stay_requested|].
  split; [reflexivity|].
  apply (calculate_price_first_match parse_iso scenario_property
           scenario_request scenario_B_db (ymd2ord 2025 12 1) (ymd2ord 2025 12 4)).
  - exact scenario_stay_requested.
  - reflexivity.
Defined.

(** C3. Totals.  For a valid stay the reported [nights] is
    [(check_out - check_in).days], [daily_breakdown] has exactly that many
    entries, one for each date from [check_in] up to but excluding
    [check_out], in order, and [total_price] is the sum of their
    [final_price]s accumulated from [Decimal('0.00')]. *)
Theorem calculate_price_totals :
  forall (strptime : string -> option date) (p : Property.t)
         (query_params : QueryDict) (db : Database) (check_in check_out : date),
    stay_requested strptime query_params check_in check_out ->
    check_in < check_out ->
    exists data,
      calculate_price strptime p query_params db = (Ok (Response_200 data), db)
      /\ Breakdown.nights data = check_out - check_in
      /\ Z.of_nat (List.length (Breakdown.daily_breakdown data))
         = Breakdown.nights data
      /\ Breakdown.total_price data
         = py_sum (map Daily.final_price (Breakdown.daily_breakdown data))
                  Decimal_0_00
      /\ map Daily.date (Breakdown.daily_breakdown data)
         = nights_of_stay check_in check_out
      /\ Forall (fun e => check_in <= Daily.date e < check_out)
                (Breakdown.daily_breakdown data).
Proof.
  intros strptime p qp db ci co Hreq Hlt.
  destruct (calculate_price_valid strptime p qp db ci co Hreq Hlt)
    as (avg & _ & Hrun).
  eexists. split; [exact Hrun|].
  cbn [Breakdown.nights Breakdown.daily_breakdown Breakdown.total_price].
  repeat split.
  - rewrite length_map. apply nights_of_stay_length. lia.
  - apply daily_price_dates.
  - apply Forall_forall. intros e He. apply in_map_iff in He.
    destruct He as (d & <- & Hd). apply nights_of_stay_In in Hd.
    now rewrite (proj1 (daily_price_fields p _ d)).
Qed.

Lemma calculate_price_totals_witness :
  stay_requested parse_iso scenario_request (ymd2ord 2025 12 1) (ymd2ord 2025 12 4)
  /\ ymd2ord 2025 12 1 < ymd2ord 2025 12 4
  /\ exists data,
      calculate_price parse_iso scenario_property scenario_request scenario_B_db
      = (Ok (Response_200 data), scenario_B_db)
      /\ Breakdown.nights data = ymd2ord 2025 12 4 - ymd2ord 2025 12 1
      /\ Z.of_nat (List.length (Breakdown.daily_breakdown data))
         = Breakdown.nights data
      /\ Breakdown.total_price data
         = py_sum (map Daily.final_price (Breakdown.daily_breakdown data))
                  Decimal_0_00
      /\ map Daily.date (Breakdown.daily_breakdown data)
         = nights_of_stay (ymd2ord 2025 12 1) (ymd2ord 2025 12 4)
      /\ Forall (fun e => ymd2ord 2025 12 1 <= Daily.date e < ymd2ord 2025 12 4)
                (Breakdown.daily_breakdown data).
Proof.
  split; [exact scenario_stay_requested|].
  split; [reflexivity|].
  apply (calculate_price_totals parse_iso scenario_property scenario_request
           scenario_B_db (ymd2ord 2025 12 1) (ymd2ord 2025 12 4)).
  - exact scenario_stay_requested.
  - reflexivity.
Defined.

Lemma calculate_price_never_raises (strptime : string -> option date)
    (p : Property.t) (query_params : QueryDict) (db : Database) (e : Exception) :
  fst (calculate_price strptime p query_params db) <> Raise e.
Proof.
  unfold calculate_price.
  destruct (not_ (get "check_in" query_params) || not_ (get "check_out" query_params));
    [discriminate|].
  destruct (strptime (str_value (get "check_in" query_params))) as [ci|];
    [|discriminate].
  destruct (strptime (str_value (get "check_out" query_params))) as [co|];
    [|discriminate].
  destruct (Z.leb_spec co ci); [discriminate|].
  unfold bind, evaluate, ret.
  destruct (price_loop p (related_pricing_rules p db) co ci Decimal_0_00 [])
    as [total daily].
  destruct (average_price_positive total (co - ci)) as (q & _ & ->); [lia|].
  discriminate.
Qed.

(** C5. Division-by-zero guard.  With [nights = 0] the average is
    [Decimal('0.00')] and no division takes place; with [nights > 0] it is
    the Decimal quotient [total_price / nights], whose divisor is not zero;
    the expression never raises, and neither does the calculator. *)
Theorem average_price_guard :
  forall (total_price : Decimal) (nights : Z),
    (nights = 0 -> average_price total_price nights = Ok Decimal_0_00)
    /\ (0 < nights ->
        coeff (of_int nights) <> 0
        /\ exists q, dec_div total_price (of_int nights) = inl q
                     /\ average_price total_price nights = Ok q)
    /\ (forall e, average_price total_price nights <> Raise e)
    /\ (forall strptime p query_params db e,
           fst (calculate_price strptime p query_params db) <> Raise e).
Proof.
  intros total nights. repeat split.
  - intros ->. reflexivity.
  - cbn. lia.
  - apply average_price_positive. assumption.
  - intros e. unfold average_price. destruct (Z.ltb_spec 0 nights).
    + destruct (average_price_positive total nights) as (q & Hq & _); [lia|].
      rewrite Hq. discriminate.
    + discriminate.
  - intros. apply calculate_price_never_raises.
Qed.

Lemma average_price_guard_witness :
  average_price (mkDecimal false 4000000 (-4)) 0 = Ok Decimal_0_00
  /\ average_price (mkDecimal false 4000000 (-4)) 3
     = Ok (mkDecimal false 1333333333333333333333333333 (-25)).
Proof.
  split.
  - apply (proj1 (average_price_guard (mkDecimal false 4000000 (-4)) 0)).
    reflexivity.
  - destruct (proj1 (proj2 (average_price_guard (mkDecimal false 4000000 (-4)) 3)))
      as (_ & q & Hq & ->); [reflexivity|].
    vm_compute in Hq. injection Hq as <-. reflexivity.
Defined.

(** C6. Scenario B.  A property whose base price is [Decimal('100.00')]
    and whose only pricing rule runs from 2025-12-02 to 2025-12-03 with
    multiplier 1.50, asked for 2025-12-01 to 2025-12-04: three nights,
    priced 100, 150 and 150, total 400.  The Decimals carry the exponents of
    their factors: the prices are [100.000], [150.0000], [150.0000] and the
    total is [400.0000], equal in value to [400.00]. *)
Theorem calculate_price_scenario_B :
  forall (strptime : string -> option date) (p : Property.t)
         (query_params : QueryDict) (db : Database) (rule : PricingRule.t),
    Property.base_price_per_night p = mkDecimal false 10000 (-2) ->
    related_pricing_rules p db = [rule] ->
    PricingRule.start_date rule = ymd2ord 2025 12 2 ->
    PricingRule.end_date rule = ymd2ord 2025 12 3 ->
    PricingRule.price_multiplier rule = mkDecimal false 150 (-2) ->
    stay_requested strptime query_params (ymd2ord 2025 12 1) (ymd2ord 2025 12 4) ->
    exists data,
      calculate_price strptime p query_params db = (Ok (Response_200 data), db)
      /\ Breakdown.nights data = 3
      /\ map (fun e => (isoformat (Daily.date e), Daily.final_price e))
             (Breakdown.daily_breakdown data)
         = [("2025-12-01", mkDecimal false 100000 (-3));
            ("2025-12-02", mkDecimal false 1500000 (-4));
            ("2025-12-03", mkDecimal false 1500000 (-4))]
      /\ map (fun e => dec_str (Daily.final_price e))
             (Breakdown.daily_breakdown data)
         = ["100.000"; "150.0000"; "150.0000"]
      /\ Forall2 (fun e v => dec_eqb (Daily.final_price e) (of_int v) = true)
                 (Breakdown.daily_breakdown data) [100; 150; 150]
      /\ Breakdown.total_price data = mkDecimal false 4000000 (-4)
      /\ dec_eqb (Breakdown.total_price data) (mkDecimal false 40000 (-2)) = true.
Proof.
  intros strptime p qp db rule Hbase Hrules Hs He Hm Hreq.
  destruct (calculate_price_valid strptime p qp db _ _ Hreq) as (avg & _ & Hrun);
    [reflexivity|].
  eexists. split; [exact Hrun|].
  cbn [Breakdown.nights Breakdown.daily_breakdown Breakdown.total_price].
  rewrite Hrules.
  destruct p as [pid pname pbase pcur], rule as [rid rfk rs re rm].
  cbn in Hbase, Hs, He, Hm. subst pbase rs re rm.
  vm_compute. repeat split; repeat constructor.
Qed.

Lemma calculate_price_scenario_B_witness :
  exists data,
    calculate_price parse_iso scenario_property scenario_request scenario_B_db
    = (Ok (Response_200 data), scenario_B_db)
    /\ Breakdown.nights data = 3
    /\ map (fun e => (isoformat (Daily.date e), Daily.final_price e))
           (Breakdown.daily_breakdown data)
       = [("2025-12-01", mkDecimal false 100000 (-3));
          ("2025-12-02", mkDecimal false 1500000 (-4));
          ("2025-12-03", mkDecimal false 1500000 (-4))]
    /\ map (fun e => dec_str (Daily.final_price e))
           (Breakdown.daily_breakdown data)
       = ["100.000"; "150.0000"; "150.0000"]
    /\ Forall2 (fun e v => dec_eqb (Daily.final_price e) (of_int v) = true)
               (Breakdown.daily_breakdown data) [100; 150; 150]
    /\ Breakdown.total_price data = mkDecimal false 4000000 (-4)
    /\ dec_eqb (Breakdown.total_price data) (mkDecimal false 40000 (-2)) = true.
Proof.
  apply (calculate_price_scenario_B parse_iso scenario_property scenario_request
           scenario_B_db
           (PricingRule.mk 1 1 (ymd2ord 2025 12 2) (ymd2ord 2025 12 3)
                           (mkDecimal false 150 (-2))));
    try reflexivity.
  exact scenario_stay_requested.
Defined.

(** C7, counterexample.  The rule for the single day 2025-12-01 belongs to
    the property and starts and ends on [check_in], yet the stay
    2025-12-01 .. 2025-12-04 applies it to no night: the scan reaches the
    rule that starts on 2025-11-30 first and breaks there, so the check-in
    night is priced with x2.00, not x1.50. *)
Lemma single_night_rule_shadowed :
  In single_night_rule (related_pricing_rules scenario_property shadow_db)
  /\ PricingRule.start_date single_night_rule = ymd2ord 2025 12 1
  /\ PricingRule.end_date single_night_rule = ymd2ord 2025 12 1
  /\ ymd2ord 2025 12 1 < ymd2ord 2025 12 4
  /\ ~ applies_to (related_pricing_rules scenario_property shadow_db)
                  single_night_rule (ymd2ord 2025 12 1)
  /\ exists data,
      calculate_price parse_iso scenario_property scenario_request shadow_db
      = (Ok (Response_200 data), shadow_db)
      /\ map (fun e => (isoformat (Daily.date e), dec_str (Daily.multiplier e),
                        Daily.pricing_rule e))
             (Breakdown.daily_breakdown data)
         = [("2025-12-01", "2.00", "Seasonal (2025-11-30 to 2025-12-02)");
            ("2025-12-02", "2.00", "Seasonal (2025-11-30 to 2025-12-02)");
            ("2025-12-03", "1.0", "Base Rate")].
Proof.
  split; [right; left; reflexivity|].
  split; [reflexivity|]. split; [reflexivity|]. split; [reflexivity|].
  split; [vm_compute; discriminate|].
  exists_response. split; vm_compute; reflexivity.
Qed.

(** C7, as amended.  A rule with [start_date = end_date = check_in] covers
    the check-in night and no other night of the stay, so it is applied to
    no other night; it is applied to the check-in night exactly when no rule
    scanned before it covers that night as well, and then the first entry
    of the breakdown carries its multiplier and label. *)
Theorem single_night_rule_boundary :
  forall (strptime : string -> option date) (p : Property.t)
         (query_params : QueryDict) (db : Database) (check_in check_out : date)
         (rule : PricingRule.t),
    stay_requested strptime query_params check_in check_out ->
    check_in < check_out ->
    In rule (related_pricing_rules p db) ->
    PricingRule.start_date rule = check_in ->
    PricingRule.end_date rule = check_in ->
    (forall d, check_in <= d < check_out -> (covers rule d <-> d = check_in))
    /\ (forall d, check_in <= d < check_out ->
                  applies_to (related_pricing_rules p db) rule d -> d = check_in)
    /\ (applies_to (related_pricing_rules p db) rule check_in <->
        exists pre post,
          related_pricing_rules p db = pre ++ rule :: post
          /\ forall x, In x pre -> ~ covers x check_in)
    /\ exists data e rest,
        calculate_price strptime p query_params db = (Ok (Response_200 data), db)
        /\ Breakdown.daily_breakdown data = e :: rest
        /\ Daily.date e = check_in
        /\ (applies_to (related_pricing_rules p db) rule check_in ->
            Daily.multiplier e = PricingRule.price_multiplier rule
            /\ Daily.pricing_rule e = seasonal_name rule)
        /\ Forall (fun e' =>
                     ~ applies_to (related_pricing_rules p db) rule (Daily.date e'))
                  rest.
Proof.
  intros strptime p qp db ci co rule Hreq Hlt Hin Hs He.
  set (rules := related_pricing_rules p db) in *.
  assert (Hcov : forall d, covers rule d <-> d = ci).
  { intros d. unfold covers. rewrite Hs, He. lia. }
  assert (Happ : forall d, applies_to rules rule d -> d = ci).
  { intros d H. apply selected_rule_Some in H.
    destruct H as (_ & _ & _ & _ & Hc). now apply Hcov. }
  split; [intros d _; apply Hcov|].
  split; [intros d _; apply Happ|].
  split.
  - unfold applies_to. rewrite selected_rule_Some. split.
    + intros (pre & post & H1 & H2 & _). now exists pre, post.
    + intros (pre & post & H1 & H2). exists pre, post.
      repeat split; try assumption; apply Hcov; reflexivity.
  - destruct (calculate_price_valid strptime p qp db ci co Hreq Hlt)
      as (avg & _ & Hrun).
    fold rules in Hrun. rewrite (nights_of_stay_cons ci co Hlt) in Hrun.
    cbn [map] in Hrun.
    eexists. exists (daily_price p rules ci).
    exists (map (daily_price p rules) (nights_of_stay (ci + 1) co)).
    split; [exact Hrun|]. split; [reflexivity|].
    destruct (daily_price_fields p rules ci) as (Hd & _ & _ & Hscan).
    split; [exact Hd|]. split.
    + intros H. unfold applies_to in H.
      rewrite scan_rules_selected, H in Hscan. injection Hscan as Hm Hn. auto.
    + apply Forall_forall. intros e' He'. apply in_map_iff in He'.
      destruct He' as (d & <- & Hd'). apply nights_of_stay_In in Hd'.
      rewrite (proj1 (daily_price_fields p rules d)).
      intros H. apply Happ in H. lia.
Qed.

Lemma single_night_rule_boundary_witness :
  applies_to (related_pricing_rules scenario_property single_night_db)
             single_night_rule (ymd2ord 2025 12 1)
  /\ exists data e rest,
      calculate_price parse_iso scenario_property scenario_request single_night_db
      = (Ok (Response_200 data), single_night_db)
      /\ Breakdown.daily_breakdown data = e :: rest
      /\ Daily.date e = ymd2ord 2025 12 1
      /\ (applies_to (related_pricing_rules scenario_property single_night_db)
                     single_night_rule (ymd2ord 2025 12 1) ->
          Daily.multiplier e = PricingRule.price_multiplier single_night_rule
          /\ Daily.pricing_rule e = seasonal_name single_night_rule)
      /\ Forall (fun e' =>
                   ~ applies_to (related_pricing_rules scenario_property
                                   single_night_db)
                                single_night_rule (Daily.date e'))
                rest.
Proof.
  split; [reflexivity|].
  apply (single_night_rule_boundary parse_iso scenario_property scenario_request
           single_night_db (ymd2ord 2025 12 1) (ymd2ord 2025 12 4)
           single_night_rule).
  - exact scenario_stay_requested.
  - reflexivity.
  - left. reflexivity.
  - reflexivity.
  - reflexivity.
Defined.

(* ===================================================================== *)
(** ** The order in which the rules are scanned                           *)
(* ===================================================================== *)

Lemma insert_by_start_date_perm (r : PricingRule.t) (l : list PricingRule.t) :
  Permutation (insert_by_start_date r l) (r :: l).
Proof.
  induction l as [|x l IH]; cbn; [reflexivity|].
  destruct (PricingRule.start_date r <? PricingRule.start_date x);
    [reflexivity|].
  rewrite IH. apply perm_swap.
Qed.

Lemma insert_by_start_date_sorted (r : PricingRule.t) (l : list PricingRule.t) :
  StronglySorted start_le l -> StronglySorted start_le (insert_by_start_date r l).
Proof.
  induction 1 as [|x l Hsorted IH Hx]; cbn.
  - repeat constructor.
  - destruct (Z.ltb_spec (PricingRule.start_date r) (PricingRule.start_date x)).
    + constructor; [constructor; assumption|].
      constructor; [unfold start_le; lia|].
      eapply Forall_impl; [|exact Hx]. unfold start_le. intros; lia.
    + constructor; [exact IH|].
      eapply Permutation_Forall;
        [symmetry; apply insert_by_start_date_perm|].
      constructor; [unfold start_le; lia | exact Hx].
Qed.

Lemma order_by_start_date_perm (l : list PricingRule.t) :
  Permutation (order_by_start_date l) l.
Proof.
  induction l as [|r l IH]; cbn; [reflexivity|].
  rewrite insert_by_start_date_perm. now constructor.
Qed.

Lemma order_by_start_date_sorted (l : list PricingRule.t) :
  StronglySorted start_le (order_by_start_date l).
Proof.
  induction l as [|r l IH]; cbn; [constructor|].
  now apply insert_by_start_date_sorted.
Qed.

(** In a list ordered by [start_date] the first covering rule is a covering
    rule of least [start_date]. *)
Lemma selected_rule_earliest (rules : list PricingRule.t) (d : date)
    (rule : PricingRule.t) :
  StronglySorted start_le rules ->
  selected_rule rules d = Some rule ->
  forall r', In r' rules -> covers r' d -> start_le rule r'.
Proof.
  intros Hsorted Hsel r' Hin Hc.
  apply selected_rule_Some in Hsel.
  destruct Hsel as (pre & post & -> & Hpre & _).
  apply in_app_or in Hin. destruct Hin as [Hin | [<- | Hin]].
  - exfalso. exact (Hpre r' Hin Hc).
  - unfold start_le. lia.
  - clear Hpre. induction pre as [|x pre IH]; cbn in Hsorted.
    + apply StronglySorted_inv in Hsorted. destruct Hsorted as [_ Hall].
      rewrite Forall_forall in Hall. now apply Hall.
    + apply StronglySorted_inv in Hsorted. now apply IH.
Qed.

Lemma related_pricing_rules_In (p : Property.t) (db : Database)
    (r : PricingRule.t) :
  In r (related_pricing_rules p db) <->
  In r (pricing_rules db) /\ PricingRule.property r = Property.id p.
Proof.
  unfold related_pricing_rules. split.
  - intros H. eapply Permutation_in in H; [|apply order_by_start_date_perm].
    apply filter_In in H. now rewrite Z.eqb_eq in H.
  - intros [H1 H2].
    eapply Permutation_in; [symmetry; apply order_by_start_date_perm|].
    apply filter_In. now rewrite Z.eqb_eq.
Qed.

(** C9. Rule iteration order.  The rules the calculator scans are the
    property's rows of [pricing_rules] in ascending [start_date] order
    ([PricingRule.Meta.ordering]), whatever their order in the table; so the
    rule applied to a night is, among the property's rules that cover the
    night, one of least [start_date]. *)
Theorem pricing_rules_scanned_by_start_date :
  forall (strptime : string -> option date) (p : Property.t)
         (query_params : QueryDict) (db : Database) (check_in check_out : date),
    stay_requested strptime query_params check_in check_out ->
    check_in < check_out ->
    StronglySorted start_le (related_pricing_rules p db)
    /\ Permutation (related_pricing_rules p db)
         (filter (fun r => PricingRule.property r =? Property.id p)
                 (pricing_rules db))
    /\ exists data,
        calculate_price strptime p query_params db = (Ok (Response_200 data), db)
        /\ Forall
             (fun e =>
                (exists rule,
                    applies_to (related_pricing_rules p db) rule (Daily.date e)
                    /\ Daily.multiplier e = PricingRule.price_multiplier rule
                    /\ Daily.pricing_rule e = seasonal_name rule
                    /\ forall r',
                         In r' (pricing_rules db) ->
                         PricingRule.property r' = Property.id p ->
                         covers r' (Daily.date e) ->
                         PricingRule.start_date rule <= PricingRule.start_date r')
                \/ ((forall r',
                        In r' (pricing_rules db) ->
                        PricingRule.property r' = Property.id p ->
                        ~ covers r' (Daily.date e))
                    /\ Daily.multiplier e = Decimal_1_0
                    /\ Daily.pricing_rule e = "Base Rate"))
             (Breakdown.daily_breakdown data).
Proof.
  intros strptime p qp db ci co Hreq Hlt.
  assert (Hsorted : StronglySorted start_le (related_pricing_rules p db))
    by apply order_by_start_date_sorted.
  split; [exact Hsorted|].
  split; [apply order_by_start_date_perm|].
  destruct (calculate_price_valid strptime p qp db ci co Hreq Hlt)
    as (avg & _ & Hrun).
  eexists. split; [exact Hrun|]. cbn [Breakdown.daily_breakdown].
  apply Forall_forall. intros e He. apply in_map_iff in He.
  destruct He as (d & <- & _).
  destruct (daily_price_fields p (related_pricing_rules p db) d)
    as (Hd & _ & _ & Hscan).
  rewrite Hd. rewrite scan_rules_selected in Hscan.
  destruct (selected_rule (related_pricing_rules p db) d) as [rule|] eqn:E.
  - left. exists rule. injection Hscan as Hm Hn.
    repeat split; try assumption.
    intros r' Hin Hfk Hc.
    apply (selected_rule_earliest _ d rule Hsorted E r'); [|exact Hc].
    now apply related_pricing_rules_In.
  - right. injection Hscan as Hm Hn. repeat split; try assumption.
    intros r' Hin Hfk. rewrite selected_rule_None in E. apply E.
    now apply related_pricing_rules_In.
Qed.

Lemma pricing_rules_scanned_by_start_date_witness :
  map PricingRule.id (pricing_rules unordered_db) = [1; 2]
  /\ map PricingRule.id (related_pricing_rules scenario_property unordered_db)
     = [2; 1]
  /\ StronglySorted start_le (related_pricing_rules scenario_property unordered_db)
  /\ exists data,
      calculate_price parse_iso scenario_property scenario_request unordered_db
      = (Ok (Response_200 data), unordered_db)
      /\ map (fun e => dec_str (Daily.multiplier e))
             (Breakdown.daily_breakdown data)
         = ["2.00"; "2.00"; "2.00"].
Proof.
  split; [reflexivity|]. split; [reflexivity|].
  destruct (pricing_rules_scanned_by_start_date parse_iso scenario_property
              scenario_request unordered_db (ymd2ord 2025 12 1) (ymd2ord 2025 12 4))
    as (Hsorted & _ & data & Hrun & _).
  - exact scenario_stay_requested.
  - reflexivity.
  - split; [exact Hsorted|].
    exists data. split; [exact Hrun|].
    vm_compute in Hrun. injection Hrun as <-. reflexivity.
Defined.

(* ===================================================================== *)
(** ** Purity of the calculator                                           *)
(* ===================================================================== *)



(** The calculator only reads: the database it hands on is the one it
    received. *)
Lemma calculate_price_reads_only (strptime : string -> option date)
    (p : Property.t) (query_params : QueryDict) (db : Database) :
  snd (calculate_price strptime p query_params db) = db.
Proof.
  unfold calculate_price.
  destruct (not_ (get "check_in" query_params) || not_ (get "check_out" query_params));
    [reflexivity|].
  destruct (strptime (str_value (get "check_in" query_params))) as [ci|];
    [|reflexivity].
  destruct (strptime (str_value (get "check_out" query_params))) as [co|];
    [|reflexivity].
  destruct (co <=? ci); [reflexivity|].
  unfold bind, evaluate, ret.
  destruct (price_loop p (related_pricing_rules p db) co ci Decimal_0_00 [])
    as [total daily].
  destruct (average_price total (co - ci)); reflexivity.
Qed.


(* ===================================================================== *)
(** ** Availability filter: the claims                                    *)
(* ===================================================================== *)

Lemma filter_available_dates_both (parse_date : string -> option date)
    (query_params : QueryDict) (queryset : QuerySet Property.t)
    (name : string) (value : date) (cs os : string) (s e : date) :
  supplied query_params "check_in" cs ->
  supplied query_params "check_out" os ->
  parse_date cs = Some s ->
  parse_date os = Some e ->
  filter_available_dates parse_date query_params queryset name value
  = Ok (distinct (exclude (overlapping_bookings s e) queryset)).
Proof.
  intros Hci Hco Ps Pe. unfold filter_available_dates.
  rewrite (not_supplied _ _ _ Hci), (not_supplied _ _ _ Hco).
  destruct Hci as [-> _], Hco as [-> _]. cbn [orb str_value].
  now rewrite Pe, Ps.
Qed.

(** What the excluded rows are: a property leaves the result when it has a
    confirmed booking, a booking that starts by the requested end and a
    booking that ends at or after the requested start; the three need not
    be one booking. *)
Lemma exclude_overlapping_bookings_In (queryset : QuerySet Property.t)
    (db : Database) (s e : date) (p : Property.t) :
  In p (distinct (exclude (overlapping_bookings s e) queryset) db) <->
  In p (queryset db)
  /\ ~ ((exists b, In b (related_bookings db p) /\ Booking.status b = "confirmed")
        /\ (exists b, In b (related_bookings db p) /\ Booking.check_in b <= e)
        /\ (exists b, In b (related_bookings db p) /\ s <= Booking.check_out b)).
Proof.
  unfold distinct, exclude. rewrite nodup_In, filter_In.
  cbn [overlapping_bookings exclude_condition]. unfold exists_related.
  rewrite negb_true_iff, <- not_true_iff_false, !andb_true_iff, !existsb_exists.
  cbn [lookup_matches].
  split; intros [Hin Hn]; (split; [exact Hin|]); intros (H1 & H2 & H3); apply Hn.
  - destruct H1 as (b1 & ? & ?), H2 as (b2 & ? & ?), H3 as (b3 & ? & ?).
    repeat split; [exists b1 | exists b2 | exists b3];
      rewrite ?String.eqb_eq, ?Z.leb_le; auto.
  - destruct H1 as (b1 & ? & H1), H2 as (b2 & ? & H2), H3 as (b3 & ? & H3).
    rewrite String.eqb_eq in H1. rewrite Z.leb_le in H2, H3.
    repeat split; [exists b1 | exists b2 | exists b3]; auto.
Qed.

(** A confirmed booking that overlaps the request does exclude its
    property. *)
Lemma overlapping_confirmed_booking_excluded (queryset : QuerySet Property.t)
    (db : Database) (s e : date) (p : Property.t) (b : Booking.t) :
  In b (related_bookings db p) ->
  Booking.status b = "confirmed" ->
  Booking.check_in b <= e ->
  s <= Booking.check_out b ->
  ~ In p (distinct (exclude (overlapping_bookings s e) queryset) db).
Proof.
  intros Hb Hst Hci Hco H. apply exclude_overlapping_bookings_In in H.
  destruct H as [_ H]. apply H. repeat split; exists b; auto.
Qed.

(** C10. No-op on partial input.  When [check_in] or [check_out] is absent
    from the query string the filter returns the queryset it was given and
    raises nothing; a result that differs from the input queryset is
    produced only when both parameters are supplied. *)
Theorem filter_available_dates_partial :
  forall (parse_date : string -> option date) (query_params : QueryDict)
         (queryset : QuerySet Property.t) (name : string) (value : date),
    (get "check_in" query_params = None \/ get "check_out" query_params = None ->
     filter_available_dates parse_date query_params queryset name value
     = Ok queryset)
    /\ (forall queryset',
           filter_available_dates parse_date query_params queryset name value
           = Ok queryset' ->
           queryset' <> queryset ->
           exists cs os,
             supplied query_params "check_in" cs
             /\ supplied query_params "check_out" os).
Proof.
  intros parse_date qp qs name value. unfold filter_available_dates. split.
  - intros [-> | ->]; cbn [not_ orb]; [reflexivity|].
    now rewrite orb_true_r.
  - intros qs' H Hne.
    destruct (get "check_in" qp) as [cs|] eqn:Eci; [|cbn in H; congruence].
    destruct (get "check_out" qp) as [os|] eqn:Eco;
      [|cbn in H; rewrite orb_true_r in H; congruence].
    cbn [not_] in H.
    destruct (String.eqb_spec cs ""); [cbn in H; congruence|].
    destruct (String.eqb_spec os ""); [cbn in H; congruence|].
    exists cs, os. unfold supplied. auto.
Qed.

Lemma filter_available_dates_partial_witness :
  get "check_out" only_check_in = None
  /\ filter_available_dates parse_iso only_check_in all_properties "check_in"
                            (ymd2ord 2025 12 8)
     = Ok all_properties.
Proof.
  split; [reflexivity|].
  apply (proj1 (filter_available_dates_partial parse_iso only_check_in
                  all_properties "check_in" (ymd2ord 2025 12 8))).
  right. reflexivity.
Defined.

(** C1, the code at the failing inputs.  Asked for 2025-12-08 .. 2025-12-09,
    the filter drops a property none of whose bookings passes the
    documented test: in [gap_db] one confirmed booking ends before the
    request and another starts after it; in [pending_db] the later booking
    is only pending, and removing it ([no_pending_db]) brings the property
    back, so a pending booking does change the result. *)
Theorem filter_available_dates_conflates_bookings :
  (forall b, In b (bookings gap_db) ->
             ~ blocks b (ymd2ord 2025 12 8) (ymd2ord 2025 12 9))
  /\ (forall b, In b (bookings pending_db) ->
                ~ blocks b (ymd2ord 2025 12 8) (ymd2ord 2025 12 9))
  /\ exists queryset,
      filter_available_dates parse_iso availability_request all_properties
                             "check_in" (ymd2ord 2025 12 8)
      = Ok queryset
      /\ all_properties gap_db = [scenario_property]
      /\ queryset gap_db = []
      /\ queryset pending_db = []
      /\ queryset no_pending_db = [scenario_property].
Proof.
  split; [|split].
  - intros b [<- | [<- | []]] (_ & H1 & H2); vm_compute in H1, H2; congruence.
  - intros b [<- | [<- | []]] (H0 & H1 & H2);
      vm_compute in H1, H2; try congruence; discriminate H0.
  - eexists. split; [reflexivity|]. repeat split.
Qed.

(* ===================================================================== *)
(** ** The 28-digit context does not round the prices                     *)
(* ===================================================================== *)

(** Values that fit the columns ([base_price_per_night] in
    [numeric(10,2)], [price_multiplier] in [numeric(5,2)]) over a stay
    between two dates give coefficients far below 28 digits, so [_fix] is
    the identity on every product and partial sum: the total is the exact
    sum of the exact products. *)

Lemma numdigits_aux_le (fuel : nat) :
  forall k n, 1 <= k -> n < 10 ^ k -> numdigits_aux fuel n <= k.
Proof.
  induction fuel as [|fuel IH]; intros k n Hk Hn; cbn [numdigits_aux]; [lia|].
  destruct (Z.ltb_spec n 10); [lia|].
  assert (Hk2 : 2 <= k).
  { destruct (Z.eq_dec k 1) as [->|]; [|lia]. change (10 ^ 1) with 10 in Hn. lia. }
  assert (n / 10 < 10 ^ (k - 1)).
  { apply Z.div_lt_upper_bound; [lia|].
    replace (10 * 10 ^ (k - 1)) with (10 ^ k); [exact Hn|].
    replace k with (Z.succ (k - 1)) at 1 by lia.
    rewrite Z.pow_succ_r by lia. reflexivity. }
  specialize (IH (k - 1) (n / 10)). lia.
Qed.

Lemma fix_small (d : Decimal) : 0 <= coeff d < 10 ^ 28 -> fix_ d = d.
Proof.
  intros H. unfold fix_. destruct (coeff d =? 0); [reflexivity|].
  cbv zeta.
  assert (numdigits (coeff d) <= 28)
    by (apply numdigits_aux_le; [lia | apply H]).
  unfold prec. destruct (Z.ltb_spec (exp d) (numdigits (coeff d) + exp d - 28));
    [lia | reflexivity].
Qed.

Lemma dec_mul_exact (a b : Decimal) :
  0 <= coeff a -> 0 <= coeff b -> coeff a * coeff b < 10 ^ 28 ->
  dec_mul a b
  = mkDecimal (xorb (sign a) (sign b)) (coeff a * coeff b) (exp a + exp b).
Proof.
  intros Ha Hb Hlt. unfold dec_mul. apply fix_small. cbn [coeff]. nia.
Qed.

Lemma scaled_shift (d : Decimal) (e e' : Z) :
  e' <= e <= exp d -> scaled d e' = scaled d e * 10 ^ (e - e').
Proof.
  intros H. unfold scaled.
  replace (exp d - e') with ((exp d - e) + (e - e')) by lia.
  rewrite Z.pow_add_r by lia. ring.
Qed.

Lemma dec_add_exact (a b : Decimal) :
  0 <= coeff a -> 0 <= coeff b ->
  Z.abs (scaled a (Z.min (exp a) (exp b)) + scaled b (Z.min (exp a) (exp b)))
  < 10 ^ 28 ->
  exp (dec_add a b) = Z.min (exp a) (exp b)
  /\ 0 <= coeff (dec_add a b)
  /\ scaled (dec_add a b) (Z.min (exp a) (exp b))
     = scaled a (Z.min (exp a) (exp b)) + scaled b (Z.min (exp a) (exp b)).
Proof.
  intros Ha Hb. unfold dec_add, scaled.
  set (e := Z.min (exp a) (exp b)).
  assert (Hpa : 0 < 10 ^ (exp a - e)) by (apply Z.pow_pos_nonneg; lia).
  assert (Hpb : 0 < 10 ^ (exp b - e)) by (apply Z.pow_pos_nonneg; lia).
  set (pa := 10 ^ (exp a - e)) in *. set (pb := 10 ^ (exp b - e)) in *.
  assert (Hca : 0 <= coeff a * pa) by nia.
  assert (Hcb : 0 <= coeff b * pb) by nia.
  replace ((if sign a then -1 else 1) * coeff a * pa)
    with ((if sign a then -1 else 1) * (coeff a * pa)) by ring.
  replace ((if sign b then -1 else 1) * coeff b * pb)
    with ((if sign b then -1 else 1) * (coeff b * pb)) by ring.
  set (ca := coeff a * pa) in *. set (cb := coeff b * pb) in *.
  intros Hlt.
  assert (E0 : forall s c, 0 <= c < 10 ^ 28 ->
             exp (fix_ (mkDecimal s c e)) = e
             /\ 0 <= coeff (fix_ (mkDecimal s c e))
             /\ (if sign (fix_ (mkDecimal s c e)) then -1 else 1)
                * coeff (fix_ (mkDecimal s c e))
                * 10 ^ (exp (fix_ (mkDecimal s c e)) - e)
                = (if s then -1 else 1) * c).
  { intros s c Hc. rewrite fix_small by exact Hc. cbn [exp coeff sign].
    rewrite Z.sub_diag, Z.pow_0_r. split; [reflexivity|]. split; [lia | ring]. }
  destruct (Z.eqb_spec (coeff a) 0) as [Za|Za];
    destruct (Z.eqb_spec (coeff b) 0) as [Zb|Zb]; cbn [andb].
  - destruct (E0 (sign a && sign b) 0) as (H1 & H2 & H3); [lia|].
    rewrite H3, H1. subst ca cb. rewrite Za, Zb.
    repeat split; [assumption | destruct (sign a), (sign b); cbn [andb]; lia].
  - destruct (sign a), (sign b); cbn [Bool.eqb];
      repeat match goal with
             | |- context [if cb =? ca then _ else _] =>
                 destruct (Z.eqb_spec cb ca)
             | |- context [if ca =? cb then _ else _] =>
                 destruct (Z.eqb_spec ca cb)
             | |- context [if cb <? ca then _ else _] =>
                 destruct (Z.ltb_spec cb ca)
             end;
      match goal with
      | |- context [fix_ (mkDecimal ?s ?c e)] =>
          destruct (E0 s c) as (H1 & H2 & H3); [lia|];
          rewrite H3, H1; repeat split; [assumption | lia]
      end.
  - destruct (sign a), (sign b); cbn [Bool.eqb];
      repeat match goal with
             | |- context [if ca =? cb then _ else _] =>
                 destruct (Z.eqb_spec ca cb)
             | |- context [if cb <? ca then _ else _] =>
                 destruct (Z.ltb_spec cb ca)
             end;
      match goal with
      | |- context [fix_ (mkDecimal ?s ?c e)] =>
          destruct (E0 s c) as (H1 & H2 & H3); [lia|];
          rewrite H3, H1; repeat split; [assumption | lia]
      end.
  - destruct (sign a), (sign b); cbn [Bool.eqb];
      repeat match goal with
             | |- context [if ca =? cb then _ else _] =>
                 destruct (Z.eqb_spec ca cb)
             | |- context [if cb <? ca then _ else _] =>
                 destruct (Z.ltb_spec cb ca)
             end;
      match goal with
      | |- context [fix_ (mkDecimal ?s ?c e)] =>
          destruct (E0 s c) as (H1 & H2 & H3); [lia|];
          rewrite H3, H1; repeat split; [assumption | lia]
      end.
Qed.

Lemma py_sum_exact (B : Z) (l : list Decimal) :
  0 <= B ->
  (forall x, In x l ->
             0 <= coeff x /\ -4 <= exp x /\ Z.abs (scaled x (-4)) <= B) ->
  forall start,
    0 <= coeff start -> -4 <= exp start ->
    Z.abs (scaled start (-4)) + Z.of_nat (List.length l) * B < 10 ^ 28 ->
    0 <= coeff (py_sum l start)
    /\ -4 <= exp (py_sum l start)
    /\ scaled (py_sum l start) (-4)
       = scaled start (-4) + sum_Z (map (fun x => scaled x (-4)) l).
Proof.
  intros HB. induction l as [|x l IH]; intros Hl start Hc He Hlt.
  - cbn. repeat split; try assumption. lia.
  - destruct (Hl x (or_introl eq_refl)) as (Hxc & Hxe & Hxb).
    set (e := Z.min (exp start) (exp x)).
    assert (He4 : -4 <= e) by (subst e; lia).
    assert (HP : 1 <= 10 ^ (e - -4))
      by (assert (0 < 10 ^ (e - -4)) by (apply Z.pow_pos_nonneg; lia); lia).
    pose proof (scaled_shift start e (-4)) as Hs.
    pose proof (scaled_shift x e (-4)) as Hx.
    assert (Hse : -4 <= e <= exp start) by (subst e; lia).
    assert (Hxe' : -4 <= e <= exp x) by (subst e; lia).
    specialize (Hs Hse). specialize (Hx Hxe').
    cbn [List.length] in Hlt. rewrite Nat2Z.inj_succ in Hlt.
    assert (Hsmall : Z.abs (scaled start e + scaled x e) < 10 ^ 28).
    { assert (Z.abs (scaled start e + scaled x e)
              <= Z.abs ((scaled start e + scaled x e) * 10 ^ (e - -4))).
      { rewrite Z.abs_mul.
        pose proof (Z.abs_nonneg (scaled start e + scaled x e)).
        rewrite (Z.abs_eq (10 ^ (e - -4))) by lia. nia. }
      replace ((scaled start e + scaled x e) * 10 ^ (e - -4))
        with (scaled start (-4) + scaled x (-4)) in H by (rewrite Hs, Hx; ring).
      pose proof (Z.abs_triangle (scaled start (-4)) (scaled x (-4))). lia. }
    destruct (dec_add_exact start x Hc Hxc Hsmall) as (E1 & E2 & E3).
    fold e in E1, E3.
    assert (Hunits : scaled (dec_add start x) (-4)
                     = scaled start (-4) + scaled x (-4)).
    { rewrite (scaled_shift (dec_add start x) e (-4)) by lia.
      rewrite E3, Hs, Hx. ring. }
    cbn [py_sum fold_left map sum_Z fold_right].
    destruct (IH (fun y Hy => Hl y (or_intror Hy)) (dec_add start x))
      as (R1 & R2 & R3).
    + exact E2.
    + lia.
    + rewrite Hunits.
      pose proof (Z.abs_triangle (scaled start (-4)) (scaled x (-4))). lia.
    + unfold py_sum in R1, R2, R3. repeat split; try assumption.
      rewrite R3, Hunits. unfold sum_Z. lia.
Qed.

(** The multiplier of a night is [Decimal('1.0')] or that of a rule. *)
Lemma daily_price_multiplier (p : Property.t) (rules : list PricingRule.t)
    (d : date) :
  Daily.multiplier (daily_price p rules d) = Decimal_1_0
  \/ exists r, In r rules
               /\ Daily.multiplier (daily_price p rules d)
                  = PricingRule.price_multiplier r.
Proof.
  destruct (daily_price_fields p rules d) as (_ & _ & _ & Hscan).
  rewrite scan_rules_selected in Hscan. unfold selected_rule in Hscan.
  destruct (find (fun rule => rule_covers rule d) rules) as [r|] eqn:E.
  - right. exists r. apply find_some in E. injection Hscan as Hm _. tauto.
  - left. now injection Hscan as Hm _.
Qed.

(** With column-sized values and at most [MAXORDINAL] nights every night's
    price is the exact product and the total, in units of 10^-4, is the
    exact sum of the nights' [base * multiplier]. *)
Lemma total_price_exact (p : Property.t) (rules : list PricingRule.t)
    (check_in check_out : date) :
  fits_column 10 (Property.base_price_per_night p) ->
  (forall r, In r rules -> fits_column 5 (PricingRule.price_multiplier r)) ->
  check_out - check_in <= MAXORDINAL ->
  let daily := map (daily_price p rules) (nights_of_stay check_in check_out) in
  Forall (fun e =>
            Daily.final_price e
            = mkDecimal
                (xorb (sign (Daily.base_price e)) (sign (Daily.multiplier e)))
                (coeff (Daily.base_price e) * coeff (Daily.multiplier e))
                (exp (Daily.base_price e) + exp (Daily.multiplier e)))
         daily
  /\ scaled (py_sum (map Daily.final_price daily) Decimal_0_00) (-4)
     = sum_Z (map (fun e => scaled (Daily.base_price e) (-2)
                            * scaled (Daily.multiplier e) (-2))
                  daily).
Proof.
  intros (Hbe & Hbc) Hrules Hlen daily.
  set (base := Property.base_price_per_night p) in *.
  assert (Hentry : forall e, In e daily ->
            Daily.base_price e = base
            /\ 0 <= coeff (Daily.multiplier e) < 10 ^ 5
            /\ (exp (Daily.multiplier e) = -2 \/ exp (Daily.multiplier e) = -1)
            /\ Daily.final_price e
               = mkDecimal (xorb (sign base) (sign (Daily.multiplier e)))
                           (coeff base * coeff (Daily.multiplier e))
                           (exp base + exp (Daily.multiplier e))).
  { intros e He. apply in_map_iff in He. destruct He as (d & <- & _).
    destruct (daily_price_fields p rules d) as (_ & Hb & Hf & _).
    fold base in Hb, Hf.
    assert (Hm : 0 <= coeff (Daily.multiplier (daily_price p rules d)) < 10 ^ 5
                 /\ (exp (Daily.multiplier (daily_price p rules d)) = -2
                     \/ exp (Daily.multiplier (daily_price p rules d)) = -1)).
    { destruct (daily_price_multiplier p rules d) as [-> | (r & Hr & ->)].
      - cbn [Decimal_1_0 coeff exp]. change (10 ^ 5) with 100000. lia.
      - destruct (Hrules r Hr) as [H1 H2]. auto. }
    destruct Hm as (Hmc & Hme).
    repeat split; try tauto.
    rewrite Hf. apply dec_mul_exact; try lia.
    change (10 ^ 10) with 10000000000 in Hbc.
    change (10 ^ 5) with 100000 in Hmc.
    change (10 ^ 28) with 10000000000000000000000000000. nia. }
  split.
  - apply Forall_forall. intros e He.
    destruct (Hentry e He) as (-> & _ & _ & ->). reflexivity.
  - assert (Hunits : forall e, In e daily ->
              0 <= coeff (Daily.final_price e)
              /\ -4 <= exp (Daily.final_price e)
              /\ scaled (Daily.final_price e) (-4)
                 = scaled (Daily.base_price e) (-2)
                   * scaled (Daily.multiplier e) (-2)
              /\ Z.abs (scaled (Daily.final_price e) (-4))
                 <= 10000000000000000).
    { intros e He. destruct (Hentry e He) as (Hb & Hmc & Hme & Hf).
      rewrite Hf, Hb. unfold scaled. cbn [coeff exp sign]. rewrite Hbe.
      change (10 ^ 10) with 10000000000 in Hbc.
      change (10 ^ 5) with 100000 in Hmc.
      destruct Hme as [-> | ->];
        [ change (10 ^ (-2 + -2 - -4)) with 1;
          change (10 ^ (-2 - -2)) with 1
        | change (10 ^ (-2 + -1 - -4)) with 10;
          change (10 ^ (-2 - -2)) with 1;
          change (10 ^ (-1 - -2)) with 10 ];
        (split; [nia|]); (split; [lia|]);
        (split; [destruct (sign base), (sign (Daily.multiplier e)); cbn [xorb]; ring|]);
        destruct (xorb (sign base) (sign (Daily.multiplier e))); nia. }
    assert (Hall : forall x, In x (map Daily.final_price daily) ->
              0 <= coeff x /\ -4 <= exp x
              /\ Z.abs (scaled x (-4)) <= 10000000000000000).
    { intros x Hx. apply in_map_iff in Hx. destruct Hx as (e & <- & He).
      destruct (Hunits e He) as (H1 & H2 & _ & H4). auto. }
    assert (Hzero : scaled Decimal_0_00 (-4) = 0)
      by (unfold scaled, Decimal_0_00; cbn [sign coeff]; ring).
    assert (Hbound : Z.abs (scaled Decimal_0_00 (-4))
                     + Z.of_nat (List.length (map Daily.final_price daily))
                       * 10000000000000000 < 10 ^ 28).
    { rewrite Hzero, length_map. unfold daily. rewrite length_map.
      unfold nights_of_stay. rewrite length_map, length_seq.
      unfold MAXORDINAL in Hlen.
      change (10 ^ 28) with 10000000000000000000000000000. lia. }
    destruct (py_sum_exact 10000000000000000 (map Daily.final_price daily)
                ltac:(lia) Hall Decimal_0_00) as (_ & _ & R).
    + unfold Decimal_0_00. cbn [coeff]. lia.
    + unfold Decimal_0_00. cbn [exp]. lia.
    + exact Hbound.
    + rewrite R, Hzero, map_map. rewrite Z.add_0_l.
      f_equal. apply map_ext_in. intros e He.
      apply (Hunits e He).
Qed.

(* ===================================================================== *)
(** ** Further properties of the pricing calculator                       *)
(* ===================================================================== *)

Lemma not_false_supplied (query_params : QueryDict) (key : string) :
  not_ (get key query_params) = false ->
  exists v, supplied query_params key v.
Proof.
  unfold supplied. destruct (get key query_params) as [v|]; cbn; [|discriminate].
  intros H. exists v. split; [reflexivity|]. now apply String.eqb_neq.
Qed.

Lemma calculate_price_invalid_range_body (strptime : string -> option date)
    (p : Property.t) (query_params : QueryDict) (db : Database)
    (check_in check_out : date) :
  stay_requested strptime query_params check_in check_out ->
  check_out <= check_in ->
  calculate_price strptime p query_params db
  = (Ok (Response_400 error_invalid_range), db).
Proof.
  intros (cs & os & Hci & Hco & Pci & Pco) Hle.
  unfold calculate_price.
  rewrite (not_supplied _ _ _ Hci), (not_supplied _ _ _ Hco).
  destruct Hci as [-> _], Hco as [-> _]. cbn [orb str_value].
  rewrite Pci, Pco.
  destruct (Z.leb_spec check_out check_in); [reflexivity | lia].
Qed.

(** The body of the view, from line 481 on, gives one of four answers to
    the object that [self.get_object()] returned, decided in this order: a
    missing or empty date gives the "required" error; otherwise a date that
    does not parse gives the "invalid format" error; otherwise
    [check_out <= check_in] gives the "invalid range" error; otherwise the
    answer is a breakdown. *)
Lemma calculate_price_body_outcomes :
  forall (strptime : string -> option date) (p : Property.t)
         (query_params : QueryDict) (db : Database),
    ((not_ (get "check_in" query_params) = true
      \/ not_ (get "check_out" query_params) = true)
     /\ calculate_price strptime p query_params db
        = (Ok (Response_400 error_required), db))
    \/ exists cs os,
         supplied query_params "check_in" cs
         /\ supplied query_params "check_out" os
         /\ (((strptime cs = None \/ strptime os = None)
              /\ calculate_price strptime p query_params db
                 = (Ok (Response_400 error_invalid_format), db))
             \/ exists check_in check_out,
                  strptime cs = Some check_in
                  /\ strptime os = Some check_out
                  /\ ((check_out <= check_in
                       /\ calculate_price strptime p query_params db
                          = (Ok (Response_400 error_invalid_range), db))
                      \/ (check_in < check_out
                          /\ exists data,
                               calculate_price strptime p query_params db
                               = (Ok (Response_200 data), db)))).
Proof.
  intros strptime p qp db.
  destruct (not_ (get "check_in" qp)) eqn:Nci.
  { left. split; [now left|]. unfold calculate_price. now rewrite Nci. }
  destruct (not_ (get "check_out" qp)) eqn:Nco.
  { left. split; [now right|]. unfold calculate_price.
    now rewrite Nci, Nco. }
  right.
  destruct (not_false_supplied qp "check_in" Nci) as [cs Hcs].
  destruct (not_false_supplied qp "check_out" Nco) as [os Hos].
  exists cs, os. split; [exact Hcs|]. split; [exact Hos|].
  destruct (strptime cs) as [ci|] eqn:Pci.
  - destruct (strptime os) as [co|] eqn:Pco.
    + right. exists ci, co. split; [reflexivity|]. split; [reflexivity|].
      assert (Hreq : stay_requested strptime qp ci co) by (exists cs, os; auto).
      destruct (Z.le_gt_cases co ci) as [Hle | Hlt].
      * left. split; [exact Hle|].
        now apply (calculate_price_invalid_range_body strptime p qp db ci co).
      * right. split; [exact Hlt|].
        destruct (calculate_price_valid strptime p qp db ci co Hreq Hlt)
          as (avg & _ & Hrun).
        eexists. exact Hrun.
    + left. split; [now right|]. unfold calculate_price.
      rewrite Nci, Nco. destruct Hcs as [-> _], Hos as [-> _].
      cbn [orb str_value]. now rewrite Pci, Pco.
  - left. split; [now left|]. unfold calculate_price.
    rewrite Nci, Nco. destruct Hcs as [-> _]. cbn [orb str_value].
    now rewrite Pci.
Qed.

Lemma nights_of_stay_app (a b c : date) :
  a <= b <= c ->
  nights_of_stay a c = nights_of_stay a b ++ nights_of_stay b c.
Proof.
  intros H. remember (Z.to_nat (b - a)) as n eqn:Hn.
  revert a H Hn. induction n as [|n IH]; intros a H Hn.
  - assert (a = b) by lia. subst a.
    rewrite (nights_of_stay_nil b b) by lia. reflexivity.
  - rewrite (nights_of_stay_cons a c), (nights_of_stay_cons a b) by lia.
    cbn [app]. f_equal. apply IH; lia.
Qed.

(** X2. Splitting a stay: the breakdown of [a .. c] is the breakdown of
    [a .. b] followed by that of [b .. c], the nights add up, and the total
    of the whole stay is the total of the first part with the prices of the
    second part added to it. *)
Theorem calculate_price_split :
  forall (strptime : string -> option date) (p : Property.t) (db : Database)
         (q_ab q_bc q_ac : QueryDict) (a b c : date),
    stay_requested strptime q_ab a b ->
    stay_requested strptime q_bc b c ->
    stay_requested strptime q_ac a c ->
    a < b -> b < c ->
    exists d_ab d_bc d_ac,
      calculate_price strptime p q_ab db = (Ok (Response_200 d_ab), db)
      /\ calculate_price strptime p q_bc db = (Ok (Response_200 d_bc), db)
      /\ calculate_price strptime p q_ac db = (Ok (Response_200 d_ac), db)
      /\ Breakdown.daily_breakdown d_ac
         = Breakdown.daily_breakdown d_ab ++ Breakdown.daily_breakdown d_bc
      /\ Breakdown.nights d_ac = Breakdown.nights d_ab + Breakdown.nights d_bc
      /\ Breakdown.total_price d_ac
         = py_sum (map Daily.final_price (Breakdown.daily_breakdown d_bc))
                  (Breakdown.total_price d_ab).
Proof.
  intros strptime p db q1 q2 q3 a b c H1 H2 H3 Hab Hbc.
  destruct (calculate_price_valid strptime p q1 db a b H1 Hab) as (v1 & _ & R1).
  destruct (calculate_price_valid strptime p q2 db b c H2 Hbc) as (v2 & _ & R2).
  destruct (calculate_price_valid strptime p q3 db a c H3) as (v3 & _ & R3);
    [lia|].
  do 3 eexists. split; [exact R1|]. split; [exact R2|]. split; [exact R3|].
  cbn [Breakdown.daily_breakdown Breakdown.nights Breakdown.total_price].
  rewrite (nights_of_stay_app a b c) by lia.
  rewrite !map_app. repeat split; [lia|].
  unfold py_sum. now rewrite fold_left_app.
Qed.

Lemma calculate_price_split_witness :
  exists d_ab d_bc d_ac,
    calculate_price parse_iso scenario_property first_night_request scenario_B_db
    = (Ok (Response_200 d_ab), scenario_B_db)
    /\ calculate_price parse_iso scenario_property later_nights_request
                       scenario_B_db
       = (Ok (Response_200 d_bc), scenario_B_db)
    /\ calculate_price parse_iso scenario_property scenario_request scenario_B_db
       = (Ok (Response_200 d_ac), scenario_B_db)
    /\ Breakdown.daily_breakdown d_ac
       = Breakdown.daily_breakdown d_ab ++ Breakdown.daily_breakdown d_bc
    /\ Breakdown.nights d_ac = Breakdown.nights d_ab + Breakdown.nights d_bc
    /\ Breakdown.total_price d_ac
       = py_sum (map Daily.final_price (Breakdown.daily_breakdown d_bc))
                (Breakdown.total_price d_ab).
Proof.
  apply (calculate_price_split parse_iso scenario_property scenario_B_db
           first_night_request later_nights_request scenario_request
           (ymd2ord 2025 12 1) (ymd2ord 2025 12 2) (ymd2ord 2025 12 4));
    try reflexivity.
  - exists "2025-12-01", "2025-12-02". unfold supplied.
    repeat split; try discriminate; reflexivity.
  - exists "2025-12-02", "2025-12-04". unfold supplied.
    repeat split; try discriminate; reflexivity.
  - exact scenario_stay_requested.
Defined.

(** X3. No rounding.  With column-sized values and a stay of at most
    [MAXORDINAL] nights (any two dates are that close), every night's price
    is the exact product of base price and multiplier, and the total, in
    units of 10^-4, is the exact sum of those products: the 28-digit
    Decimal context never rounds. *)
Theorem calculate_price_total_exact :
  forall (strptime : string -> option date) (p : Property.t)
         (query_params : QueryDict) (db : Database) (check_in check_out : date),
    stay_requested strptime query_params check_in check_out ->
    check_in < check_out ->
    check_out - check_in <= MAXORDINAL ->
    column_sized p db ->
    exists data,
      calculate_price strptime p query_params db = (Ok (Response_200 data), db)
      /\ Forall (fun e =>
                   Daily.final_price e
                   = mkDecimal
                       (xorb (sign (Daily.base_price e))
                             (sign (Daily.multiplier e)))
                       (coeff (Daily.base_price e) * coeff (Daily.multiplier e))
                       (exp (Daily.base_price e) + exp (Daily.multiplier e)))
                (Breakdown.daily_breakdown data)
      /\ scaled (Breakdown.total_price data) (-4)
         = sum_Z (map (fun e => scaled (Daily.base_price e) (-2)
                                * scaled (Daily.multiplier e) (-2))
                      (Breakdown.daily_breakdown data)).
Proof.
  intros strptime p qp db ci co Hreq Hlt Hlen [Hbase Hrules].
  destruct (calculate_price_valid strptime p qp db ci co Hreq Hlt)
    as (avg & _ & Hrun).
  eexists. split; [exact Hrun|].
  cbn [Breakdown.daily_breakdown Breakdown.total_price].
  apply total_price_exact; assumption.
Qed.

Lemma scenario_B_column_sized : column_sized scenario_property scenario_B_db.
Proof.
  split.
  - split; [reflexivity|]. cbn [scenario_property Property.base_price_per_night coeff].
    change (10 ^ 10) with 10000000000. lia.
  - intros r [<- | []]. split; [reflexivity|].
    cbn [PricingRule.price_multiplier coeff]. change (10 ^ 5) with 100000. lia.
Qed.

Lemma calculate_price_total_exact_witness :
  exists data,
    calculate_price parse_iso scenario_property scenario_request scenario_B_db
    = (Ok (Response_200 data), scenario_B_db)
    /\ Forall (fun e =>
                 Daily.final_price e
                 = mkDecimal
                     (xorb (sign (Daily.base_price e)) (sign (Daily.multiplier e)))
                     (coeff (Daily.base_price e) * coeff (Daily.multiplier e))
                     (exp (Daily.base_price e) + exp (Daily.multiplier e)))
              (Breakdown.daily_breakdown data)
    /\ scaled (Breakdown.total_price data) (-4)
       = sum_Z (map (fun e => scaled (Daily.base_price e) (-2)
                              * scaled (Daily.multiplier e) (-2))
                    (Breakdown.daily_breakdown data)).
Proof.
  apply (calculate_price_total_exact parse_iso scenario_property scenario_request
           scenario_B_db (ymd2ord 2025 12 1) (ymd2ord 2025 12 4)).
  - exact scenario_stay_requested.
  - reflexivity.
  - discriminate.
  - exact scenario_B_column_sized.
Defined.

Lemma sum_Z_app (l1 l2 : list Z) : sum_Z (l1 ++ l2) = sum_Z l1 + sum_Z l2.
Proof.
  unfold sum_Z. induction l1 as [|x l1 IH]; cbn [app fold_right]; lia.
Qed.

(** X4. The price of a stay is the sum of the prices of its parts: with
    column-sized values, the total for [a .. c] equals, in value, the total
    for [a .. b] plus the total for [b .. c]. *)
Theorem calculate_price_split_total :
  forall (strptime : string -> option date) (p : Property.t) (db : Database)
         (q_ab q_bc q_ac : QueryDict) (a b c : date),
    stay_requested strptime q_ab a b ->
    stay_requested strptime q_bc b c ->
    stay_requested strptime q_ac a c ->
    a < b -> b < c ->
    c - a <= MAXORDINAL ->
    column_sized p db ->
    exists d_ab d_bc d_ac,
      calculate_price strptime p q_ab db = (Ok (Response_200 d_ab), db)
      /\ calculate_price strptime p q_bc db = (Ok (Response_200 d_bc), db)
      /\ calculate_price strptime p q_ac db = (Ok (Response_200 d_ac), db)
      /\ scaled (Breakdown.total_price d_ac) (-4)
         = scaled (Breakdown.total_price d_ab) (-4)
           + scaled (Breakdown.total_price d_bc) (-4).
Proof.
  intros strptime p db q1 q2 q3 a b c H1 H2 H3 Hab Hbc Hlen [Hbase Hrules].
  destruct (calculate_price_valid strptime p q1 db a b H1 Hab) as (v1 & _ & R1).
  destruct (calculate_price_valid strptime p q2 db b c H2 Hbc) as (v2 & _ & R2).
  destruct (calculate_price_valid strptime p q3 db a c H3) as (v3 & _ & R3);
    [lia|].
  do 3 eexists. split; [exact R1|]. split; [exact R2|]. split; [exact R3|].
  cbn [Breakdown.total_price].
  destruct (total_price_exact p (related_pricing_rules p db) a b Hbase Hrules)
    as [_ E1]; [lia|].
  destruct (total_price_exact p (related_pricing_rules p db) b c Hbase Hrules)
    as [_ E2]; [lia|].
  destruct (total_price_exact p (related_pricing_rules p db) a c Hbase Hrules)
    as [_ E3]; [lia|].
  rewrite E1, E2, E3, (nights_of_stay_app a b c) by lia.
  rewrite !map_app. apply sum_Z_app.
Qed.

Lemma calculate_price_split_total_witness :
  exists d_ab d_bc d_ac,
    calculate_price parse_iso scenario_property first_night_request scenario_B_db
    = (Ok (Response_200 d_ab), scenario_B_db)
    /\ calculate_price parse_iso scenario_property later_nights_request
                       scenario_B_db
       = (Ok (Response_200 d_bc), scenario_B_db)
    /\ calculate_price parse_iso scenario_property scenario_request scenario_B_db
       = (Ok (Response_200 d_ac), scenario_B_db)
    /\ scaled (Breakdown.total_price d_ac) (-4)
       = scaled (Breakdown.total_price d_ab) (-4)
         + scaled (Breakdown.total_price d_bc) (-4).
Proof.
  apply (calculate_price_split_total parse_iso scenario_property scenario_B_db
           first_night_request later_nights_request scenario_request
           (ymd2ord 2025 12 1) (ymd2ord 2025 12 2) (ymd2ord 2025 12 4));
    try reflexivity.
  - exists "2025-12-01", "2025-12-02". unfold supplied.
    repeat split; try discriminate; reflexivity.
  - exists "2025-12-02", "2025-12-04". unfold supplied.
    repeat split; try discriminate; reflexivity.
  - exact scenario_stay_requested.
  - discriminate.
  - exact scenario_B_column_sized.
Defined.

Lemma daily_price_uncovered (p : Property.t) (rules : list PricingRule.t)
    (d : date) :
  (forall r, In r rules -> ~ covers r d) ->
  daily_price p rules d = daily_price p [] d.
Proof.
  intros H. unfold daily_price.
  rewrite scan_rules_selected.
  apply selected_rule_None in H. rewrite H. reflexivity.
Qed.

Lemma sum_Z_constant {A : Type} (f : A -> Z) (k : Z) (l : list A) :
  (forall x, In x l -> f x = k) ->
  sum_Z (map f l) = Z.of_nat (List.length l) * k.
Proof.
  intros H. unfold sum_Z. induction l as [|x l IH]; [reflexivity|].
  cbn [map fold_right List.length]. rewrite Nat2Z.inj_succ.
  rewrite IH by (intros y Hy; apply H; now right).
  rewrite (H x) by now left. lia.
Qed.

(** X5. Base rate.  When no rule of the property covers a night of the stay (in
    particular when the property has no rules), every night is labelled
    "Base Rate", carries the multiplier [Decimal('1.0')] and costs the base
    price with one more decimal place; the total has the value
    [nights * base_price_per_night]. *)
Theorem calculate_price_base_rate :
  forall (strptime : string -> option date) (p : Property.t)
         (query_params : QueryDict) (db : Database) (check_in check_out : date),
    stay_requested strptime query_params check_in check_out ->
    check_in < check_out ->
    check_out - check_in <= MAXORDINAL ->
    fits_column 10 (Property.base_price_per_night p) ->
    (forall r d, In r (related_pricing_rules p db) ->
                 check_in <= d < check_out -> ~ covers r d) ->
    exists data,
      calculate_price strptime p query_params db = (Ok (Response_200 data), db)
      /\ Forall (fun e =>
                   Daily.multiplier e = Decimal_1_0
                   /\ Daily.pricing_rule e = "Base Rate"
                   /\ Daily.final_price e
                      = mkDecimal (sign (Property.base_price_per_night p))
                          (coeff (Property.base_price_per_night p) * 10) (-3))
                (Breakdown.daily_breakdown data)
      /\ scaled (Breakdown.total_price data) (-4)
         = (check_out - check_in)
           * (100 * scaled (Property.base_price_per_night p) (-2)).
Proof.
  intros strptime p qp db ci co Hreq Hlt Hlen Hbase Hnone.
  destruct (calculate_price_valid strptime p qp db ci co Hreq Hlt)
    as (avg & _ & Hrun).
  eexists. split; [exact Hrun|].
  cbn [Breakdown.daily_breakdown Breakdown.total_price].
  rewrite (map_ext_in (daily_price p (related_pricing_rules p db))
                      (daily_price p [])).
  2:{ intros d Hd. apply nights_of_stay_In in Hd.
      apply daily_price_uncovered. intros r Hr. now apply Hnone. }
  destruct (total_price_exact p [] ci co Hbase) as [Hexact Hsum];
    [intros r [] | exact Hlen |].
  assert (Hentry : forall d,
            Daily.multiplier (daily_price p [] d) = Decimal_1_0
            /\ Daily.pricing_rule (daily_price p [] d) = "Base Rate"
            /\ Daily.base_price (daily_price p [] d)
               = Property.base_price_per_night p).
  { intros d. unfold daily_price. cbn. auto. }
  destruct Hbase as [Hexp Hcoeff].
  split.
  - rewrite Forall_forall in Hexact |- *. intros e He.
    specialize (Hexact e He). apply in_map_iff in He.
    destruct He as (d & <- & _). destruct (Hentry d) as (Hm & Hn & Hb).
    split; [exact Hm|]. split; [exact Hn|].
    rewrite Hexact, Hm, Hb, Hexp. unfold Decimal_1_0. cbn [sign coeff exp].
    rewrite xorb_false_r. reflexivity.
  - rewrite Hsum.
    rewrite (sum_Z_constant _ (100 * scaled (Property.base_price_per_night p) (-2))).
    + rewrite length_map. unfold nights_of_stay. rewrite length_map, length_seq.
      rewrite Z2Nat.id by lia. reflexivity.
    + intros e He. apply in_map_iff in He. destruct He as (d & <- & _).
      destruct (Hentry d) as (Hm & _ & Hb). rewrite Hm, Hb.
      unfold scaled, Decimal_1_0. cbn [sign coeff exp].
      change (10 ^ (-1 - -2)) with 10. ring.
Qed.

Lemma calculate_price_base_rate_witness :
  exists data,
    calculate_price parse_iso scenario_property scenario_request no_rules_db
    = (Ok (Response_200 data), no_rules_db)
    /\ Forall (fun e =>
                 Daily.multiplier e = Decimal_1_0
                 /\ Daily.pricing_rule e = "Base Rate"
                 /\ Daily.final_price e
                    = mkDecimal (sign (Property.base_price_per_night scenario_property))
                        (coeff (Property.base_price_per_night scenario_property) * 10)
                        (-3))
              (Breakdown.daily_breakdown data)
    /\ scaled (Breakdown.total_price data) (-4)
       = (ymd2ord 2025 12 4 - ymd2ord 2025 12 1)
         * (100 * scaled (Property.base_price_per_night scenario_property) (-2)).
Proof.
  apply (calculate_price_base_rate parse_iso scenario_property scenario_request
           no_rules_db (ymd2ord 2025 12 1) (ymd2ord 2025 12 4)).
  - exact scenario_stay_requested.
  - reflexivity.
  - discriminate.
  - exact (proj1 scenario_B_column_sized).
  - intros r d [].
Defined.

Lemma strip_zeros_pow (n : nat) :
  forall c e,
    strip_zeros n (c * 10 ^ Z.of_nat n) e (e + Z.of_nat n)
    = (c, e + Z.of_nat n).
Proof.
  induction n as [|n IH]; intros c e.
  - cbn [strip_zeros Z.of_nat]. rewrite Z.pow_0_r, Z.mul_1_r, Z.add_0_r.
    reflexivity.
  - cbn [strip_zeros]. rewrite Nat2Z.inj_succ.
    rewrite Z.pow_succ_r by lia.
    replace (c * (10 * 10 ^ Z.of_nat n)) with (c * 10 ^ Z.of_nat n * 10) by ring.
    rewrite Z.mod_mul by lia. rewrite Z.div_mul by lia.
    destruct (Z.ltb_spec e (e + Z.succ (Z.of_nat n))); [|lia].
    cbn [andb Z.eqb].
    replace (e + Z.succ (Z.of_nat n)) with (e + 1 + Z.of_nat n) by lia.
    apply IH.
Qed.

Lemma numdigits_nonneg (n : Z) : 0 <= numdigits n.
Proof.
  unfold numdigits. generalize (S (Z.to_nat (Z.log2 n))). intros fuel.
  revert n. induction fuel as [|fuel IH]; intros n; cbn [numdigits_aux]; [lia|].
  destruct (n <? 10); [lia|]. specialize (IH (n / 10)). lia.
Qed.

(** Dividing by [Decimal(1)] gives the dividend back, digit for digit. *)
Lemma dec_div_one (a : Decimal) :
  0 <= coeff a < 10 ^ 28 -> dec_div a (of_int 1) = inl a.
Proof.
  intros Ha. destruct a as [s c e]. cbn [coeff] in Ha.
  unfold dec_div, of_int. cbn [coeff sign exp Z.abs Z.ltb Z.compare].
  change (1 =? 0) with false. cbv iota.
  rewrite xorb_false_r, Z.sub_0_r.
  destruct (Z.eqb_spec c 0) as [-> | Hc].
  - unfold fix_. cbn [coeff]. reflexivity.
  - assert (Hnd : numdigits c <= 28) by (apply numdigits_aux_le; lia).
    pose proof (numdigits_nonneg c) as Hnd0.
    change (numdigits 1) with 1. unfold prec.
    set (shift := 1 - numdigits c + 28 + 1).
    assert (Hshift : 0 <= shift) by (subst shift; lia).
    cbv zeta.
    destruct (Z.leb_spec 0 shift); [|lia].
    rewrite Z.div_1_r, Z.mod_1_r. cbn [Z.eqb].
    replace (Z.to_nat (e - (e - shift))) with (Z.to_nat shift) by (f_equal; lia).
    replace (c * 10 ^ shift) with (c * 10 ^ Z.of_nat (Z.to_nat shift))
      by (rewrite Z2Nat.id by lia; reflexivity).
    replace e with (e - shift + Z.of_nat (Z.to_nat shift)) at 2
      by (rewrite Z2Nat.id by lia; lia).
    rewrite strip_zeros_pow.
    rewrite Z2Nat.id by lia.
    replace (e - shift + shift) with e by lia.
    rewrite fix_small by (cbn [coeff]; lia). reflexivity.
Qed.

Lemma daily_price_exact (p : Property.t) (rules : list PricingRule.t) (d : date) :
  fits_column 10 (Property.base_price_per_night p) ->
  (forall r, In r rules -> fits_column 5 (PricingRule.price_multiplier r)) ->
  let e := daily_price p rules d in
  0 <= coeff (Daily.final_price e) < 10 ^ 15
  /\ -4 <= exp (Daily.final_price e) <= -3.
Proof.
  intros [Hbe Hbc] Hrules e.
  destruct (daily_price_fields p rules d) as (_ & _ & Hf & _). fold e in Hf.
  assert (Hm : 0 <= coeff (Daily.multiplier e) < 10 ^ 5
               /\ -2 <= exp (Daily.multiplier e) <= -1).
  { subst e. destruct (daily_price_multiplier p rules d) as [-> | (r & Hr & ->)].
    - unfold Decimal_1_0. cbn [coeff exp]. change (10 ^ 5) with 100000. lia.
    - destruct (Hrules r Hr) as [H1 H2]. lia. }
  destruct Hm as [Hmc Hme].
  change (10 ^ 10) with 10000000000 in Hbc.
  change (10 ^ 5) with 100000 in Hmc.
  rewrite Hf, dec_mul_exact;
    [| lia | lia
     | change (10 ^ 28) with 10000000000000000000000000000; nia].
  cbn [coeff exp]. change (10 ^ 15) with 1000000000000000.
  split; [nia | lia].
Qed.

(** X6. One night.  For a stay of a single night with column-sized values the
    breakdown has one entry, the total has the value of that night's price,
    and the average is the total itself, digit for digit (the division by
    [Decimal(1)] is exact). *)
Theorem calculate_price_one_night :
  forall (strptime : string -> option date) (p : Property.t)
         (query_params : QueryDict) (db : Database) (check_in : date),
    stay_requested strptime query_params check_in (check_in + 1) ->
    column_sized p db ->
    exists data e,
      calculate_price strptime p query_params db = (Ok (Response_200 data), db)
      /\ Breakdown.nights data = 1
      /\ Breakdown.daily_breakdown data = [e]
      /\ Daily.date e = check_in
      /\ Breakdown.average_price_per_night data = Breakdown.total_price data
      /\ scaled (Breakdown.total_price data) (-4)
         = scaled (Daily.final_price e) (-4).
Proof.
  intros strptime p qp db ci Hreq [Hbase Hrules].
  destruct (calculate_price_valid strptime p qp db ci (ci + 1) Hreq)
    as (avg & Hdiv & Hrun); [lia|].
  rewrite (nights_of_stay_cons ci (ci + 1)), (nights_of_stay_nil (ci + 1)) in *
    by lia.
  cbn [map py_sum fold_left] in *.
  set (e := daily_price p (related_pricing_rules p db) ci) in *.
  destruct (daily_price_exact p (related_pricing_rules p db) ci Hbase Hrules)
    as [Hc He]. fold e in Hc, He.
  assert (Hmin : Z.min (exp Decimal_0_00) (exp (Daily.final_price e))
                 = exp (Daily.final_price e))
    by (unfold Decimal_0_00; cbn [exp]; lia).
  assert (Hzero : forall k, scaled Decimal_0_00 k = 0)
    by (intros k; unfold scaled, Decimal_0_00; cbn [sign coeff]; ring).
  assert (Hown : scaled (Daily.final_price e) (exp (Daily.final_price e))
                 = (if sign (Daily.final_price e) then -1 else 1)
                   * coeff (Daily.final_price e))
    by (unfold scaled; rewrite Z.sub_diag, Z.pow_0_r; ring).
  destruct (dec_add_exact Decimal_0_00 (Daily.final_price e)) as (E1 & E2 & E3).
  - unfold Decimal_0_00. cbn [coeff]. lia.
  - lia.
  - rewrite Hmin, Hzero, Hown.
    change (10 ^ 15) with 1000000000000000 in Hc.
    change (10 ^ 28) with 10000000000000000000000000000.
    destruct (sign (Daily.final_price e)); lia.
  - rewrite Hmin in E1, E3. rewrite Hzero in E3.
    set (total := dec_add Decimal_0_00 (Daily.final_price e)) in *.
    assert (Hct : coeff total = coeff (Daily.final_price e)).
    { unfold scaled in E3 at 1. rewrite E1, Z.sub_diag, Z.pow_0_r in E3.
      rewrite Hown in E3.
      destruct (sign total), (sign (Daily.final_price e)); lia. }
    assert (Hone : dec_div total (of_int 1) = inl total).
    { apply dec_div_one. rewrite Hct.
      change (10 ^ 15) with 1000000000000000 in Hc.
      change (10 ^ 28) with 10000000000000000000000000000. lia. }
    replace (ci + 1 - ci) with 1 in * by lia.
    rewrite Hone in Hdiv. injection Hdiv as <-.
    exists (Breakdown.mk (Property.id p) (Property.name p) ci (ci + 1) 1
              (Property.base_price_per_night p) total total
              (Property.currency p) [e]), e.
    split; [exact Hrun|].
    cbn [Breakdown.nights Breakdown.daily_breakdown
         Breakdown.average_price_per_night Breakdown.total_price].
    repeat split.
    + apply (daily_price_fields p (related_pricing_rules p db) ci).
    + rewrite (scaled_shift total (exp (Daily.final_price e)) (-4)) by lia.
      rewrite (scaled_shift (Daily.final_price e)
                            (exp (Daily.final_price e)) (-4)) by lia.
      rewrite E3. ring.
Qed.

Lemma calculate_price_one_night_witness :
  exists data e,
    calculate_price parse_iso scenario_property first_night_request scenario_B_db
    = (Ok (Response_200 data), scenario_B_db)
    /\ Breakdown.nights data = 1
    /\ Breakdown.daily_breakdown data = [e]
    /\ Daily.date e = ymd2ord 2025 12 1
    /\ Breakdown.average_price_per_night data = Breakdown.total_price data
    /\ scaled (Breakdown.total_price data) (-4)
       = scaled (Daily.final_price e) (-4).
Proof.
  apply (calculate_price_one_night parse_iso scenario_property
           first_night_request scenario_B_db (ymd2ord 2025 12 1)).
  - exists "2025-12-01", "2025-12-02". unfold supplied.
    repeat split; try discriminate; reflexivity.
  - exact scenario_B_column_sized.
Defined.

(* ===================================================================== *)
(** ** Further properties of the availability filter                      *)
(* ===================================================================== *)

Lemma related_bookings_In (db : Database) (p : Property.t) (b : Booking.t) :
  In b (related_bookings db p) <->
  In b (bookings db) /\ Booking.property b = Property.id p.
Proof.
  unfold related_bookings. rewrite filter_In, Z.eqb_eq. reflexivity.
Qed.

Lemma filter_available_dates_run (parse_date : string -> option date)
    (query_params : QueryDict) (queryset : QuerySet Property.t)
    (name : string) (value : date) (s e : date) :
  dates_supplied parse_date query_params s e ->
  filter_available_dates parse_date query_params queryset name value
  = Ok (distinct (exclude (overlapping_bookings s e) queryset)).
Proof.
  intros (cs & os & H1 & H2 & H3 & H4).
  now apply (filter_available_dates_both parse_date query_params queryset
               name value cs os).
Qed.

Lemma availability_request_supplied :
  dates_supplied parse_iso availability_request
                 (ymd2ord 2025 12 8) (ymd2ord 2025 12 9).
Proof.
  exists "2025-12-08", "2025-12-09". unfold supplied.
  repeat split; try discriminate; reflexivity.
Qed.

(** X7. A property without a confirmed booking is never filtered out, whatever
    dates are asked for and whatever its pending, cancelled or completed
    bookings are. *)
Theorem filter_available_dates_keeps_unconfirmed :
  forall (parse_date : string -> option date) (query_params : QueryDict)
         (queryset : QuerySet Property.t) (name : string) (value : date)
         (s e : date) (db : Database) (p : Property.t),
    dates_supplied parse_date query_params s e ->
    In p (queryset db) ->
    (forall b, In b (bookings db) -> Booking.property b = Property.id p ->
               Booking.status b <> "confirmed") ->
    exists queryset',
      filter_available_dates parse_date query_params queryset name value
      = Ok queryset'
      /\ In p (queryset' db).
Proof.
  intros parse_date qp qs name value s e db p Hd Hin Hnone.
  eexists. split; [apply (filter_available_dates_run _ _ _ _ _ s e Hd)|].
  apply exclude_overlapping_bookings_In. split; [exact Hin|].
  intros ((b & Hb & Hst) & _). apply related_bookings_In in Hb.
  destruct Hb as [Hb Hfk]. exact (Hnone b Hb Hfk Hst).
Qed.

Lemma filter_available_dates_keeps_unconfirmed_witness :
  exists queryset',
    filter_available_dates parse_iso availability_request all_properties
                           "check_in" (ymd2ord 2025 12 8)
    = Ok queryset'
    /\ In scenario_property (queryset' only_pending_db).
Proof.
  apply (filter_available_dates_keeps_unconfirmed parse_iso availability_request
           all_properties "check_in" (ymd2ord 2025 12 8)
           (ymd2ord 2025 12 8) (ymd2ord 2025 12 9) only_pending_db
           scenario_property).
  - exact availability_request_supplied.
  - left. reflexivity.
  - intros b [<- | [<- | []]] _; discriminate.
Defined.

(** X8. A confirmed booking of the property with
    [check_in <= requested check_out] and [check_out >= requested check_in]
    (bounds included) removes the property from the result. *)
Theorem filter_available_dates_excludes_overlap :
  forall (parse_date : string -> option date) (query_params : QueryDict)
         (queryset : QuerySet Property.t) (name : string) (value : date)
         (s e : date) (db : Database) (p : Property.t) (b : Booking.t),
    dates_supplied parse_date query_params s e ->
    In b (bookings db) ->
    Booking.property b = Property.id p ->
    blocks b s e ->
    exists queryset',
      filter_available_dates parse_date query_params queryset name value
      = Ok queryset'
      /\ ~ In p (queryset' db).
Proof.
  intros parse_date qp qs name value s e db p b Hd Hb Hfk (Hst & Hci & Hco).
  eexists. split; [apply (filter_available_dates_run _ _ _ _ _ s e Hd)|].
  apply (overlapping_confirmed_booking_excluded qs db s e p b); try assumption.
  now apply related_bookings_In.
Qed.

Lemma filter_available_dates_excludes_overlap_witness :
  exists queryset',
    filter_available_dates parse_iso availability_request all_properties
                           "check_in" (ymd2ord 2025 12 8)
    = Ok queryset'
    /\ ~ In scenario_property (queryset' touching_db).
Proof.
  apply (filter_available_dates_excludes_overlap parse_iso availability_request
           all_properties "check_in" (ymd2ord 2025 12 8)
           (ymd2ord 2025 12 8) (ymd2ord 2025 12 9) touching_db scenario_property
           (Booking.mk 1 1 (ymd2ord 2025 12 5) (ymd2ord 2025 12 8) "confirmed")).
  - exact availability_request_supplied.
  - left. reflexivity.
  - reflexivity.
  - repeat split; discriminate.
Defined.

(** X9. The filter only removes: every row of the result is a row of the input
    queryset, and no row comes twice. *)
Theorem filter_available_dates_only_removes :
  forall (parse_date : string -> option date) (query_params : QueryDict)
         (queryset queryset' : QuerySet Property.t) (name : string)
         (value : date) (db : Database),
    filter_available_dates parse_date query_params queryset name value
    = Ok queryset' ->
    incl (queryset' db) (queryset db)
    /\ (NoDup (queryset db) -> NoDup (queryset' db)).
Proof.
  intros parse_date qp qs qs' name value db H.
  unfold filter_available_dates in H.
  destruct (not_ (get "check_in" qp) || not_ (get "check_out" qp)).
  - injection H as <-. split; [apply incl_refl | auto].
  - destruct (parse_date (str_value (get "check_out" qp))) as [e|];
      [|discriminate].
    destruct (parse_date (str_value (get "check_in" qp))) as [s|];
      [|discriminate].
    injection H as <-. split.
    + intros p Hp. apply exclude_overlapping_bookings_In in Hp. tauto.
    + intros _. unfold distinct. apply NoDup_nodup.
Qed.

Lemma filter_available_dates_only_removes_witness :
  incl (distinct (exclude (overlapping_bookings (ymd2ord 2025 12 8)
                                                (ymd2ord 2025 12 9))
                          all_properties) gap_db)
       (all_properties gap_db).
Proof.
  apply (filter_available_dates_only_removes parse_iso availability_request
           all_properties _ "check_in" (ymd2ord 2025 12 8) gap_db).
  reflexivity.
Defined.

Lemma filter_nodup_fixed (f : Property.t -> bool) (l : list Property.t) :
  nodup Property_eq_dec (filter f (nodup Property_eq_dec (filter f l)))
  = nodup Property_eq_dec (filter f l).
Proof.
  assert (H : filter f (nodup Property_eq_dec (filter f l))
              = nodup Property_eq_dec (filter f l)).
  { apply forallb_filter_id. apply forallb_forall. intros x Hx.
    apply nodup_In, filter_In in Hx. tauto. }
  rewrite H. apply nodup_fixed_point. apply NoDup_nodup.
Qed.

(** X10. Applying the filter to its own result changes nothing.  (The filter set
    declares the method for both [check_in] and [check_out], so a request
    with both dates runs it twice.) *)
Theorem filter_available_dates_idempotent :
  forall (parse_date : string -> option date) (query_params : QueryDict)
         (queryset queryset' : QuerySet Property.t) (name name' : string)
         (value value' : date),
    filter_available_dates parse_date query_params queryset name value
    = Ok queryset' ->
    exists queryset'',
      filter_available_dates parse_date query_params queryset' name' value'
      = Ok queryset''
      /\ forall db, queryset'' db = queryset' db.
Proof.
  intros parse_date qp qs qs' name name' value value' H.
  unfold filter_available_dates in *.
  destruct (not_ (get "check_in" qp) || not_ (get "check_out" qp)).
  - injection H as <-. eexists. split; reflexivity.
  - destruct (parse_date (str_value (get "check_out" qp))) as [e|];
      [|discriminate].
    destruct (parse_date (str_value (get "check_in" qp))) as [s|];
      [|discriminate].
    injection H as <-. eexists. split; [reflexivity|].
    intros db. unfold distinct, exclude. apply filter_nodup_fixed.
Qed.

Lemma filter_available_dates_idempotent_witness :
  exists queryset'',
    filter_available_dates parse_iso availability_request
      (distinct (exclude (overlapping_bookings (ymd2ord 2025 12 8)
                                               (ymd2ord 2025 12 9))
                         all_properties))
      "check_out" (ymd2ord 2025 12 9)
    = Ok queryset''
    /\ forall db,
         queryset'' db
         = distinct (exclude (overlapping_bookings (ymd2ord 2025 12 8)
                                                   (ymd2ord 2025 12 9))
                             all_properties) db.
Proof.
  apply (filter_available_dates_idempotent parse_iso availability_request
           all_properties _ "check_in" "check_out"
           (ymd2ord 2025 12 8) (ymd2ord 2025 12 9)).
  reflexivity.
Defined.

(** X11. Asking for a longer period never makes more properties available: when
    one request contains another, every property kept for the longer request
    is kept for the shorter one. *)
Theorem filter_available_dates_monotone :
  forall (parse_date : string -> option date) (q_short q_long : QueryDict)
         (queryset : QuerySet Property.t) (name : string) (value : date)
         (s e s' e' : date) (db : Database),
    dates_supplied parse_date q_short s e ->
    dates_supplied parse_date q_long s' e' ->
    s' <= s -> e <= e' ->
    exists r_short r_long,
      filter_available_dates parse_date q_short queryset name value = Ok r_short
      /\ filter_available_dates parse_date q_long queryset name value = Ok r_long
      /\ incl (r_long db) (r_short db).
Proof.
  intros parse_date q1 q2 qs name value s e s' e' db H1 H2 Hs He.
  do 2 eexists.
  split; [apply (filter_available_dates_run _ _ _ _ _ s e H1)|].
  split; [apply (filter_available_dates_run _ _ _ _ _ s' e' H2)|].
  intros p Hp. apply exclude_overlapping_bookings_In in Hp.
  apply exclude_overlapping_bookings_In. destruct Hp as [Hin Hn].
  split; [exact Hin|]. intros (Hc & (b2 & Hb2 & H2') & (b3 & Hb3 & H3')).
  apply Hn. split; [exact Hc|]. split; [exists b2 | exists b3]; split;
    try assumption; lia.
Qed.

Lemma filter_available_dates_monotone_witness :
  exists r_short r_long,
    filter_available_dates parse_iso availability_request all_properties
                           "check_in" (ymd2ord 2025 12 8) = Ok r_short
    /\ filter_available_dates parse_iso longer_request all_properties
                              "check_in" (ymd2ord 2025 12 8) = Ok r_long
    /\ incl (r_long touching_db) (r_short touching_db).
Proof.
  apply (filter_available_dates_monotone parse_iso availability_request
           longer_request all_properties "check_in" (ymd2ord 2025 12 8)
           (ymd2ord 2025 12 8) (ymd2ord 2025 12 9)
           (ymd2ord 2025 12 4) (ymd2ord 2025 12 12) touching_db).
  - exact availability_request_supplied.
  - exists "2025-12-04", "2025-12-12". unfold supplied.
    repeat split; try discriminate; reflexivity.
  - discriminate.
  - discriminate.
Defined.

(* ===================================================================== *)
(** ** The availability view, the amenities filter, the primary image     *)
(* ===================================================================== *)

Section OrderBy.

Context {A : Type} (lt : A -> A -> bool).

Hypothesis lt_asym : forall x y, lt x y = true -> lt y x = false.
Hypothesis not_after_trans :
  forall x y z, not_after lt x y -> not_after lt y z -> not_after lt x z.

Lemma insert_by_perm (x : A) (l : list A) :
  Permutation (insert_by lt x l) (x :: l).
Proof.
  induction l as [|y l IH]; cbn; [reflexivity|].
  destruct (lt x y); [reflexivity|].
  rewrite IH. apply perm_swap.
Qed.

Lemma order_by_perm (l : list A) : Permutation (order_by lt l) l.
Proof.
  induction l as [|x l IH]; cbn; [reflexivity|].
  rewrite insert_by_perm. now constructor.
Qed.

Lemma insert_by_sorted (x : A) (l : list A) :
  StronglySorted (not_after lt) l -> StronglySorted (not_after lt) (insert_by lt x l).
Proof.
  induction 1 as [|y l Hsorted IH Hy]; cbn.
  - repeat constructor.
  - destruct (lt x y) eqn:E.
    + constructor; [constructor; assumption|].
      assert (Hxy : not_after lt x y) by (apply lt_asym; exact E).
      constructor; [exact Hxy|].
      eapply Forall_impl; [|exact Hy]. intros z Hz.
      exact (not_after_trans x y z Hxy Hz).
    + constructor; [exact IH|].
      eapply Permutation_Forall; [symmetry; apply insert_by_perm|].
      constructor; [exact E | exact Hy].
Qed.

Lemma order_by_sorted (l : list A) : StronglySorted (not_after lt) (order_by lt l).
Proof.
  induction l as [|x l IH]; cbn; [constructor|].
  now apply insert_by_sorted.
Qed.

End OrderBy.

Lemma StronglySorted_map {A B : Type} (R : A -> A -> Prop) (S : B -> B -> Prop)
    (f : A -> B) (l : list A) :
  (forall x y, R x y -> S (f x) (f y)) ->
  StronglySorted R l -> StronglySorted S (map f l).
Proof.
  intros H. induction 1 as [|x l Hs IH Hx]; cbn; constructor; [exact IH|].
  apply Forall_map. eapply Forall_impl; [|exact Hx]. intros y. apply H.
Qed.

Lemma filter_twice {A : Type} (f g : A -> bool) (l : list A) :
  filter f (filter g l) = filter (fun x => g x && f x) l.
Proof.
  induction l as [|x l IH]; cbn; [reflexivity|].
  destruct (g x); cbn; [|exact IH]. destruct (f x); now rewrite IH.
Qed.

Lemma confirmed_bookings_In (p : Property.t) (db : Database) (b : Booking.t) :
  In b (confirmed_bookings p db) <->
  In b (bookings db) /\ Booking.property b = Property.id p
  /\ Booking.status b = "confirmed".
Proof.
  unfold confirmed_bookings. split.
  - intros H. eapply Permutation_in in H; [|apply order_by_perm].
    apply filter_In in H. destruct H as [H1 H2].
    apply related_bookings_In in H1. apply String.eqb_eq in H2. tauto.
  - intros (H1 & H2 & H3).
    eapply Permutation_in; [symmetry; apply order_by_perm|].
    apply filter_In. split; [now apply related_bookings_In|].
    now apply String.eqb_eq.
Qed.

(** X12. The availability view lists exactly the confirmed bookings of the
    property, each once, ordered by check-in date; [total_bookings] is their
    number; bookings of other properties and bookings that are pending,
    cancelled or completed never appear; the database is only read. *)
Theorem availability_lists_confirmed_bookings :
  forall (p : Property.t) (db : Database),
    exists r,
      availability p db = (r, db)
      /\ Availability.property_id r = Property.id p
      /\ Permutation (Availability.unavailable_dates r)
           (map (fun b => (Booking.check_in b, Booking.check_out b))
                (filter (fun b => (Booking.property b =? Property.id p)
                                  && String.eqb (Booking.status b) "confirmed")
                        (bookings db)))
      /\ StronglySorted (fun x y => fst x <= fst y)
                        (Availability.unavailable_dates r)
      /\ Availability.total_bookings r
         = Z.of_nat
             (List.length
                (filter (fun b => (Booking.property b =? Property.id p)
                                  && String.eqb (Booking.status b) "confirmed")
                        (bookings db))).
Proof.
  intros p db. eexists. split; [reflexivity|].
  cbn [Availability.property_id Availability.unavailable_dates
       Availability.total_bookings].
  assert (Hperm : Permutation (confirmed_bookings p db)
            (filter (fun b => (Booking.property b =? Property.id p)
                              && String.eqb (Booking.status b) "confirmed")
                    (bookings db))).
  { unfold confirmed_bookings, related_bookings.
    rewrite order_by_perm. now rewrite filter_twice. }
  split; [reflexivity|]. split; [|split].
  - now apply Permutation_map.
  - apply (StronglySorted_map
             (not_after (fun a b => Booking.check_in a <? Booking.check_in b))).
    + unfold not_after. cbn [fst]. intros x y H. apply Z.ltb_ge in H. exact H.
    + apply order_by_sorted; unfold not_after.
      * intros x y H. apply Z.ltb_lt in H. apply Z.ltb_ge. lia.
      * intros x y z H1 H2. apply Z.ltb_ge in H1, H2. apply Z.ltb_ge. lia.
  - rewrite length_map. f_equal. now apply Permutation_length.
Qed.

(** X13. The two endpoints agree on what blocks a stay: when the availability
    view lists a range that the requested dates touch or overlap, the
    availability filter removes the property. *)
Theorem availability_listed_range_is_filtered :
  forall (parse_date : string -> option date) (query_params : QueryDict)
         (queryset : QuerySet Property.t) (name : string) (value : date)
         (s e : date) (db : Database) (p : Property.t) (ci co : date),
    dates_supplied parse_date query_params s e ->
    In (ci, co) (Availability.unavailable_dates (fst (availability p db))) ->
    ci <= e -> s <= co ->
    exists queryset',
      filter_available_dates parse_date query_params queryset name value
      = Ok queryset'
      /\ ~ In p (queryset' db).
Proof.
  intros parse_date qp qs name value s e db p ci co Hd Hin Hci Hco.
  cbn in Hin. apply in_map_iff in Hin. destruct Hin as (b & Hb & Hin).
  injection Hb as <- <-. apply confirmed_bookings_In in Hin.
  destruct Hin as (H1 & H2 & H3).
  eexists. split; [apply (filter_available_dates_run _ _ _ _ _ s e Hd)|].
  apply (overlapping_confirmed_booking_excluded qs db s e p b); try assumption.
  now apply related_bookings_In.
Qed.

Lemma availability_listed_range_is_filtered_witness :
  exists queryset',
    filter_available_dates parse_iso availability_request all_properties
                           "check_in" (ymd2ord 2025 12 8)
    = Ok queryset'
    /\ ~ In scenario_property (queryset' touching_db).
Proof.
  apply (availability_listed_range_is_filtered parse_iso availability_request
           all_properties "check_in" (ymd2ord 2025 12 8)
           (ymd2ord 2025 12 8) (ymd2ord 2025 12 9) touching_db scenario_property
           (ymd2ord 2025 12 5) (ymd2ord 2025 12 8)).
  - exact availability_request_supplied.
  - left. reflexivity.
  - discriminate.
  - discriminate.
Defined.

Section AmenitiesFilter.

Variable strip : string -> string.
Variable icontains : string -> string -> bool.

Lemma filter_amenity_icontains_In (amenity : string)
    (queryset : CatalogQuery Property.t) (c : Catalog) (p : Property.t) :
  In p (filter_amenity_icontains icontains amenity queryset c) <->
  In p (queryset c) /\ has_amenity icontains c p amenity.
Proof.
  unfold filter_amenity_icontains, has_amenity, related_amenities.
  rewrite in_flat_map. split.
  - intros (q & Hq & Hin). apply in_map_iff in Hin.
    destruct Hin as (a & <- & Ha). apply filter_In in Ha.
    destruct Ha as [Ha Hm]. apply filter_In in Ha. destruct Ha as [Ha Hfk].
    apply Z.eqb_eq in Hfk. split; [exact Hq|]. exists a. auto.
  - intros (Hq & a & Ha & Hfk & Hm). exists p. split; [exact Hq|].
    apply in_map_iff. exists a. split; [reflexivity|].
    apply filter_In. split; [|exact Hm].
    apply filter_In. split; [exact Ha|]. now apply Z.eqb_eq.
Qed.

Lemma filter_amenities_fold_In (amenities : list string) :
  forall (queryset : CatalogQuery Property.t) (c : Catalog) (p : Property.t),
    In p (fold_left (fun qs amenity =>
                       filter_amenity_icontains icontains amenity qs)
                    amenities queryset c) <->
    In p (queryset c) /\ forall a, In a amenities -> has_amenity icontains c p a.
Proof.
  induction amenities as [|x l IH]; intros qs c p; cbn [fold_left].
  - split; [intros H; split; [exact H | intros a []] | tauto].
  - rewrite IH, filter_amenity_icontains_In. split.
    + intros [[Hq Hx] Hl]. split; [exact Hq|].
      intros a [<- | Ha]; [exact Hx | now apply Hl].
    + intros [Hq Hall]. split; [split; [exact Hq|]|].
      * apply Hall. now left.
      * intros a Ha. apply Hall. now right.
Qed.

(** X14. The amenities filter keeps exactly the properties that have, for every
    comma-separated item of [value] (stripped), some amenity row matching
    it; different items may be matched by different rows.  The joins repeat
    rows, but the result holds no property twice. *)
Theorem filter_amenities_requires_all :
  forall (queryset : CatalogQuery Property.t) (name value : string)
         (c : Catalog) (p : Property.t),
    value <> "" ->
    (In p (filter_amenities strip icontains queryset name value c) <->
     In p (queryset c)
     /\ forall item, In item (split_comma value) ->
                     has_amenity icontains c p (strip item))
    /\ NoDup (filter_amenities strip icontains queryset name value c).
Proof.
  intros qs name value c p Hv. unfold filter_amenities.
  destruct (String.eqb_spec value ""); [contradiction|]. split.
  - rewrite nodup_In, filter_amenities_fold_In. split.
    + intros [Hq Hall]. split; [exact Hq|]. intros item Hi.
      apply Hall. now apply in_map.
    + intros [Hq Hall]. split; [exact Hq|]. intros a Ha.
      apply in_map_iff in Ha. destruct Ha as (item & <- & Hi). now apply Hall.
  - apply NoDup_nodup.
Qed.

End AmenitiesFilter.

Lemma filter_amenities_requires_all_witness :
  (In scenario_property
      (filter_amenities (fun s => s) contains (fun c => properties (core c))
                        "amenities" "WiFi,Pool" amenities_catalog) <->
   In scenario_property (properties (core amenities_catalog))
   /\ forall item, In item (split_comma "WiFi,Pool") ->
                   has_amenity contains amenities_catalog scenario_property item)
  /\ NoDup (filter_amenities (fun s => s) contains (fun c => properties (core c))
                             "amenities" "WiFi,Pool" amenities_catalog).
Proof.
  apply (filter_amenities_requires_all (fun s => s) contains
           (fun c => properties (core c)) "amenities" "WiFi,Pool"
           amenities_catalog scenario_property).
  discriminate.
Defined.

Example filter_amenities_ex :
  split_comma "WiFi,Pool" = ["WiFi"; "Pool"]
  /\ split_comma "WiFi," = ["WiFi"; ""]
  /\ filter_amenity_icontains contains "Pool" (fun c => properties (core c))
       amenities_catalog
     = [scenario_property; scenario_property]
  /\ filter_amenities (fun s => s) contains (fun c => properties (core c))
       "amenities" "WiFi,Pool" amenities_catalog
     = [scenario_property]
  /\ filter_amenities (fun s => s) contains (fun c => properties (core c))
       "amenities" "WiFi,Sauna" amenities_catalog
     = [].
Proof. vm_compute. repeat split. Qed.

Lemma image_before_asym (x y : PropertyImage.t) :
  image_before x y = true -> image_before y x = false.
Proof.
  unfold image_before.
  destruct (PropertyImage.is_primary x), (PropertyImage.is_primary y);
    cbn; try discriminate; try reflexivity;
    intros H; apply Z.ltb_lt in H; apply Z.ltb_ge; lia.
Qed.

Lemma image_not_after_trans (x y z : PropertyImage.t) :
  not_after image_before x y -> not_after image_before y z ->
  not_after image_before x z.
Proof.
  unfold not_after, image_before.
  destruct (PropertyImage.is_primary x), (PropertyImage.is_primary y),
    (PropertyImage.is_primary z); cbn; try discriminate; try reflexivity;
    intros H1 H2; apply Z.ltb_ge in H1, H2; apply Z.ltb_ge; lia.
Qed.

Lemma primary_images_In (obj : Property.t) (c : Catalog) (i : PropertyImage.t) :
  In i (primary_images obj c) <->
  In i (property_images c)
  /\ PropertyImage.property i = Property.id obj
  /\ PropertyImage.is_primary i = true.
Proof.
  unfold primary_images. split.
  - intros H. eapply Permutation_in in H; [|apply order_by_perm].
    apply filter_In in H. destruct H as [H Hp]. apply filter_In in H.
    rewrite Z.eqb_eq in H. tauto.
  - intros (H1 & H2 & H3).
    eapply Permutation_in; [symmetry; apply order_by_perm|].
    apply filter_In. split; [|exact H3]. apply filter_In.
    now rewrite Z.eqb_eq.
Qed.

(** X15. [get_primary_image] answers [None] exactly when the property has no
    image marked primary; otherwise it answers the URL of the primary image
    of that property with the least [id] (images of other properties and
    images not marked primary are never chosen). *)
Theorem get_primary_image_least_primary :
  forall (obj : Property.t) (c : Catalog),
    (get_primary_image obj c = None <->
     forall i, In i (property_images c) ->
               PropertyImage.property i = Property.id obj ->
               PropertyImage.is_primary i = false)
    /\ forall url,
         get_primary_image obj c = Some url ->
         exists i,
           In i (property_images c)
           /\ PropertyImage.property i = Property.id obj
           /\ PropertyImage.is_primary i = true
           /\ PropertyImage.image_url i = url
           /\ forall j, In j (property_images c) ->
                        PropertyImage.property j = Property.id obj ->
                        PropertyImage.is_primary j = true ->
                        PropertyImage.id i <= PropertyImage.id j.
Proof.
  intros obj c. unfold get_primary_image.
  pose proof (primary_images_In obj c) as HIn.
  assert (Hsorted : StronglySorted (not_after image_before) (primary_images obj c)).
  { unfold primary_images. apply order_by_sorted.
    - exact image_before_asym.
    - exact image_not_after_trans. }
  destruct (primary_images obj c) as [|x l]; split.
  - split; [|reflexivity]. intros _ i Hi Hfk.
    destruct (PropertyImage.is_primary i) eqn:E; [|reflexivity].
    exfalso. apply (proj2 (HIn i)); auto.
  - discriminate.
  - split; [discriminate|]. intros H. exfalso.
    destruct (proj1 (HIn x) (or_introl eq_refl)) as (H1 & H2 & H3).
    rewrite (H x H1 H2) in H3. discriminate.
  - intros url [= <-]. exists x.
    destruct (proj1 (HIn x) (or_introl eq_refl)) as (H1 & H2 & H3).
    repeat split; try assumption.
    intros j Hj Hfk Hp.
    assert (Hjl : In j (x :: l)) by (apply HIn; auto).
    destruct Hjl as [<- | Hjl]; [lia|].
    apply StronglySorted_inv in Hsorted. destruct Hsorted as [_ Hall].
    rewrite Forall_forall in Hall. specialize (Hall j Hjl).
    unfold not_after, image_before in Hall. rewrite H3, Hp in Hall.
    cbn in Hall. apply Z.ltb_ge in Hall. exact Hall.
Qed.

Lemma get_primary_image_least_primary_witness :
  get_primary_image scenario_property images_catalog
  = Some "https://img.example/3.jpg"
  /\ exists i,
       In i (property_images images_catalog)
       /\ PropertyImage.property i = Property.id scenario_property
       /\ PropertyImage.is_primary i = true
       /\ PropertyImage.image_url i = "https://img.example/3.jpg"
       /\ forall j, In j (property_images images_catalog) ->
                    PropertyImage.property j = Property.id scenario_property ->
                    PropertyImage.is_primary j = true ->
                    PropertyImage.id i <= PropertyImage.id j.
Proof.
  split; [reflexivity|].
  apply (proj2 (get_primary_image_least_primary scenario_property images_catalog)).
  reflexivity.
Defined.

Example availability_ex :
  fst (availability scenario_property gap_db)
  = Availability.mk 1 "Loft"
      [(ymd2ord 2025 12 1, ymd2ord 2025 12 3);
       (ymd2ord 2025 12 20, ymd2ord 2025 12 25)] 2
  /\ Availability.unavailable_dates (fst (availability scenario_property pending_db))
     = [(ymd2ord 2025 12 1, ymd2ord 2025 12 3)].
Proof. vm_compute. split; reflexivity. Qed.

(* ===================================================================== *)
(** ** The route of [calculate_price]: [get_object()] before the body     *)
(* ===================================================================== *)

Lemma get_check_in (q : DateQuery) :
  get "check_in" (query_params_of q) = check_in_param q.
Proof. destruct q as [[ci|] [co|]]; reflexivity. Qed.

Lemma get_check_out (q : DateQuery) :
  get "check_out" (query_params_of q) = check_out_param q.
Proof. destruct q as [[ci|] [co|]]; reflexivity. Qed.

Lemma not_nonempty (s : string) : s <> "" -> not_ (Some s) = false.
Proof. intros H. cbn. now apply String.eqb_neq. Qed.

Lemma clean_date_cases (form_date : string -> option date) (raw : option string) :
  (clean_date form_date raw = Invalid /\ form_rejects form_date raw)
  \/ (clean_date form_date raw = Empty /\ not_ raw = true
      /\ ~ form_rejects form_date raw)
  \/ (exists s d, raw = Some s /\ s <> "" /\ form_date s = Some d
                  /\ clean_date form_date raw = Value d
                  /\ ~ form_rejects form_date raw).
Proof.
  destruct raw as [s|]; cbn [clean_date not_].
  - destruct (String.eqb_spec s "") as [-> | Hne].
    + right; left. repeat split. intros (s' & E & Hs & _). now inversion E; subst.
    + destruct (form_date s) as [d|] eqn:F.
      * right; right. exists s, d. repeat split; auto.
        intros (s' & E & _ & F'). inversion E; subst. congruence.
      * left. split; [reflexivity|]. now exists s.
  - right; left. repeat split. intros (s' & E & _). discriminate.
Qed.

Lemma filter_available_dates_skips (parse_date : string -> option date)
    (query_params : QueryDict) (queryset : QuerySet Property.t)
    (name : string) (value : date) :
  not_ (get "check_in" query_params) = true
  \/ not_ (get "check_out" query_params) = true ->
  filter_available_dates parse_date query_params queryset name value
  = Ok queryset.
Proof.
  intros H. unfold filter_available_dates.
  destruct H as [-> | ->]; [reflexivity|].
  now rewrite orb_true_r.
Qed.

Lemma filter_available_dates_raises (parse_date : string -> option date)
    (query_params : QueryDict) (queryset : QuerySet Property.t)
    (name : string) (value : date) (cs os : string) :
  supplied query_params "check_in" cs ->
  supplied query_params "check_out" os ->
  parse_date cs = None \/ parse_date os = None ->
  filter_available_dates parse_date query_params queryset name value
  = Raise ValidationError.
Proof.
  intros Hci Hco H. unfold filter_available_dates.
  rewrite (not_supplied _ _ _ Hci), (not_supplied _ _ _ Hco).
  destruct Hci as [-> _], Hco as [-> _]. cbn [orb str_value].
  destruct H as [H | H]; rewrite H; [|reflexivity].
  now destruct (parse_date os).
Qed.

(** The queryset after both date filters have run on [s .. e]. *)
Lemma filter_queryset_applied (form_date parse_date : string -> option date)
    (q : DateQuery) (queryset : QuerySet Property.t) (s e : date) :
  filter_applied form_date parse_date q s e ->
  filter_queryset form_date parse_date (query_params_of q) queryset
  = inr (distinct (exclude (overlapping_bookings s e)
          (distinct (exclude (overlapping_bookings s e) queryset)))).
Proof.
  intros (cs & os & Eci & Nci & Eco & Nco & Fci & Fco & Ps & Pe).
  assert (Hci : supplied (query_params_of q) "check_in" cs)
    by (split; [now rewrite get_check_in | exact Nci]).
  assert (Hco : supplied (query_params_of q) "check_out" os)
    by (split; [now rewrite get_check_out | exact Nco]).
  unfold filter_queryset. rewrite get_check_in, get_check_out, Eci, Eco.
  cbn [clean_date].
  rewrite (proj2 (String.eqb_neq cs "") Nci), (proj2 (String.eqb_neq os "") Nco).
  destruct (form_date cs) as [dci|]; [|congruence].
  destruct (form_date os) as [dco|]; [|congruence].
  cbn [form_errors app filter_method].
  rewrite (filter_available_dates_both parse_date _ _ _ _ cs os s e Hci Hco Ps Pe).
  now rewrite (filter_available_dates_both parse_date _ _ _ _ cs os s e Hci Hco Ps Pe).
Qed.

Lemma filter_applied_fun (form_date parse_date : string -> option date)
    (q : DateQuery) (s e s' e' : date) :
  filter_applied form_date parse_date q s e ->
  filter_applied form_date parse_date q s' e' ->
  s = s' /\ e = e'.
Proof.
  intros (cs & os & Eci & _ & Eco & _ & _ & _ & Ps & Pe)
         (cs' & os' & Eci' & _ & Eco' & _ & _ & _ & Ps' & Pe').
  split; congruence.
Qed.

Lemma clean_date_Invalid (form_date : string -> option date)
    (raw : option string) :
  clean_date form_date raw = Invalid <-> form_rejects form_date raw.
Proof.
  destruct (clean_date_cases form_date raw)
    as [[C R] | [(C & _ & R) | (s & d & _ & _ & _ & C & R)]];
    rewrite C; split; intros H; try discriminate H; tauto.
Qed.

Lemma form_errors_check_in (check_in check_out : Cleaned) :
  In "check_in" (form_errors check_in check_out) <-> check_in = Invalid.
Proof.
  destruct check_in, check_out; cbn; split; intros H;
    try discriminate H; try (now left);
    repeat (destruct H as [H | H]; try discriminate H); tauto.
Qed.

Lemma form_errors_check_out (check_in check_out : Cleaned) :
  In "check_out" (form_errors check_in check_out) <-> check_out = Invalid.
Proof.
  destruct check_in, check_out; cbn; split; intros H;
    try discriminate H; try (now left); try (now right; left);
    repeat (destruct H as [H | H]; try discriminate H); tauto.
Qed.

(** What [DjangoFilterBackend] does with the two dates. *)
Lemma filter_queryset_cases (form_date parse_date : string -> option date)
    (q : DateQuery) (queryset : QuerySet Property.t) :
  ((form_rejects form_date (check_in_param q)
    \/ form_rejects form_date (check_out_param q))
   /\ exists fields,
        filter_queryset form_date parse_date (query_params_of q) queryset
        = inl (FilterError fields)
        /\ (In "check_in" fields <-> form_rejects form_date (check_in_param q))
        /\ (In "check_out" fields <-> form_rejects form_date (check_out_param q)))
  \/ (exists cs os,
        supplied (query_params_of q) "check_in" cs
        /\ supplied (query_params_of q) "check_out" os
        /\ form_date cs <> None /\ form_date os <> None
        /\ (parse_date cs = None \/ parse_date os = None)
        /\ filter_queryset form_date parse_date (query_params_of q) queryset
           = inl (Unhandled (Escaped ValidationError)))
  \/ (exists s e,
        filter_applied form_date parse_date q s e
        /\ filter_queryset form_date parse_date (query_params_of q) queryset
           = inr (distinct (exclude (overlapping_bookings s e)
                   (distinct (exclude (overlapping_bookings s e) queryset)))))
  \/ ((not_ (check_in_param q) = true \/ not_ (check_out_param q) = true)
      /\ filter_queryset form_date parse_date (query_params_of q) queryset
         = inr queryset).
Proof.
  destruct (clean_date_cases form_date (check_in_param q))
    as [[Cci Rci] | [(Cci & Nci & Rci) | (cs & dci & Eci & Hcs & Fci & Cci & Rci)]];
  destruct (clean_date_cases form_date (check_out_param q))
    as [[Cco Rco] | [(Cco & Nco & Rco) | (os & dco & Eco & Hos & Fco & Cco & Rco)]].
  1-4, 7: left; (split; [tauto|]); unfold filter_queryset;
    rewrite get_check_in, get_check_out;
    exists (form_errors (clean_date form_date (check_in_param q))
                        (clean_date form_date (check_out_param q)));
    rewrite form_errors_check_in, form_errors_check_out,
            !clean_date_Invalid;
    (split; [|tauto]); rewrite Cci, Cco; reflexivity.
  - (* both empty *)
    right; right; right. split; [now left|].
    unfold filter_queryset. rewrite get_check_in, get_check_out, Cci, Cco.
    reflexivity.
  - (* check_in empty, check_out given *)
    right; right; right. split; [now left|].
    unfold filter_queryset. rewrite get_check_in, get_check_out, Cci, Cco.
    cbn [form_errors app filter_method].
    rewrite filter_available_dates_skips; [reflexivity|].
    left. now rewrite get_check_in.
  - (* check_in given, check_out empty *)
    right; right; right. split; [now right|].
    unfold filter_queryset. rewrite get_check_in, get_check_out, Cci, Cco.
    cbn [form_errors app filter_method].
    rewrite filter_available_dates_skips; [reflexivity|].
    right. now rewrite get_check_out.
  - (* both given and accepted by the form *)
    assert (Hci : supplied (query_params_of q) "check_in" cs)
      by (split; [now rewrite get_check_in | exact Hcs]).
    assert (Hco : supplied (query_params_of q) "check_out" os)
      by (split; [now rewrite get_check_out | exact Hos]).
    destruct (parse_date cs) as [s|] eqn:Ps; [destruct (parse_date os) as [e|] eqn:Pe|].
    + right; right; left. exists s, e.
      assert (Ha : filter_applied form_date parse_date q s e).
      { exists cs, os. repeat split; auto; congruence. }
      split; [exact Ha|]. now apply filter_queryset_applied.
    + right; left. exists cs, os.
      repeat split; try apply Hci; try apply Hco; try congruence; [now right|].
      unfold filter_queryset. rewrite get_check_in, get_check_out, Cci, Cco.
      cbn [form_errors app filter_method].
      rewrite (filter_available_dates_raises parse_date _ _ _ _ cs os Hci Hco);
        [reflexivity | now right].
    + right; left. exists cs, os.
      repeat split; try apply Hci; try apply Hco; try congruence; [now left|].
      unfold filter_queryset. rewrite get_check_in, get_check_out, Cci, Cco.
      cbn [form_errors app filter_method].
      rewrite (filter_available_dates_raises parse_date _ _ _ _ cs os Hci Hco);
        [reflexivity | now left].
Qed.

Lemma exclude_distinct_In (q0 : Q) (queryset : QuerySet Property.t)
    (db : Database) (p : Property.t) :
  In p (distinct (exclude q0 queryset) db)
  <-> In p (queryset db) /\ exclude_condition q0 db p = false.
Proof.
  unfold distinct, exclude. rewrite nodup_In, filter_In, negb_true_iff.
  reflexivity.
Qed.

Lemma NoDup_map_filter {A B : Type} (f : A -> B) (g : A -> bool) (l : list A) :
  NoDup (map f l) -> NoDup (map f (filter g l)).
Proof.
  induction l as [|x l IH]; cbn; intros H; [exact H|].
  inversion H as [|? ? Hn Hd]; subst.
  destruct (g x); cbn; [|auto].
  constructor; [|auto].
  intros Hin. apply Hn. apply in_map_iff in Hin.
  destruct Hin as (y & E & Hy). apply filter_In in Hy.
  apply in_map_iff. exists y. tauto.
Qed.

Lemma exclude_distinct_NoDup (q0 : Q) (queryset : QuerySet Property.t)
    (db : Database) :
  NoDup (map Property.id (queryset db)) ->
  NoDup (map Property.id (distinct (exclude q0 queryset) db)).
Proof.
  intros H. unfold distinct, exclude.
  pose proof (NoDup_map_filter Property.id
                (fun p => negb (exclude_condition q0 db p)) _ H) as H'.
  rewrite nodup_fixed_point; [exact H'|].
  eapply NoDup_map_inv; exact H'.
Qed.

(** A primary key selects at most one row. *)
Lemma filter_pk_unique (pk : Z) (l : list Property.t) (a b : Property.t)
    (r : list Property.t) :
  NoDup (map Property.id l) ->
  filter (fun p => Property.id p =? pk) l <> a :: b :: r.
Proof.
  induction l as [|x l IH]; cbn; intros H E; [discriminate|].
  inversion H as [|? ? Hn Hd]; subst.
  destruct (Property.id x =? pk) eqn:Ex; [|now apply IH].
  inversion E as [[Ea Er]]; subst a.
  assert (Hb : In b (filter (fun p => Property.id p =? pk) l))
    by (rewrite Er; now left).
  apply filter_In in Hb. destruct Hb as [Hb Eb].
  apply Hn. apply in_map_iff. exists b. split; [lia | exact Hb].
Qed.

(** [queryset.get(pk=pk)] on the rows [kept] of the table [props]. *)
Lemma get_rows_cases (pk : Z) (kept props : list Property.t) :
  (forall p, In p kept -> In p props) ->
  (NoDup (map Property.id props) -> NoDup (map Property.id kept)) ->
  (filter (fun p => Property.id p =? pk) kept = []
   /\ forall obj, In obj props -> Property.id obj = pk -> ~ In obj kept)
  \/ (exists obj,
        filter (fun p => Property.id p =? pk) kept = [obj]
        /\ In obj kept /\ In obj props /\ Property.id obj = pk)
  \/ (exists a b r,
        filter (fun p => Property.id p =? pk) kept = a :: b :: r
        /\ ~ NoDup (map Property.id props)).
Proof.
  intros Hsub Hnd.
  destruct (filter (fun p => Property.id p =? pk) kept) as [|a [|b r]] eqn:E.
  - left. split; [reflexivity|]. intros obj _ Hid Hin.
    assert (H : In obj (filter (fun p => Property.id p =? pk) kept)).
    { apply filter_In. split; [exact Hin | lia]. }
    rewrite E in H. exact H.
  - right; left. exists a. split; [reflexivity|].
    assert (H : In a (filter (fun p => Property.id p =? pk) kept))
      by (rewrite E; now left).
    apply filter_In in H. destruct H as [Hin Hid].
    repeat split; [exact Hin | now apply Hsub | lia].
  - right; right. exists a, b, r. split; [reflexivity|].
    intros H. exact (filter_pk_unique pk kept a b r (Hnd H) E).
Qed.

Lemma get_object_reads_only (form_date parse_date : string -> option date)
    (pk : Z) (q : DateQuery) (db : Database) :
  snd (get_object form_date parse_date pk q db) = db.
Proof.
  unfold get_object.
  destruct (filter_queryset form_date parse_date (query_params_of q) all_properties)
    as [a | queryset]; [reflexivity|].
  unfold bind, evaluate, ret.
  destruct (filter (fun p => Property.id p =? pk) (queryset db)) as [|a [|b r]];
    reflexivity.
Qed.

(** What [self.get_object()] does, case by case. *)
Lemma get_object_cases (form_date parse_date : string -> option date)
    (pk : Z) (q : DateQuery) (db : Database) :
  ((form_rejects form_date (check_in_param q)
    \/ form_rejects form_date (check_out_param q))
   /\ exists fields,
        fst (get_object form_date parse_date pk q db) = inl (FilterError fields)
        /\ (In "check_in" fields <-> form_rejects form_date (check_in_param q))
        /\ (In "check_out" fields <-> form_rejects form_date (check_out_param q)))
  \/ (exists cs os,
        supplied (query_params_of q) "check_in" cs
        /\ supplied (query_params_of q) "check_out" os
        /\ form_date cs <> None /\ form_date os <> None
        /\ (parse_date cs = None \/ parse_date os = None)
        /\ fst (get_object form_date parse_date pk q db)
           = inl (Unhandled (Escaped ValidationError)))
  \/ (fst (get_object form_date parse_date pk q db) = inl Http404
      /\ forall obj, In obj (properties db) -> Property.id obj = pk ->
           exists s e,
             filter_applied form_date parse_date q s e
             /\ exclude_condition (overlapping_bookings s e) db obj = true)
  \/ (fst (get_object form_date parse_date pk q db)
      = inl (Unhandled MultipleObjectsReturned)
      /\ ~ NoDup (map Property.id (properties db)))
  \/ (exists obj,
        fst (get_object form_date parse_date pk q db) = inr obj
        /\ In obj (properties db) /\ Property.id obj = pk
        /\ forall s e, filter_applied form_date parse_date q s e ->
             exclude_condition (overlapping_bookings s e) db obj = false).
Proof.
  unfold get_object.
  destruct (filter_queryset_cases form_date parse_date q all_properties)
    as [(R & fields & E & H1 & H2)
       | [(cs & os & Hci & Hco & Fci & Fco & P & E)
         | [(s & e & Ha & E) | (N & E)]]]; rewrite E.
  - left. split; [exact R|]. exists fields.
    split; [reflexivity | split; assumption].
  - right; left. exists cs, os. repeat (split; [assumption|]). reflexivity.
  - (* both filters ran *)
    unfold bind, evaluate, ret.
    set (kept := distinct (exclude (overlapping_bookings s e)
                   (distinct (exclude (overlapping_bookings s e) all_properties))) db).
    assert (Hin : forall p, In p kept <->
                    In p (properties db)
                    /\ exclude_condition (overlapping_bookings s e) db p = false).
    { intros p. unfold kept. rewrite !exclude_distinct_In.
      unfold all_properties. tauto. }
    destruct (get_rows_cases pk kept (properties db))
      as [[Er Hnone] | [(obj & Er & Hk & Hp & Hid) | (a & b & r & Er & Hd)]].
    + intros p Hp. now apply Hin in Hp.
    + intros H. unfold kept. do 2 apply exclude_distinct_NoDup. exact H.
    + right; right; left. rewrite Er. split; [reflexivity|].
      intros obj Hp Hid. exists s, e. split; [exact Ha|].
      destruct (exclude_condition (overlapping_bookings s e) db obj) eqn:C;
        [reflexivity|].
      exfalso. apply (Hnone obj Hp Hid). apply Hin. now split.
    + right; right; right; right. rewrite Er. exists obj.
      repeat split; auto.
      intros s' e' Ha'.
      destruct (filter_applied_fun _ _ _ _ _ _ _ Ha Ha') as [<- <-].
      now apply Hin in Hk.
    + right; right; right; left. rewrite Er. now split.
  - (* a date is missing: no filter ran *)
    unfold bind, evaluate, ret.
    destruct (get_rows_cases pk (all_properties db) (properties db))
      as [[Er Hnone] | [(obj & Er & Hk & Hp & Hid) | (a & b & r & Er & Hd)]].
    + intros p Hp. exact Hp.
    + intros H. exact H.
    + right; right; left. rewrite Er. split; [reflexivity|].
      intros obj Hp Hid. exfalso. exact (Hnone obj Hp Hid Hp).
    + right; right; right; right. rewrite Er. exists obj.
      repeat split; auto.
      intros s' e' (cs & os & Eci & Nci & Eco & Nco & _).
      destruct N as [N | N]; [rewrite Eci in N | rewrite Eco in N];
        cbn in N; apply String.eqb_eq in N; congruence.
    + right; right; right; left. rewrite Er. now split.
Qed.

Lemma calculate_price_route_inl
    (form_date parse_date strptime : string -> option date) (pk : Z)
    (q : DateQuery) (db : Database) (answer : RouteAnswer) :
  fst (get_object form_date parse_date pk q db) = inl answer ->
  calculate_price_route form_date parse_date strptime pk q db = (answer, db).
Proof.
  intros H. unfold calculate_price_route, bind.
  pose proof (get_object_reads_only form_date parse_date pk q db) as Hdb.
  destruct (get_object form_date parse_date pk q db) as [found db'].
  cbn in H, Hdb. subst. reflexivity.
Qed.

Lemma calculate_price_route_inr
    (form_date parse_date strptime : string -> option date) (pk : Z)
    (q : DateQuery) (db : Database) (obj : Property.t) :
  fst (get_object form_date parse_date pk q db) = inr obj ->
  exists response,
    calculate_price strptime obj (query_params_of q) db = (Ok response, db)
    /\ calculate_price_route form_date parse_date strptime pk q db
       = (Answered response, db).
Proof.
  intros H. unfold calculate_price_route, bind.
  pose proof (get_object_reads_only form_date parse_date pk q db) as Hdb.
  destruct (get_object form_date parse_date pk q db) as [found db'].
  cbn in H, Hdb. subst.
  pose proof (calculate_price_reads_only strptime obj (query_params_of q) db) as Hb.
  pose proof (calculate_price_never_raises strptime obj (query_params_of q) db) as Hr.
  destruct (calculate_price strptime obj (query_params_of q) db) as [[r | e] db'].
  - cbn in Hb. subst. exists r. split; reflexivity.
  - exfalso. exact (Hr e eq_refl).
Qed.




(* ===================================================================== *)
(** ** Pricing calculator on the route: the claims                        *)
(* ===================================================================== *)








(* ===================================================================== *)
(** ** The answers of the route                                           *)
(* ===================================================================== *)

Lemma get_object_form_rejects (form_date parse_date : string -> option date)
    (pk : Z) (q : DateQuery) (db : Database) :
  form_rejects form_date (check_in_param q)
  \/ form_rejects form_date (check_out_param q) ->
  exists fields,
    fst (get_object form_date parse_date pk q db) = inl (FilterError fields).
Proof.
  intros R. unfold get_object, filter_queryset.
  rewrite get_check_in, get_check_out.
  destruct R as [R | R]; apply clean_date_Invalid in R; rewrite R.
  - eexists. reflexivity.
  - destruct (clean_date form_date (check_in_param q)); eexists; reflexivity.
Qed.

Lemma get_object_orm_rejects (form_date parse_date : string -> option date)
    (pk : Z) (q : DateQuery) (db : Database) :
  form_accepts form_date q ->
  orm_rejects parse_date q ->
  fst (get_object form_date parse_date pk q db)
  = inl (Unhandled (Escaped ValidationError)).
Proof.
  intros [Aci Aco] (cs & os & Eci & Nci & Eco & Nco & P).
  unfold get_object.
  destruct (filter_queryset_cases form_date parse_date q all_properties)
    as [(R & _)
       | [(cs' & os' & _ & _ & _ & _ & _ & E)
         | [(s & e & Ha & _) | (N & _)]]].
  - tauto.
  - now rewrite E.
  - destruct Ha as (cs' & os' & Eci' & _ & Eco' & _ & _ & _ & Ps & Pe).
    destruct P; congruence.
  - destruct N as [N | N]; [rewrite Eci in N | rewrite Eco in N];
      cbn in N; apply String.eqb_eq in N; congruence.
Qed.

(** X1. Every request
    [GET /api/properties/{pk}/calculate_price/?check_in=..&check_out=..]
    is answered by the first of these that applies, and the database is
    handed on as it was.  (1) A date that the filter form rejects gives the
    HTTP 400 of the filter with the errors of the rejected fields, also
    when the other date is missing.  (2) Both dates are given and one is
    not converted by the ORM: its [ValidationError] escapes.  (3) 404 Not
    Found when the [exclude()] condition of the availability filter, run on
    the two dates, holds of every property with the key; in particular
    when no property has the key.  (4) [MultipleObjectsReturned], only when
    two rows share a primary key.  (5) Otherwise [get_object()] returns a
    property with the key that the filter kept, and the body answers: a
    missing or empty date gives the "required" error; otherwise a date
    that [strptime] does not parse gives the "invalid format" error;
    otherwise [check_out <= check_in] gives the "invalid range" error;
    otherwise the answer is a breakdown for that property. *)
Theorem calculate_price_route_outcomes :
  forall (form_date parse_date strptime : string -> option date) (pk : Z)
         (q : DateQuery) (db : Database),
    exists answer,
      calculate_price_route form_date parse_date strptime pk q db = (answer, db)
      /\ (((form_rejects form_date (check_in_param q)
            \/ form_rejects form_date (check_out_param q))
           /\ exists fields,
                answer = FilterError fields
                /\ (In "check_in" fields
                    <-> form_rejects form_date (check_in_param q))
                /\ (In "check_out" fields
                    <-> form_rejects form_date (check_out_param q)))
          \/ (form_accepts form_date q
              /\ ((orm_rejects parse_date q
                   /\ answer = Unhandled (Escaped ValidationError))
                  \/ (~ orm_rejects parse_date q
                      /\ ((answer = Http404
                           /\ forall obj,
                                In obj (properties db) -> Property.id obj = pk ->
                                exists s e,
                                  filter_applied form_date parse_date q s e
                                  /\ exclude_condition (overlapping_bookings s e)
                                       db obj = true)
                          \/ (answer = Unhandled MultipleObjectsReturned
                              /\ ~ NoDup (map Property.id (properties db)))
                          \/ (exists obj,
                                In obj (properties db) /\ Property.id obj = pk
                                /\ (forall s e,
                                      filter_applied form_date parse_date q s e ->
                                      exclude_condition (overlapping_bookings s e)
                                        db obj = false)
                                /\ (((not_ (check_in_param q) = true
                                      \/ not_ (check_out_param q) = true)
                                     /\ answer = Answered (Response_400 error_required))
                                    \/ exists cs os,
                                         supplied (query_params_of q) "check_in" cs
                                         /\ supplied (query_params_of q) "check_out" os
                                         /\ (((strptime cs = None \/ strptime os = None)
                                              /\ answer
                                                 = Answered
                                                     (Response_400 error_invalid_format))
                                             \/ exists check_in check_out,
                                                  strptime cs = Some check_in
                                                  /\ strptime os = Some check_out
                                                  /\ ((check_out <= check_in
                                                       /\ answer
                                                          = Answered
                                                              (Response_400
                                                                 error_invalid_range))
                                                      \/ (check_in < check_out
                                                          /\ exists data,
                                                               answer
                                                               = Answered (Response_200 data)
                                                               /\ Breakdown.property_id data
                                                                  = pk
                                                               /\ Breakdown.nights data
                                                                  = check_out - check_in)))))))))).
Proof.
  intros form_date parse_date strptime pk q db.
  assert (Hform : forall x,
            fst (get_object form_date parse_date pk q db) = x ->
            (forall fields, x <> inl (FilterError fields)) ->
            form_accepts form_date q).
  { intros x G Hx.
    assert (N : ~ (form_rejects form_date (check_in_param q)
                   \/ form_rejects form_date (check_out_param q))).
    { intros R.
      destruct (get_object_form_rejects form_date parse_date pk q db R)
        as [fields E].
      apply (Hx fields). congruence. }
    unfold form_accepts. tauto. }
  assert (Horm : forall x,
            fst (get_object form_date parse_date pk q db) = x ->
            (forall fields, x <> inl (FilterError fields)) ->
            x <> inl (Unhandled (Escaped ValidationError)) ->
            ~ orm_rejects parse_date q).
  { intros x G Hx Hx' R.
    apply Hx'. rewrite <- G.
    apply get_object_orm_rejects; [|exact R].
    exact (Hform x G Hx). }
  destruct (get_object_cases form_date parse_date pk q db)
    as [(R & fields & G & H1 & H2)
       | [(cs & os & Hci & Hco & Fci & Fco & P & G)
         | [(G & Hall) | [(G & Hd) | (obj & G & Hp & Hid & Hkept)]]]].
  - exists (FilterError fields).
    split; [now apply calculate_price_route_inl|].
    left. split; [exact R|]. exists fields. now split.
  - exists (Unhandled (Escaped ValidationError)).
    split; [now apply calculate_price_route_inl|].
    right. split; [apply (Hform _ G); discriminate|].
    left. split; [|reflexivity].
    exists cs, os. destruct Hci as [Eci Nci], Hco as [Eco Nco].
    rewrite get_check_in in Eci. rewrite get_check_out in Eco.
    now repeat (split; [assumption|]).
  - exists Http404. split; [now apply calculate_price_route_inl|].
    right. split; [apply (Hform _ G); discriminate|].
    right. split; [apply (Horm _ G); discriminate|].
    left. now split.
  - exists (Unhandled MultipleObjectsReturned).
    split; [now apply calculate_price_route_inl|].
    right. split; [apply (Hform _ G); discriminate|].
    right. split; [apply (Horm _ G); discriminate|].
    right; left. now split.
  - destruct (calculate_price_route_inr form_date parse_date strptime pk q db obj G)
      as (response & Hbody & Hroute).
    exists (Answered response). split; [exact Hroute|].
    right. split; [apply (Hform _ G); discriminate|].
    right. split; [apply (Horm _ G); discriminate|].
    right; right. exists obj.
    split; [exact Hp|]. split; [exact Hid|]. split; [exact Hkept|].
    rewrite <- get_check_in, <- get_check_out.
    destruct (calculate_price_body_outcomes strptime obj (query_params_of q) db)
      as [[N E] | (cs & os & Hci & Hco & [[P E] | (ci & co & Pci & Pco & [[Hle E] | [Hlt _]])])].
    + left. split; [exact N|]. congruence.
    + right. exists cs, os. split; [exact Hci|]. split; [exact Hco|].
      left. split; [exact P|]. congruence.
    + right. exists cs, os. split; [exact Hci|]. split; [exact Hco|].
      right. exists ci, co. split; [exact Pci|]. split; [exact Pco|].
      left. split; [exact Hle|]. congruence.
    + right. exists cs, os. split; [exact Hci|]. split; [exact Hco|].
      right. exists ci, co. split; [exact Pci|]. split; [exact Pco|].
      right. split; [exact Hlt|].
      assert (Hreq : stay_requested strptime (query_params_of q) ci co)
        by (exists cs, os; auto).
      destruct (calculate_price_valid strptime obj (query_params_of q) db ci co
                  Hreq Hlt) as (avg & _ & Hrun).
      rewrite Hrun in Hbody. inversion Hbody; subst response.
      eexists. split; [reflexivity|]. split; [exact Hid | reflexivity].
Qed.

(** The answers of [get_object()] on concrete requests: a date that the
    form rejects next to a missing date, a known and an unknown key. *)
Lemma get_object_examples :
  fst (get_object parse_iso parse_iso 1 (mkDateQuery (Some "tomorrow") None)
         scenario_B_db)
  = inl (FilterError ["check_in"])
  /\ fst (get_object parse_iso parse_iso 1
            (mkDateQuery (Some "tomorrow") (Some "2025-13-01")) scenario_B_db)
     = inl (FilterError ["check_in"; "check_out"])
  /\ fst (get_object parse_iso parse_iso 1 (mkDateQuery (Some "2025-12-01") None)
            booked_scenario_db)
     = inr scenario_property
  /\ fst (get_object parse_iso parse_iso 2 scenario_query scenario_B_db)
     = inl Http404
  /\ fst (get_object parse_iso (fun _ => None) 1 scenario_query scenario_B_db)
     = inl (Unhandled (Escaped ValidationError)).
Proof. vm_compute. repeat split; reflexivity. Qed.
